(** * Incident analysis pipeline: a shallow embedding of the Python sources

    The development follows the four source files of the AI engine:

    - [anomaly_detection.py]  (class [AnomalyPredictor])  -> [Module Anomaly]
    - [faiss_index.py]        (class [VectorSearch])      -> [Module VectorDB]
    - [rca_agent.py]          (class [RCAAgent])          -> [Module RCA]
    - [ai_engine_main.py]     (the FastAPI endpoints)     -> [Module Api]

    Python floats are modelled by rationals [Q]: every finite double is a
    rational, and the operations the properties below depend on ([abs], comparison,
    [max], [min]) are exact on doubles.  Python dictionaries read by key are
    [gmap]s; dictionaries whose order is observable (JSON documents) are
    association lists. *)

From Stdlib Require Import ZArith QArith Qabs Lia.
From Stdlib Require Import Strings.String Strings.Ascii.
From stdpp Require Import base option list gmap strings pretty.

Local Open Scope string_scope.
Local Open Scope list_scope.

(** ** Exceptions and fallible computations *)

(** A raised Python exception: its class and the text [str(e)] gives.
    [HTTPException] is FastAPI's, raised by the endpoints. *)
Inductive exn : Type :=
| PyError (cls : string) (msg : string)
| HTTPException (status_code : Z) (detail : string).

Definition exn_class (e : exn) : string :=
  match e with
  | PyError cls _ => cls
  | HTTPException _ _ => "HTTPException"
  end.

(** [str(e)]; Starlette prints an [HTTPException] as "<status>: <detail>",
    the status is left out here as no endpoint formats one. *)
Definition exn_str (e : exn) : string :=
  match e with
  | PyError _ msg => msg
  | HTTPException _ detail => detail
  end.

Inductive result (A : Type) : Type :=
| Ok (a : A)
| Raise (e : exn).
Arguments Ok {A} a.
Arguments Raise {A} e.

(** [r] is a raised exception of class [cls]. *)
Definition fails_with_class {A} (r : result A) (cls : string) : Prop :=
  exists e, r = Raise e /\ exn_class e = cls.

Definition rbind {A B} (r : result A) (k : A -> result B) : result B :=
  match r with
  | Ok a => k a
  | Raise e => Raise e
  end.

Definition rmap {A B} (f : A -> B) (r : result A) : result B :=
  rbind r (fun a => Ok (f a)).

Notation "'try!' x <- r ; k" := (rbind r (fun x => k))
  (at level 10, x name, r at level 100, k at level 200).

(** Python slices. [l[-n:]] keeps the last [n] items, [l[:n]] the first. *)
Definition slice_last {A} (n : nat) (l : list A) : list A :=
  drop (length l - n) l.

Definition slice_first {A} (n : nat) (l : list A) : list A := take n l.

(** [sep.join(parts)] *)
Definition join (sep : string) (parts : list string) : string :=
  String.concat sep parts.

(** [needle in hay] on strings. *)
Definition mentions (hay needle : string) : Prop :=
  exists pre post, hay = pre +:+ needle +:+ post.

(** ** anomaly_detection.py *)

Module Anomaly.

Local Open Scope Q_scope.

(** One element of [metrics_data]: the dictionary's ["timestamp"] entry (a
    [datetime], here seconds) and its numeric entries by metric name. *)
Record sample : Type := Sample {
  timestamp : Z;
  values : gmap string Q
}.

(** [metric.get(key, default)] *)
Definition get (metric : gmap string Q) (key : string) (dflt : Q) : Q :=
  default dflt (metric !! key).

Definition Qgtb (x y : Q) : bool := negb (Qle_bool x y).

(** The fitted estimator and scaler are objects of scikit-learn, loaded with
    joblib; each call on a fitted object is a function of the matrix.
    [model_predict] is the estimator's [predict]. *)
Record Model : Type := {
  model_predict : list (list Q) -> list Z;
  score_samples : list (list Q) -> list Q
}.

Record Scaler : Type := {
  transform : list (list Q) -> list (list Q)
}.

Record AnomalyPredictor : Type := {
  model_path : string;
  scaler : Scaler;
  model : Model
}.

(** *** [_prepare_features] *)

Definition feature_vector (metric : gmap string Q) : list Q :=
  [ get metric "cpu_usage" 0;
    get metric "memory_usage" 0;
    get metric "response_time" 0;
    get metric "error_rate" 0;
    get metric "request_rate" 0;
    get metric "network_rx" 0;
    get metric "network_tx" 0 ].

Definition _prepare_features (metrics_data : list sample) : list (list Q) :=
  map (fun metric => feature_vector (values metric)) metrics_data.


(** The names [train] lists as [feature_columns], in the same order. *)
Definition feature_columns : list string :=
  [ "cpu_usage"; "memory_usage"; "response_time";
    "error_rate"; "request_rate"; "network_rx"; "network_tx" ].

(** *** [_get_recommendation] *)

(** The literal [0.05] of the error-rate test: the double it denotes is
    3602879701896397 / 2^56, a little above 1/20. *)
Definition error_rate_threshold : Q := 3602879701896397 # 72057594037927936.

Definition _get_recommendation (is_anomaly : bool) (metrics : gmap string Q)
  : string :=
  if negb is_anomaly then
    "No action required - metrics within normal range"
  else
    let recommendations : list string := [] in
    let recommendations :=
      if Qgtb (get metrics "cpu_usage" 0) 80 then
        recommendations ++ ["High CPU detected - consider scaling horizontally"]
      else recommendations in
    let recommendations :=
      if Qgtb (get metrics "memory_usage" 0) 85 then
        recommendations ++
          ["High memory usage - check for memory leaks or increase limits"]
      else recommendations in
    let recommendations :=
      if Qgtb (get metrics "response_time" 0) 1000 then
        recommendations ++
          ["Elevated response time - investigate database queries or external API calls"]
      else recommendations in
    let recommendations :=
      if Qgtb (get metrics "error_rate" 0) error_rate_threshold then
        recommendations ++
          ["High error rate - check application logs for exceptions"]
      else recommendations in
    match recommendations with
    | [] => "Anomaly detected - manual investigation recommended"
    | _ => join " | " recommendations
    end.

(** *** [predict] *)

(** One dictionary of the list [predict] returns. *)
Record verdict : Type := Verdict {
  v_timestamp : Z;
  is_anomaly : bool;
  score : Q;
  confidence : Q;
  v_metrics : sample;
  recommendation : string
}.

(** The loop over [enumerate(zip(predictions, anomaly_scores))]; indexing
    [metrics_data[idx]] past the end raises [IndexError]. *)
Fixpoint results_loop (metrics_data : list sample) (idx : nat)
    (zipped : list (Z * Q)) : result (list verdict) :=
  match zipped with
  | [] => Ok []
  | (pred, score) :: rest =>
      match metrics_data !! idx with
      | None => Raise (PyError "IndexError" "list index out of range")
      | Some metric =>
          let is_anomaly := (pred =? -1)%Z in
          let item :=
            {| v_timestamp := timestamp metric;
               is_anomaly := is_anomaly;
               score := score;
               confidence := Qabs score;
               v_metrics := metric;
               recommendation := _get_recommendation is_anomaly (values metric) |} in
          try! results <- results_loop metrics_data (S idx) rest;
          Ok (item :: results)
      end
  end.

(** The body of [predict] after the metrics were fetched: features, scaling,
    the two calls on the model and the result loop. *)
Definition predict_on (self : AnomalyPredictor) (metrics_data : list sample)
  : result (list verdict) :=
  let features := _prepare_features metrics_data in
  let features_scaled := transform (scaler self) features in
  let predictions := model_predict (model self) features_scaled in
  let anomaly_scores := score_samples (model self) features_scaled in
  results_loop metrics_data 0 (zip predictions anomaly_scores).

(** *** [_fetch_metrics] *)

(** NumPy's global generator: the stream of standard normal draws still to
    come.  [np.random.normal(loc, scale)] takes the next one. *)
Definition rng : Type := nat -> Q.

Definition normal (loc scale : Q) (g : rng) : Q * rng :=
  (loc + scale * g 0%nat, fun n => g (S n)).

(** Python's two-argument [max] and [min] (the first argument wins a tie). *)
Definition py_max (a b : Q) : Q := if Qgtb b a then b else a.
Definition py_min (a b : Q) : Q := if Qgtb a b then b else a.

Definition timedelta_minutes (m : Z) : Z := (60 * m)%Z.

(** One turn of the loop [for i in range(60)]. *)
Definition fetch_point (now : Z) (i : nat) (g : rng) : sample * rng :=
  let timestamp := (now - timedelta_minutes (60 - Z.of_nat i))%Z in
  let '(n, g) := normal 0 10 g in
  let base_cpu := 50 + n in
  let '(n, g) := normal 0 8 g in
  let base_memory := 60 + n in
  let '(n, g) := normal 0 30 g in
  let base_response_time := 200 + n in
  let '(base_cpu, base_memory, base_response_time) :=
    if Nat.eqb i 45 then (95, 92, 3500)
    else (base_cpu, base_memory, base_response_time) in
  let '(n_err, g) := normal (1 # 100) (5 # 1000) g in
  let '(n_req, g) := normal 0 15 g in
  let '(n_rx, g) := normal 0 200 g in
  let '(n_tx, g) := normal 0 150 g in
  ({| timestamp := timestamp;
      values :=
        <[ "cpu_usage" := py_max 0 (py_min 100 base_cpu) ]>
        (<[ "memory_usage" := py_max 0 (py_min 100 base_memory) ]>
        (<[ "response_time" := py_max 0 base_response_time ]>
        (<[ "error_rate" := py_max 0 (py_min 1 n_err) ]>
        (<[ "request_rate" := py_max 0 (100 + n_req) ]>
        (<[ "network_rx" := py_max 0 (1000 + n_rx) ]>
        (<[ "network_tx" := py_max 0 (800 + n_tx) ]> ∅)))))) |}, g).

Fixpoint fetch_loop (now : Z) (range : list nat) (g : rng)
  : list sample * rng :=
  match range with
  | [] => ([], g)
  | i :: range =>
      let '(point, g) := fetch_point now i g in
      let '(metrics, g) := fetch_loop now range g in
      (point :: metrics, g)
  end.

(** [now] is the reading of [datetime.utcnow()], [g] the generator's state;
    the updated generator is returned with the metrics. *)
Definition _fetch_metrics (service_name time_window : string) (now : Z) (g : rng)
  : list sample * rng :=
  fetch_loop now (seq 0 60) g.

Definition predict (self : AnomalyPredictor) (service_name : string)
    (time_window : string) (now : Z) (g : rng)
  : result (list verdict) * rng :=
  let '(metrics_data, g) := _fetch_metrics service_name time_window now g in
  (predict_on self metrics_data, g).

(** What the determinism property compares of one output element. *)
Definition outcome (v : verdict) : Q * bool * Q :=
  (score v, is_anomaly v, confidence v).

(** A verdict that some run of the scoring stage returned. *)
Definition produced_by_scoring (v : verdict) : Prop :=
  exists (self : AnomalyPredictor) (metrics_data : list sample)
         (results : list verdict),
    predict_on self metrics_data = Ok results /\ In v results.

End Anomaly.

(** ** JSON values and Python objects built from them *)

Set Warnings "-register-all".

(** What [json.loads] returns and [json.dumps] takes.  An object keeps its
    keys in insertion order, as a Python [dict] does. *)
Inductive json : Type :=
| JNull
| JBool (b : bool)
| JInt (z : Z)
| JFloat (q : Q)
| JStr (s : string)
| JArr (items : list json)
| JObj (fields : list (string * json)).

Definition pydict : Type := list (string * json).

Fixpoint assoc (key : string) (d : pydict) : option json :=
  match d with
  | [] => None
  | (k, v) :: d => if String.eqb k key then Some v else assoc key d
  end.

(** [d.get(key, default)] *)
Definition dict_get (d : pydict) (key : string) (dflt : json) : json :=
  default dflt (assoc key d).

(** [d[key]]; a [KeyError] prints as the [repr] of the key. *)
Definition getitem (d : pydict) (key : string) : result json :=
  match assoc key d with
  | Some v => Ok v
  | None => Raise (PyError "KeyError" ("'" +:+ key +:+ "'"))
  end.

(** [type(value).__name__] of a parsed JSON value. *)
Definition type_name (value : json) : string :=
  match value with
  | JNull => "NoneType"
  | JBool _ => "bool"
  | JInt _ => "int"
  | JFloat _ => "float"
  | JStr _ => "str"
  | JArr _ => "list"
  | JObj _ => "dict"
  end.

(** Python's standard library and the libraries the service runs on, as far
    as the sources call them. *)
Class PyRuntime : Type := {
  (** [json.loads(text)]; raises [JSONDecodeError] on malformed text *)
  json_loads : string -> result json;
  (** [json.dumps(value, indent=2)] *)
  json_dumps : json -> string;
  (** [str(value)] for a value that is neither [None] nor a [str] *)
  py_repr : json -> string;
  (** [datetime.isoformat()] *)
  isoformat : Z -> string
}.

(** A value formatted inside an f-string. *)
Definition fstr `{PyRuntime} (v : option json) : string :=
  match v with
  | None | Some JNull => "None"
  | Some (JStr s) => s
  | Some v => py_repr v
  end.

(** ** faiss_index.py *)

Module VectorDB.

(** [index] stands for the FAISS [IndexFlatL2]: the vectors added so far. *)
Record VectorSearch : Type := {
  dimension : nat;
  index_path : string;
  index : list (list Q);
  metadata : list json
}.

(** [__init__] when no index file exists. *)
Definition init (dimension : nat) (index_path : string) : VectorSearch :=
  {| dimension := dimension; index_path := index_path;
     index := []; metadata := [] |}.

Definition stub_match : pydict :=
  [ ("incident_id", JStr "INC-2024-100");
    ("root_cause", JStr "Memory leak in service");
    ("similarity", JFloat (89 # 100)) ].

Definition find_similar_incidents (self : VectorSearch) (service : string)
    (logs : list string) (top_k : Z) : list pydict :=
  [ stub_match ].

(** The body is [pass]. *)
Definition store_incident (self : VectorSearch) (incident_id : string)
    (data : pydict) : VectorSearch :=
  self.

End VectorDB.

(** ** rca_agent.py *)

Module RCA.

(** The keyword arguments of [client.chat.completions.create]. *)
Record chat_request : Type := {
  cr_model : string;
  cr_system : string;
  cr_user : string;
  cr_temperature : Q;
  cr_max_tokens : Z;
  cr_response_format : string
}.

(** [create] stands for the call on the Azure OpenAI client followed by
    [response.choices[0].message.content]; it raises when the service does
    (a timeout, a connection or an API error). *)
Record RCAAgent : Type := {
  create : chat_request -> result string;
  deployment : string
}.

Definition nl : string := String (ascii_of_nat 10) EmptyString.
Definition dq : string := String (ascii_of_nat 34) EmptyString.

(** A line of the JSON template of the system prompt: two spaces, the quoted
    key, a colon and the rest. *)
Definition template_line (key rest : string) : string :=
  "  " +:+ dq +:+ key +:+ dq +:+ ": " +:+ rest.

Definition _get_system_prompt : string :=
  join nl
    [ "You are an expert Site Reliability Engineer (SRE) and DevOps specialist with deep knowledge of:";
      "- Kubernetes and container orchestration";
      "- Cloud infrastructure (Azure, AWS, GCP)";
      "- Application performance monitoring";
      "- Distributed systems debugging";
      "- Infrastructure as Code (Terraform, Helm)";
      "";
      "Your task is to analyze incidents and provide:";
      "1. Clear, concise root cause identification";
      "2. Severity assessment (critical/high/medium/low)";
      "3. Confidence score (0.0 to 1.0)";
      "4. Impact assessment on users/services";
      "5. Contributing factors";
      "6. Incident timeline";
      "7. Actionable remediation recommendations";
      "";
      "Always respond in valid JSON format with these fields:";
      "{";
      template_line "root_cause"
        (dq +:+ "Clear explanation of the primary cause" +:+ dq +:+ ",");
      template_line "severity" (dq +:+ "critical|high|medium|low" +:+ dq +:+ ",");
      template_line "confidence" "0.0-1.0,";
      template_line "impact_assessment"
        (dq +:+ "Description of user/business impact" +:+ dq +:+ ",");
      template_line "contributing_factors"
        ("[" +:+ dq +:+ "factor1" +:+ dq +:+ ", " +:+ dq +:+ "factor2" +:+ dq +:+ "],");
      template_line "timeline"
        ("[{" +:+ dq +:+ "time" +:+ dq +:+ ": " +:+ dq +:+ "HH:MM" +:+ dq +:+ ", "
         +:+ dq +:+ "event" +:+ dq +:+ ": " +:+ dq +:+ "description" +:+ dq +:+ "}],");
      template_line "recommendations"
        ("[" +:+ dq +:+ "action1" +:+ dq +:+ ", " +:+ dq +:+ "action2" +:+ dq +:+ "]");
      "}" ].

Section WithRuntime.
Context `{rt : PyRuntime}.

(** [now] is the reading of [datetime.utcnow()] the prompt embeds. *)
Definition _create_rca_prompt (now : Z) (incident_id context : string) : string :=
  "Analyze the following incident and provide root cause analysis." +:+ nl
  +:+ nl
  +:+ "**Incident ID**: " +:+ incident_id +:+ nl
  +:+ "**Timestamp**: " +:+ isoformat now +:+ nl
  +:+ nl
  +:+ context +:+ nl
  +:+ nl
  +:+ "Provide a comprehensive root cause analysis in JSON format.".

(** Python truthiness of an optional list: [None] and [[]] are false. *)
Definition truthy {A} (l : option (list A)) : bool :=
  match l with
  | Some (_ :: _) => true
  | _ => false
  end.

Definition some_list {A} (l : option (list A)) : list A := default [] l.

Definition format_incident (inc : pydict) : string :=
  "- **" +:+ fstr (assoc "incident_id" inc) +:+ "**: "
  +:+ fstr (assoc "root_cause" inc).

(** The list [context_parts] at the [return] of [_prepare_context]. *)
Definition context_parts (metrics : pydict) (logs : list string)
    (traces : option (list pydict)) (similar_incidents : option (list pydict))
  : list string :=
  let context_parts : list string := [] in
  (* Add metrics *)
  let context_parts :=
    context_parts ++ ["## METRICS"; "```json"; json_dumps (JObj metrics); "```"] in
  (* Add logs: the last 50 lines *)
  let context_parts := context_parts ++ [nl +:+ "## RECENT LOGS"; "```"] in
  let context_parts := context_parts ++ slice_last 50 logs in
  let context_parts := context_parts ++ ["```"] in
  (* Add traces if available *)
  let context_parts :=
    if truthy traces then
      context_parts ++
        [ nl +:+ "## DISTRIBUTED TRACES"; "```json";
          json_dumps (JArr (map JObj (slice_first 10 (some_list traces))));
          "```" ]
    else context_parts in
  (* Add similar incidents *)
  let context_parts :=
    if truthy similar_incidents then
      (context_parts ++ [nl +:+ "## SIMILAR PAST INCIDENTS"])
        ++ map format_incident (slice_first 3 (some_list similar_incidents))
    else context_parts in
  context_parts.

Definition _prepare_context (metrics : pydict) (logs : list string)
    (traces : option (list pydict)) (similar_incidents : option (list pydict))
  : string :=
  join nl (context_parts metrics logs traces similar_incidents).

(** The dictionary [analyze] returns, by key. *)
Record rca_result : Type := {
  root_cause : json;
  severity : json;
  confidence : json;
  impact : json;
  contributing_factors : json;
  timeline : json;
  recommendations : json
}.

(** [.get] on the parsed reply: a JSON object is a [dict]; any other value
    has no [get]. *)
Definition as_dict (value : json) : result pydict :=
  match value with
  | JObj fields => Ok fields
  | _ => Raise (PyError "AttributeError"
                  ("'" +:+ type_name value +:+ "' object has no attribute 'get'"))
  end.

(** The request [analyze] sends: the context, the prompt built from it and
    the keyword arguments of the call. *)
Definition analysis_request (self : RCAAgent) (now : Z) (incident_id : string)
    (metrics : pydict) (logs : list string) (traces : option (list pydict))
    (similar_incidents : option (list pydict)) : chat_request :=
  (* Prepare context for the LLM *)
  let context := _prepare_context metrics logs traces similar_incidents in
  (* Create the RCA prompt *)
  let prompt := _create_rca_prompt now incident_id context in
  {| cr_model := deployment self;
     cr_system := _get_system_prompt;
     cr_user := prompt;
     cr_temperature := 2 # 10;
     cr_max_tokens := 2000;
     cr_response_format := "json_object" |}.

Definition analyze (self : RCAAgent) (now : Z) (incident_id : string)
    (metrics : pydict) (logs : list string) (traces : option (list pydict))
    (similar_incidents : option (list pydict)) : result rca_result :=
  (* Call Azure OpenAI *)
  try! content <-
    create self (analysis_request self now incident_id metrics logs traces
                   similar_incidents);
  (* Parse the response *)
  try! parsed <- json_loads content;
  try! result <- as_dict parsed;
  Ok {| root_cause := dict_get result "root_cause" (JStr "Unknown");
        severity := dict_get result "severity" (JStr "medium");
        confidence := dict_get result "confidence" (JFloat 0);
        impact := dict_get result "impact_assessment" (JStr "Unknown impact");
        contributing_factors := dict_get result "contributing_factors" (JArr []);
        timeline := dict_get result "timeline" (JArr []);
        recommendations := dict_get result "recommendations" (JArr []) |}.

(** The ways the reasoning step fails on a request: the call raises (a
    timeout, say), the reply is not JSON, or it is JSON and not an object. *)
Inductive reasoning_failure (self : RCAAgent) (request : chat_request)
  : exn -> Prop :=
| call_raises (e : exn) :
    create self request = Raise e ->
    reasoning_failure self request e
| reply_malformed (content : string) (e : exn) :
    create self request = Ok content ->
    json_loads content = Raise e ->
    reasoning_failure self request e
| reply_not_object (content : string) (parsed : json) (e : exn) :
    create self request = Ok content ->
    json_loads content = Ok parsed ->
    as_dict parsed = Raise e ->
    reasoning_failure self request e.

End WithRuntime.

End RCA.

(** ** The remediation generator *)

Module Remediation.

(** Modelled from the spec: the class [FixGenerator] ([llm/fix_generator.py])
    is imported by the API and is not among the sources.  Section 4.5 of the
    specification gives its contract: [apply] executes immediately and is
    idempotent per [(incident_id, fix_type)], a second call with the same key
    returns the cached result without re-executing side effects; [propose]
    returns a stable reference, repeated calls with the same key return the
    same reference.  The state keeps the two caches and the log of the side
    effects executed so far. *)
Record FixGenerator : Type := {
  applied : gmap (string * string) json;
  proposals : gmap (string * string) string;
  side_effects : list (string * string)
}.

(** Modelled from the spec: a generator that has applied and proposed
    nothing yet. *)
Definition init : FixGenerator :=
  {| applied := ∅; proposals := ∅; side_effects := [] |}.

Section WithEffects.
(** The side effect of applying a fix and the artifact it yields; what it
    yields may differ from one execution to the next, the second argument
    counts the executions before it. *)
Variable execute_fix : string * string -> nat -> json.
(** Opening a change proposal, likewise. *)
Variable open_proposal : string * string -> nat -> string.

(** Modelled from the spec: [apply(incident_id, fix_type)], memoised by its
    key ([FixGenerator.apply_fix] is not among the sources). *)
Definition apply_fix (self : FixGenerator) (incident_id fix_type : string)
  : json * FixGenerator :=
  let key := (incident_id, fix_type) in
  match applied self !! key with
  | Some cached => (cached, self)
  | None =>
      let artifact := execute_fix key (length (side_effects self)) in
      (artifact,
       {| applied := <[ key := artifact ]> (applied self);
          proposals := proposals self;
          side_effects := side_effects self ++ [key] |})
  end.

(** Modelled from the spec: [propose(incident_id, fix_type)], the stable
    reference of a reviewable artifact ([FixGenerator.create_pull_request] is
    not among the sources). *)
Definition create_pull_request (self : FixGenerator) (incident_id fix_type : string)
  : string * FixGenerator :=
  let key := (incident_id, fix_type) in
  match proposals self !! key with
  | Some reference => (reference, self)
  | None =>
      let reference := open_proposal key (size (proposals self)) in
      (reference,
       {| applied := applied self;
          proposals := <[ key := reference ]> (proposals self);
          side_effects := side_effects self |})
  end.

End WithEffects.

End Remediation.

(** ** ai_engine_main.py *)

Module Api.

(** An [int] that a [float] holds exactly: every integer up to 2^53 in
    absolute value is a double.  Beyond that the conversion rounds, and an
    [int] too large for a double is refused. *)
Definition exact_int (z : Z) : bool := (Z.abs z <=? 2 ^ 53)%Z.

(** Pydantic's validation of a response field against its annotation.  Only
    the conversions the endpoint relies on are fixed: a [str] field takes a
    [str] and refuses [None], a [float] field takes a [float] or an [int]
    that a [float] holds exactly, a [Dict[str, Any]] field takes a [dict]. *)
Class Pydantic : Type := {
  validate_str : json -> result string;
  validate_float : json -> result Q;
  validate_dict : json -> result pydict;
  validate_str_str : forall s, validate_str (JStr s) = Ok s;
  validate_str_none : forall s, validate_str JNull <> Ok s;
  validate_float_float : forall q, validate_float (JFloat q) = Ok q;
  validate_float_int :
    forall z, exact_int z = true -> validate_float (JInt z) = Ok (inject_Z z);
  validate_dict_obj : forall d, validate_dict (JObj d) = Ok d
}.

Record IncidentAnalysisRequest : Type := {
  req_incident_id : string;
  req_timestamp : Z;
  req_service_name : string;
  req_metrics : pydict;
  req_logs : list string;
  req_traces : option (list pydict);
  req_severity : option string
}.

Record IncidentAnalysisResponse : Type := {
  incident_id : string;
  root_cause : string;
  severity : string;
  confidence : Q;
  impact_assessment : string;
  recommended_fix : pydict;
  generated_code : string;
  similar_incidents : list pydict;
  timeline : list pydict
}.

(** A call queued with [background_tasks.add_task]; the only function the
    endpoints queue is [vector_search.store_incident]. *)
Inductive task : Type :=
| StoreIncident (incident_id : string) (data : pydict).

Definition run_task (vs : VectorDB.VectorSearch) (t : task) : VectorDB.VectorSearch :=
  match t with
  | StoreIncident incident_id data => VectorDB.store_incident vs incident_id data
  end.

(** A JSON number that a [float] field takes as it is, and its value: a
    [float], or an [int] that a [float] holds exactly. *)
Definition number_value (v : json) : option Q :=
  match v with
  | JFloat q => Some q
  | JInt z => if exact_int z then Some (inject_Z z) else None
  | _ => None
  end.

Definition string_value (v : json) : option string :=
  match v with
  | JStr s => Some s
  | _ => None
  end.

(** The fields of a reply that are present have the types the response
    model asks for: strings for [root_cause], [severity] and
    [impact_assessment], a number that a [float] holds for [confidence]. *)
Definition schema_typed (reply : pydict) : Prop :=
  (forall v, assoc "root_cause" reply = Some v -> is_Some (string_value v)) /\
  (forall v, assoc "severity" reply = Some v -> is_Some (string_value v)) /\
  (forall v, assoc "confidence" reply = Some v -> is_Some (number_value v)) /\
  (forall v, assoc "impact_assessment" reply = Some v -> is_Some (string_value v)).

(** The dictionary [generate_fix] returned has the two entries the response
    is built from, of the types the response model asks for. *)
Definition fix_well_formed (fix_code : pydict) : Prop :=
  (exists d, assoc "fix_details" fix_code = Some (JObj d)) /\
  (exists c, assoc "code" fix_code = Some (JStr c)).

Section Endpoints.
Context `{rt : PyRuntime} `{pyd : Pydantic}.
(** The module-level components. *)
Variable rca_agent : RCA.RCAAgent.
Variable vector_search : VectorDB.VectorSearch.
(** [fix_generator.generate_fix(root_cause, service_name, severity)]: the
    class is not among the sources, the call is taken as it is made. *)
Variable generate_fix : json -> string -> json -> result pydict.
(** The successive readings of [datetime.utcnow()] during one request. *)
Variable utcnow : nat -> Z.

Definition timeline_event (time event : string) : pydict :=
  [ ("time", JStr time); ("event", JStr event) ].

(** The request that reaches the reasoning service when the endpoint calls
    [rca_agent.analyze]. *)
Definition reasoning_request (request : IncidentAnalysisRequest) : RCA.chat_request :=
  RCA.analysis_request rca_agent (utcnow 0) (req_incident_id request)
    (req_metrics request) (req_logs request) (req_traces request)
    (Some (VectorDB.find_similar_incidents vector_search
             (req_service_name request) (slice_first 10 (req_logs request)) 3)).

(** The task the endpoint queues for a request whose analysis found
    [root_cause]. *)
Definition store_task (request : IncidentAnalysisRequest) (root_cause : json) : task :=
  StoreIncident (req_incident_id request)
    [ ("service", JStr (req_service_name request));
      ("root_cause", root_cause);
      ("logs", JArr (map JStr (req_logs request))) ].

(** The [try] block of [analyze_incident]; the second component is
    [background_tasks] when the block is left. *)
Definition analyze_incident_body (request : IncidentAnalysisRequest)
    (background_tasks : list task)
  : result IncidentAnalysisResponse * list task :=
  (* Step 1: Find similar past incidents *)
  let similar_incidents :=
    VectorDB.find_similar_incidents vector_search (req_service_name request)
      (slice_first 10 (req_logs request)) 3 in
  (* Step 2: Perform RCA using LLM *)
  match RCA.analyze rca_agent (utcnow 0) (req_incident_id request)
          (req_metrics request) (req_logs request) (req_traces request)
          (Some similar_incidents) with
  | Raise e => (Raise e, background_tasks)
  | Ok rca_result =>
  (* Step 3: Generate fix code *)
  match generate_fix (RCA.root_cause rca_result) (req_service_name request)
          (RCA.severity rca_result) with
  | Raise e => (Raise e, background_tasks)
  | Ok fix_code =>
  (* Step 4: Create incident timeline *)
  let timeline :=
    [ timeline_event (isoformat (req_timestamp request)) "Incident detected";
      timeline_event (isoformat (utcnow 1)) "RCA completed";
      timeline_event (isoformat (utcnow 2)) "Fix generated" ] in
  (* Background: Store incident in vector DB for future reference *)
  let background_tasks :=
    background_tasks ++ [ store_task request (RCA.root_cause rca_result) ] in
  (* the keyword arguments are evaluated, then pydantic validates them *)
  (try! fix_details <- getitem fix_code "fix_details";
   try! code <- getitem fix_code "code";
   try! root_cause <- validate_str (RCA.root_cause rca_result);
   try! severity <- validate_str (RCA.severity rca_result);
   try! confidence <- validate_float (RCA.confidence rca_result);
   try! impact_assessment <- validate_str (RCA.impact rca_result);
   try! recommended_fix <- validate_dict fix_details;
   try! generated_code <- validate_str code;
   Ok {| incident_id := req_incident_id request;
         root_cause := root_cause;
         severity := severity;
         confidence := confidence;
         impact_assessment := impact_assessment;
         recommended_fix := recommended_fix;
         generated_code := generated_code;
         similar_incidents := similar_incidents;
         timeline := timeline |},
   background_tasks)
  end end.

(** [analyze_incident]: the [try] block, and [except Exception as e] turning
    whatever was raised into an [HTTPException] with status 500. *)
Definition analyze_incident (request : IncidentAnalysisRequest)
    (background_tasks : list task)
  : result IncidentAnalysisResponse * list task :=
  match analyze_incident_body request background_tasks with
  | (Ok response, background_tasks) => (Ok response, background_tasks)
  | (Raise e, background_tasks) =>
      (Raise (HTTPException 500 ("Analysis failed: " +:+ exn_str e)),
       background_tasks)
  end.

(** The vector store once the queued tasks have run. *)
Definition run_tasks (tasks : list task) : VectorDB.VectorSearch :=
  foldl run_task vector_search tasks.

End Endpoints.

Section RemediationEndpoint.
Variable execute_fix : string * string -> nat -> json.
Variable open_proposal : string * string -> nat -> string.

(** [execute_remediation]; the module-level [fix_generator] is threaded as
    state.  Neither call on it raises in the model of the generator, so the
    [except] branch is not reached. *)
Definition execute_remediation (incident_id fix_type : string)
    (auto_approve : bool) (fix_generator : Remediation.FixGenerator)
  : result pydict * Remediation.FixGenerator :=
  if auto_approve then
    (* Execute immediately *)
    let '(result, fix_generator) :=
      Remediation.apply_fix execute_fix fix_generator incident_id fix_type in
    (Ok [ ("status", JStr "applied");
          ("incident_id", JStr incident_id);
          ("result", result) ],
     fix_generator)
  else
    (* Create PR for manual approval *)
    let '(pr_url, fix_generator) :=
      Remediation.create_pull_request open_proposal fix_generator
        incident_id fix_type in
    (Ok [ ("status", JStr "pending_approval");
          ("incident_id", JStr incident_id);
          ("pr_url", JStr pr_url) ],
     fix_generator).

End RemediationEndpoint.

End Api.

(** * Concrete components for the examples *)

Module Examples.

Import Anomaly.
Local Open Scope Q_scope.

(** scikit-learn's [StandardScaler.transform]: [(x - mean_) / scale_]
    column by column. *)
Definition standard_scaler (mean_ scale_ : list Q) : Scaler :=
  {| transform := fun X =>
       map (fun row =>
              zip_with (fun x ms => (x - fst ms) / snd ms) row (zip mean_ scale_))
           X |}.

(** A scoring rule in the shape of [IsolationForest]'s: a score at most 0 per
    row, lower for rows further from the scaled origin, and the label [-1]
    when the score is below the fitted offset. *)
Definition row_score (row : list Q) : Q :=
  - (foldr (fun x acc => Qabs x + acc) 0 row) / 20.

Definition threshold_model (offset_ : Q) : Model :=
  {| model_predict := fun X =>
       map (fun row => if Qgtb offset_ (row_score row) then (-1)%Z else 1%Z) X;
     score_samples := fun X => map row_score X |}.

Definition demo_predictor : AnomalyPredictor :=
  {| model_path := "models/anomaly_detector.pkl";
     scaler := standard_scaler [50; 60; 250; 1 # 100; 100; 1000; 800]
                               [15; 12; 50; 5 # 1000; 20; 200; 150];
     model := threshold_model (- (2 # 10)) |}.

(** Two states of the random generator: every draw 0, every draw 1. *)
Definition draws_zero : rng := fun _ => 0.
Definition draws_one : rng := fun _ => 1.

(** The metrics of the end-to-end scenarios A and B. *)
Definition scenario_A : gmap string Q :=
  <[ "cpu_usage" := 95 ]> (<[ "memory_usage" := 92 ]>
  (<[ "response_time" := 3500 ]> (<[ "error_rate" := 12 # 100 ]> ∅))).

Definition scenario_B : gmap string Q :=
  <[ "cpu_usage" := 45 ]> (<[ "memory_usage" := 55 ]>
  (<[ "response_time" := 180 ]> (<[ "error_rate" := 1 # 1000 ]> ∅))).


(** Two fetched samples: scenario B's metrics, then scenario A's. *)
Definition demo_data : list sample :=
  [ {| timestamp := 0; values := scenario_B |};
    {| timestamp := 60; values := scenario_A |} ].

(** The outcome of the first element of a run, its two rationals in lowest
    terms. *)
Definition first_outcome (r : result (list verdict)) : option (Q * bool * Q) :=
  match r with
  | Ok (v :: _) => Some (Qred (score v), is_anomaly v, Qred (confidence v))
  | _ => None
  end.

(** **** Stand-ins for the runtime, as a test would patch them in *)

(** A one-line rendering of a JSON value. *)
Fixpoint render (value : json) : string :=
  match value with
  | JNull => "null"
  | JBool b => if b then "true" else "false"
  | JInt z => pretty z
  | JFloat q => pretty (Qnum q) +:+ "/" +:+ pretty (Z.pos (Qden q))
  | JStr s => RCA.dq +:+ s +:+ RCA.dq
  | JArr items => "[" +:+ join ", " (map render items) +:+ "]"
  | JObj fields =>
      "{" +:+ join ", " (map (fun kv => RCA.dq +:+ fst kv +:+ RCA.dq +:+ ": "
                                        +:+ render (snd kv)) fields) +:+ "}"
  end.

(** A parser that knows the documents of [known]: the text of one gives it
    back, any other text is malformed. *)
Fixpoint loads_from (known : list json) (text : string) : result json :=
  match known with
  | [] => Raise (PyError "JSONDecodeError" "Expecting value: line 1 column 1 (char 0)")
  | value :: known =>
      if String.eqb (render value) text then Ok value else loads_from known text
  end.

(** The reply the unit test patches in, one that omits [confidence], one
    with a severity outside the four levels and a confidence of 5.0, one with
    a confidence of -1, and one that is an array. *)
Definition reply_full : json :=
  JObj [ ("root_cause", JStr "Memory leak"); ("severity", JStr "high");
         ("confidence", JFloat (9 # 10)) ].

Definition reply_without_confidence : json :=
  JObj [ ("root_cause", JStr "Connection pool exhausted");
         ("severity", JStr "high") ].

Definition reply_unchecked : json :=
  JObj [ ("root_cause", JStr "Memory leak"); ("severity", JStr "catastrophic");
         ("confidence", JFloat 5) ].

Definition reply_negative : json :=
  JObj [ ("root_cause", JStr "Memory leak"); ("severity", JStr "high");
         ("confidence", JInt (-1)) ].

Definition reply_array : json := JArr [ JStr "Memory leak" ].

(** A reply whose severity is [null] and whose confidence is missing. *)
Definition reply_null_severity : json :=
  JObj [ ("root_cause", JStr "Memory leak"); ("severity", JNull) ].

Definition known_replies : list json :=
  [ reply_full; reply_without_confidence; reply_unchecked; reply_negative;
    reply_array; reply_null_severity ].

#[local] Instance test_runtime : PyRuntime :=
  {| json_loads := loads_from known_replies;
     json_dumps := render;
     py_repr := render;
     isoformat := fun t => pretty t |}.

Definition validation_error (field : string) : exn :=
  PyError "ValidationError" ("1 validation error for IncidentAnalysisResponse: " +:+ field).

Definition test_validate_str (v : json) : result string :=
  match v with
  | JStr s => Ok s
  | _ => Raise (validation_error "Input should be a valid string")
  end.

Definition test_validate_float (v : json) : result Q :=
  match Api.number_value v with
  | Some q => Ok q
  | None => Raise (validation_error "Input should be a valid number")
  end.

Definition test_validate_dict (v : json) : result pydict :=
  match v with
  | JObj d => Ok d
  | _ => Raise (validation_error "Input should be a valid dictionary")
  end.

(** A stand-in for pydantic that takes the values the laws fix and refuses
    every other one. *)
#[local] Instance test_pydantic : Api.Pydantic.
Proof.
  refine {| Api.validate_str := test_validate_str;
            Api.validate_float := test_validate_float;
            Api.validate_dict := test_validate_dict |}.
  - reflexivity.
  - discriminate.
  - reflexivity.
  - intros z H. unfold test_validate_float, Api.number_value. now rewrite H.
  - reflexivity.
Defined.

(** An agent whose service replies with the rendering of [reply], and one
    whose call times out. *)
Definition agent_replying (reply : json) : RCA.RCAAgent :=
  {| RCA.create := fun _ => Ok (render reply); RCA.deployment := "gpt-4" |}.

Definition agent_replying_text (content : string) : RCA.RCAAgent :=
  {| RCA.create := fun _ => Ok content; RCA.deployment := "gpt-4" |}.

Definition agent_timing_out : RCA.RCAAgent :=
  {| RCA.create := fun _ => Raise (PyError "APITimeoutError" "Request timed out.");
     RCA.deployment := "gpt-4" |}.

Definition test_generate_fix (root_cause : json) (service_name : string)
    (severity : json) : result pydict :=
  Ok [ ("fix_details", JObj [ ("action", JStr "restart");
                              ("service", JStr service_name) ]);
       ("code", JStr "kubectl rollout restart deployment") ].

Definition failing_generate_fix (root_cause : json) (service_name : string)
    (severity : json) : result pydict :=
  Raise (PyError "RuntimeError" "no template for this root cause").

Definition test_clock (n : nat) : Z := (1705847400 + Z.of_nat n)%Z.

Definition test_store : VectorDB.VectorSearch :=
  VectorDB.init 768 "models/faiss.index".

(** The request of the example at the end of [rca_agent.py]. *)
Definition test_request : Api.IncidentAnalysisRequest :=
  {| Api.req_incident_id := "INC-2024-001";
     Api.req_timestamp := 1705847401;
     Api.req_service_name := "payment-service";
     Api.req_metrics :=
       [ ("cpu_usage_percent", JFloat (955 # 10));
         ("memory_usage_percent", JFloat (872 # 10));
         ("response_time_ms", JInt 3500);
         ("error_rate", JFloat (12 # 100)) ];
     Api.req_logs :=
       [ "2024-01-21 14:30:01 ERROR OutOfMemoryError: Java heap space";
         "2024-01-21 14:30:02 WARN Connection pool exhausted";
         "2024-01-21 14:30:03 ERROR Failed to allocate memory for order processing";
         "2024-01-21 14:30:05 INFO Attempting garbage collection";
         "2024-01-21 14:30:10 ERROR GC overhead limit exceeded" ];
     Api.req_traces := None;
     Api.req_severity := Some "medium" |}.

(** The artifact of a fix, numbered by the executions before it. *)
Definition test_execute_fix (key : string * string) (n : nat) : json :=
  JObj [ ("fix_type", JStr (snd key)); ("execution", JInt (Z.of_nat n)) ].

Definition test_open_proposal (key : string * string) (n : nat) : string :=
  "https://git.example/pulls/" +:+ pretty n.

End Examples.

(** * The rest of the sources *)

(** ** String helpers *)

Module Text.

(** [s.startswith(p)] *)
Fixpoint prefixb (p s : string) : bool :=
  match p, s with
  | EmptyString, _ => true
  | String a p, String b s => Ascii.eqb a b && prefixb p s
  | String _ _, EmptyString => false
  end.

(** [needle in hay], as a test. *)
Fixpoint contains (hay needle : string) : bool :=
  prefixb needle hay ||
  match hay with
  | EmptyString => false
  | String _ hay => contains hay needle
  end.

End Text.

(** ** anomaly_detection.py: what [predict] hands to its loop *)

Module Scoring.

Import Anomaly.

(** The pairs [zip(predictions, anomaly_scores)] that [predict] walks
    through for the fetched samples. *)
Definition scored_pairs (self : AnomalyPredictor) (metrics_data : list sample)
  : list (Z * Q) :=
  let features_scaled := transform (scaler self) (_prepare_features metrics_data) in
  zip (model_predict (model self) features_scaled)
      (score_samples (model self) features_scaled).

(** The scaler and the model keep the number of rows, as scikit-learn's
    fitted [transform], [predict] and [score_samples] do. *)
Definition row_wise (self : AnomalyPredictor) : Prop :=
  forall X : list (list Q),
    length (transform (scaler self) X) = length X /\
    length (model_predict (model self) X) = length X /\
    length (score_samples (model self) X) = length X.

(** The generator after [k] more draws. *)
Definition advance (k : nat) (g : rng) : rng := fun n => g (k + n)%nat.

End Scoring.

(** ** rca_agent.py: [process_chat_query] *)

Module Chat.

Import RCA.

Section WithRuntime.
Context `{rt : PyRuntime}.

(** [context] is the request's [Optional[str]]; [None] prints as "None". *)
Definition chat_prompt (query : string) (context : option string) : string :=
  "You are a helpful DevOps assistant. Answer the following query about the "
  +:+ default "None" context +:+ " environment." +:+ nl
  +:+ nl
  +:+ "Query: " +:+ query +:+ nl
  +:+ nl
  +:+ "Provide a helpful response with relevant metrics, visualizations suggestions, and actionable insights."
  +:+ nl
  +:+ "Respond in JSON format with fields: answer, metrics (dict), charts (list of chart configs).".

Definition chat_request_of (self : RCAAgent) (query : string)
    (context : option string) : chat_request :=
  {| cr_model := deployment self;
     cr_system := "You are a helpful DevOps and SRE assistant.";
     cr_user := chat_prompt query context;
     cr_temperature := 3 # 10;
     cr_max_tokens := 1500;
     cr_response_format := "json_object" |}.

Definition process_chat_query (self : RCAAgent) (query : string)
    (context : option string) : result json :=
  try! content <- create self (chat_request_of self query context);
  json_loads content.

(** [value[key]] with a string key: only a [dict] can be indexed by one. *)
Definition subscript (value : json) (key : string) : result json :=
  match value with
  | JObj fields => getitem fields key
  | JStr _ => Raise (PyError "TypeError" "string indices must be integers, not 'str'")
  | JArr _ =>
      Raise (PyError "TypeError" "list indices must be integers or slices, not str")
  | _ => Raise (PyError "TypeError"
                  ("'" +:+ type_name value +:+ "' object is not subscriptable"))
  end.

(** ai_engine_main.py: [ChatQueryRequest] and the endpoint [chat_query]. *)
Record ChatQueryRequest : Type := {
  query : string;
  context : option string;
  user_id : option string
}.

Section Endpoint.
Variable rca_agent : RCAAgent.
Variable utcnow : nat -> Z.

Definition chat_query_body (request : ChatQueryRequest) : result pydict :=
  try! response <- process_chat_query rca_agent (query request) (context request);
  try! answer <- subscript response "answer";
  try! fields <- as_dict response;
  Ok [ ("query", JStr (query request));
       ("response", answer);
       ("data", dict_get fields "metrics" (JObj []));
       ("visualizations", dict_get fields "charts" (JArr []));
       ("timestamp", JStr (isoformat (utcnow 0))) ].

Definition chat_query (request : ChatQueryRequest) : result pydict :=
  match chat_query_body request with
  | Ok reply => Ok reply
  | Raise e => Raise (HTTPException 500 ("Query failed: " +:+ exn_str e))
  end.

End Endpoint.
End WithRuntime.

End Chat.

(** ** ai_engine_main.py: [predict_anomalies] *)

Module Prediction.

Import Anomaly.

(** A value of the dictionary [pred["metrics"]]: a number, or the
    [datetime] under "timestamp". *)
Inductive metric_value : Type :=
| Number (q : Q)
| Datetime (t : Z).

(** [metrics_data[idx]] as the dictionary [_fetch_metrics] built: the
    "timestamp" entry first, then the numeric entries. *)
Definition metric_items (metric : sample) : list (string * metric_value) :=
  ("timestamp", Datetime (timestamp metric))
  :: map (fun kv => (fst kv, Number (snd kv))) (map_to_list (values metric)).

(** Pydantic's validation of a [Dict[str, float]] field: every value has to
    be a number; a [datetime] is not one. *)
Fixpoint validate_float_dict (items : list (string * metric_value))
  : result (list (string * Q)) :=
  match items with
  | [] => Ok []
  | (key, Number q) :: items =>
      try! rest <- validate_float_dict items; Ok ((key, q) :: rest)
  | (key, Datetime _) :: _ =>
      Raise (PyError "ValidationError"
               ("1 validation error for AnomalyPredictionResponse: predicted_metrics."
                +:+ key +:+ ": Input should be a valid number"))
  end.

Record AnomalyPredictionResponse : Type := {
  service_name : string;
  timestamp_ : Z;
  is_anomaly_ : bool;
  confidence_ : Q;
  anomaly_score : Q;
  predicted_metrics : list (string * Q);
  recommendation_ : string
}.

(** The loop [for pred in predictions]. *)
Fixpoint responses (service : string) (predictions : list verdict)
  : result (list AnomalyPredictionResponse) :=
  match predictions with
  | [] => Ok []
  | pred :: predictions =>
      try! metrics <- validate_float_dict (metric_items (v_metrics pred));
      try! results <- responses service predictions;
      Ok ({| service_name := service;
             timestamp_ := v_timestamp pred;
             is_anomaly_ := is_anomaly pred;
             confidence_ := confidence pred;
             anomaly_score := score pred;
             predicted_metrics := metrics;
             recommendation_ := recommendation pred |} :: results)
  end.

Definition predict_anomalies (anomaly_predictor : AnomalyPredictor)
    (service window : string) (now : Z) (g : rng)
  : result (list AnomalyPredictionResponse) * rng :=
  let '(predictions, g) := predict anomaly_predictor service window now g in
  (match rbind predictions (responses service) with
   | Ok results => Ok results
   | Raise e => Raise (HTTPException 500 ("Prediction failed: " +:+ exn_str e))
   end, g).

End Prediction.

(** ** Files: what the two classes load and save *)

Module Storage.

Import Text.

(** *** Paths *)

Definition is_slash (c : ascii) : bool := Ascii.eqb c "/".

(** [p[:p.rfind('/') + 1]]: the path up to and including its last slash. *)
Fixpoint head_part (p : string) : string :=
  match p with
  | EmptyString => EmptyString
  | String c rest =>
      let head := head_part rest in
      if is_slash c || negb (String.eqb head "") then String c head
      else EmptyString
  end.

Fixpoint all_slashes (s : string) : bool :=
  match s with
  | EmptyString => true
  | String c rest => is_slash c && all_slashes rest
  end.

(** [s.rstrip('/')] *)
Fixpoint rstrip_slashes (s : string) : string :=
  match s with
  | EmptyString => EmptyString
  | String c rest =>
      let kept := rstrip_slashes rest in
      if is_slash c && String.eqb kept "" then EmptyString else String c kept
  end.

(** [os.path.dirname] of [posixpath]. *)
Definition dirname (p : string) : string :=
  let head := head_part p in
  if negb (String.eqb head "") && negb (all_slashes head)
  then rstrip_slashes head
  else head.

(** [s.replace(old, new)] for a non-empty [old]: occurrences are replaced
    from the left and do not overlap.  [skip] counts the characters of an
    occurrence still to pass over. *)
Fixpoint replace_from (old new : string) (skip : nat) (s : string) : string :=
  match s with
  | EmptyString => EmptyString
  | String c rest =>
      match skip with
      | S skip => replace_from old new skip rest
      | O =>
          if prefixb old s
          then new +:+ replace_from old new (String.length old - 1) rest
          else String c (replace_from old new 0 rest)
      end
  end.

Definition replace (old new s : string) : string := replace_from old new 0 s.

(** *** scikit-learn objects *)

Record forest_params : Type := {
  contamination : Q;
  random_state : Z;
  n_estimators : Z
}.

(** An estimator object: an [IsolationForest] or a [StandardScaler], fitted
    or not. *)
Inductive sk_object : Type :=
| IsolationForest (params : forest_params) (fitted : option Anomaly.Model)
| StandardScaler (fitted : option Anomaly.Scaler).

Definition class_name (o : sk_object) : string :=
  match o with
  | IsolationForest _ _ => "IsolationForest"
  | StandardScaler _ => "StandardScaler"
  end.

Definition not_fitted (o : sk_object) : exn :=
  PyError "NotFittedError"
    ("This " +:+ class_name o +:+ " instance is not fitted yet. Call 'fit' with appropriate arguments before using this estimator.").

Definition no_attribute (o : sk_object) (name : string) : exn :=
  PyError "AttributeError"
    ("'" +:+ class_name o +:+ "' object has no attribute '" +:+ name +:+ "'").

(** *** The file system *)

(** What a file holds: an index written by [faiss.write_index], a metadata
    list written by [pickle.dump], or an object written by [joblib.dump]. *)
Inductive stored : Type :=
| FaissIndex (vectors : list (list Q))
| Pickled (metadata : list json)
| Joblib (object : sk_object).

Fixpoint ends_with_slash (s : string) : bool :=
  match s with
  | EmptyString => false
  | String c EmptyString => is_slash c
  | String _ rest => ends_with_slash rest
  end.

(** The files by path.  The map does not track directories, permissions or
    free space: whether a directory can be made, and whether a file can be
    written, where the files are [fs] is the operating system's answer,
    [None] when the call goes through and the exception it raises
    otherwise.  Two answers do not depend on the system: the directory with
    the empty name cannot be made (see [makedirs]), and a file needs a
    name, so that the empty path and a path that ends in a slash are never
    written. *)
Class Disk : Type := {
  mkdir_error : gmap string stored -> string -> option exn;
  write_error : gmap string stored -> string -> option exn;
  write_needs_name :
    forall fs path,
      path = "" \/ ends_with_slash path = true -> write_error fs path <> None
}.

Definition file_not_found (path : string) : exn :=
  PyError "FileNotFoundError"
    ("[Errno 2] No such file or directory: '" +:+ path +:+ "'").

Definition exists_ (fs : gmap string stored) (path : string) : bool :=
  match fs !! path with Some _ => true | None => false end.

(** [os.makedirs(name, exist_ok=True)]: the empty name cannot be made. *)
Definition makedirs `{disk : Disk} (fs : gmap string stored) (name : string)
  : result unit :=
  if String.eqb name "" then Raise (file_not_found "")
  else match mkdir_error fs name with
       | Some e => Raise e
       | None => Ok tt
       end.

(** A whole file written at [path] ([faiss.write_index], [pickle.dump] to
    a file opened for writing, [joblib.dump]): the files afterwards. *)
Definition write `{disk : Disk} (fs : gmap string stored) (path : string)
    (content : stored) : result (gmap string stored) :=
  match write_error fs path with
  | Some e => Raise e
  | None => Ok (<[ path := content ]> fs)
  end.

Definition read_index (fs : gmap string stored) (path : string)
  : result (list (list Q)) :=
  match fs !! path with
  | Some (FaissIndex vectors) => Ok vectors
  | Some _ => Raise (PyError "RuntimeError" ("Index type not recognized in " +:+ path))
  | None => Raise (PyError "RuntimeError" ("could not open " +:+ path +:+ " for reading"))
  end.

(** [open(path, "rb")] and [pickle.load]. *)
Definition pickle_load (fs : gmap string stored) (path : string)
  : result (list json) :=
  match fs !! path with
  | Some (Pickled metadata) => Ok metadata
  | Some _ => Raise (PyError "UnpicklingError" "invalid load key")
  | None => Raise (file_not_found path)
  end.

Definition joblib_load (fs : gmap string stored) (path : string)
  : result sk_object :=
  match fs !! path with
  | Some (Joblib object) => Ok object
  | Some _ => Raise (PyError "UnpicklingError" "invalid load key")
  | None => Raise (file_not_found path)
  end.

End Storage.

(** ** faiss_index.py: [__init__], [load_index], [save_index] *)

Module IndexFiles.

Import VectorDB Storage.

Definition meta_path (index_path : string) : string := index_path +:+ ".meta".

(** [load_index] assigns [self.index], then [self.metadata]; the object is
    returned as the call leaves it, also when it raises. *)
Definition load_index (self : VectorSearch) (fs : gmap string stored)
  : result unit * VectorSearch :=
  match read_index fs (index_path self) with
  | Raise e => (Raise e, self)
  | Ok vectors =>
      let self := {| dimension := dimension self; index_path := index_path self;
                     index := vectors; metadata := metadata self |} in
      match pickle_load fs (meta_path (index_path self)) with
      | Raise e => (Raise e, self)
      | Ok loaded =>
          (Ok tt, {| dimension := dimension self; index_path := index_path self;
                     index := index self; metadata := loaded |})
      end
  end.

(** [save_index]: the files are returned as the call leaves them. *)
Definition save_index `{disk : Disk} (self : VectorSearch) (fs : gmap string stored)
  : result unit * gmap string stored :=
  match makedirs fs (dirname (index_path self)) with
  | Raise e => (Raise e, fs)
  | Ok _ =>
      match write fs (index_path self) (FaissIndex (index self)) with
      | Raise e => (Raise e, fs)
      | Ok fs =>
          match write fs (meta_path (index_path self)) (Pickled (metadata self)) with
          | Raise e => (Raise e, fs)
          | Ok fs => (Ok tt, fs)
          end
      end
  end.

(** [VectorSearch(dimension, index_path)] *)
Definition __init__ (dimension : nat) (index_path : string)
    (fs : gmap string stored) : result VectorSearch :=
  let self := init dimension index_path in
  if exists_ fs index_path then
    match load_index self fs with
    | (Ok _, self) => Ok self
    | (Raise e, _) => Raise e
    end
  else Ok self.

End IndexFiles.

(** ** anomaly_detection.py: [__init__], [train] and [predict] on the
    objects the class holds *)

Module Lifecycle.

Import Anomaly Storage.

(** [IsolationForest(contamination=0.02, random_state=42, n_estimators=100)] *)
Definition default_forest : forest_params :=
  {| contamination := 2 # 100; random_state := 42; n_estimators := 100 |}.

(** An [AnomalyPredictor] with whatever objects its two attributes hold. *)
Record predictor : Type := {
  path : string;
  scaler_object : sk_object;
  model_object : sk_object
}.

(** [model_path.replace(".pkl", "_scaler.pkl")] *)
Definition scaler_path (model_path : string) : string :=
  replace ".pkl" "_scaler.pkl" model_path.

Definition __init__ (model_path : string) (fs : gmap string stored)
  : result predictor :=
  let scaler := StandardScaler None in
  (* Load pre-trained model or create new one *)
  if exists_ fs model_path then
    try! model <- joblib_load fs model_path;
    try! scaler <- joblib_load fs (scaler_path model_path);
    Ok {| path := model_path; scaler_object := scaler; model_object := model |}
  else
    Ok {| path := model_path; scaler_object := scaler;
          model_object := IsolationForest default_forest None |}.

(** *** Method calls on the objects *)

Definition call_transform (o : sk_object) (X : list (list Q))
  : result (list (list Q)) :=
  match o with
  | StandardScaler (Some fitted) => Ok (transform fitted X)
  | StandardScaler None => Raise (not_fitted o)
  | IsolationForest _ _ => Raise (no_attribute o "transform")
  end.

Definition call_predict (o : sk_object) (X : list (list Q)) : result (list Z) :=
  match o with
  | IsolationForest _ (Some fitted) => Ok (model_predict fitted X)
  | IsolationForest _ None => Raise (not_fitted o)
  | StandardScaler _ => Raise (no_attribute o "predict")
  end.

Definition call_score_samples (o : sk_object) (X : list (list Q))
  : result (list Q) :=
  match o with
  | IsolationForest _ (Some fitted) => Ok (score_samples fitted X)
  | IsolationForest _ None => Raise (not_fitted o)
  | StandardScaler _ => Raise (no_attribute o "score_samples")
  end.

(** [predict] on the objects. *)
Definition predict (self : predictor) (service_name time_window : string)
    (now : Z) (g : rng) : result (list verdict) * rng :=
  let '(metrics_data, g) := _fetch_metrics service_name time_window now g in
  let features := _prepare_features metrics_data in
  (try! features_scaled <- call_transform (scaler_object self) features;
   try! predictions <- call_predict (model_object self) features_scaled;
   try! anomaly_scores <- call_score_samples (model_object self) features_scaled;
   results_loop metrics_data 0 (zip predictions anomaly_scores),
   g).

(** *** [train] *)

(** A [pd.DataFrame] of numbers: its column names (distinct) and its rows,
    each with one entry per column. *)
Record DataFrame : Type := {
  columns : list string;
  rows : list (list Q)
}.

Fixpoint position (name : string) (names : list string) : option nat :=
  match names with
  | [] => None
  | n :: names =>
      if String.eqb n name then Some 0 else S <$> position name names
  end.

Fixpoint positions (wanted names : list string) : option (list nat) :=
  match wanted with
  | [] => Some []
  | w :: wanted =>
      match position w names, positions wanted names with
      | Some i, Some rest => Some (i :: rest)
      | _, _ => None
      end
  end.

(** [df[names].values]; a name that is not a column raises [KeyError] (its
    text, which lists the missing names, is not reproduced). *)
Definition select (df : DataFrame) (names : list string)
  : result (list (list Q)) :=
  match positions names (columns df) with
  | Some indices => Ok (map (fun row => map (fun i => nth i row 0%Q) indices) (rows df))
  | None => Raise (PyError "KeyError" "not in index")
  end.

(** scikit-learn's check of the training matrix: a matrix without rows is
    refused.  The matrices [train] fits on have seven columns. *)
Definition no_samples (o : sk_object) : exn :=
  PyError "ValueError"
    ("Found array with 0 sample(s) (shape=(0, 7)) while a minimum of 1 is required by "
     +:+ class_name o +:+ ".").

Section WithFitting.
Context `{disk : Disk}.
(** [StandardScaler.fit] and [IsolationForest.fit] of scikit-learn on a
    matrix with at least one row: the fitted scaler and the fitted model. *)
Variable fit_scaler : list (list Q) -> Scaler.
Variable fit_forest : forest_params -> list (list Q) -> Model.

(** [o.fit_transform(X)]: the transformed matrix, and the object as the call
    leaves it.  A scaler forgets an earlier fit before it looks at the
    matrix, so that a refused matrix leaves it unfitted. *)
Definition call_fit_transform (o : sk_object) (X : list (list Q))
  : result (list (list Q)) * sk_object :=
  match o with
  | StandardScaler _ =>
      match X with
      | [] => (Raise (no_samples o), StandardScaler None)
      | _ :: _ =>
          let fitted := fit_scaler X in
          (Ok (transform fitted X), StandardScaler (Some fitted))
      end
  | IsolationForest _ _ => (Raise (no_attribute o "fit_transform"), o)
  end.

(** [o.fit(X)]: the object as the call leaves it.  A forest that refuses
    the matrix keeps an earlier fit. *)
Definition call_fit (o : sk_object) (X : list (list Q)) : result unit * sk_object :=
  match X with
  | [] =>
      (Raise (no_samples o),
       match o with
       | IsolationForest _ _ => o
       | StandardScaler _ => StandardScaler None
       end)
  | _ :: _ =>
      (Ok tt,
       match o with
       | IsolationForest params _ =>
           IsolationForest params (Some (fit_forest params X))
       | StandardScaler _ => StandardScaler (Some (fit_scaler X))
       end)
  end.

(** [train]: the printed line on success, and the object and the files as
    the call leaves them. *)
Definition train (self : predictor) (historical_data : DataFrame)
    (fs : gmap string stored)
  : result string * predictor * gmap string stored :=
  (* Prepare features *)
  match select historical_data feature_columns with
  | Raise e => (Raise e, self, fs)
  | Ok X =>
  (* Fit scaler *)
  let '(scaled, scaler) := call_fit_transform (scaler_object self) X in
  let self := {| path := path self; scaler_object := scaler;
                 model_object := model_object self |} in
  match scaled with
  | Raise e => (Raise e, self, fs)
  | Ok X_scaled =>
  (* Train model *)
  let '(fitted, model) := call_fit (model_object self) X_scaled in
  let self := {| path := path self; scaler_object := scaler_object self;
                 model_object := model |} in
  match fitted with
  | Raise e => (Raise e, self, fs)
  | Ok _ =>
  (* Save model *)
  match makedirs fs (dirname (path self)) with
  | Raise e => (Raise e, self, fs)
  | Ok _ =>
  match write fs (path self) (Joblib (model_object self)) with
  | Raise e => (Raise e, self, fs)
  | Ok fs =>
  match write fs (scaler_path (path self)) (Joblib (scaler_object self)) with
  | Raise e => (Raise e, self, fs)
  | Ok fs => (Ok ("Model trained and saved to " +:+ path self), self, fs)
  end end end end end end.

(** What [train] makes of a predictor holding a scaler, for a training
    matrix [X] with at least one row that the fitted scaler keeps the rows
    of. *)
Definition trained (self : predictor) (X : list (list Q)) : predictor :=
  {| path := path self;
     scaler_object := StandardScaler (Some (fit_scaler X));
     model_object :=
       match model_object self with
       | IsolationForest params _ =>
           IsolationForest params
             (Some (fit_forest params (transform (fit_scaler X) X)))
       | StandardScaler _ =>
           StandardScaler (Some (fit_scaler (transform (fit_scaler X) X)))
       end |}.

End WithFitting.

End Lifecycle.

(** ** slack_bot.py *)

Module Slack.

Import Text Chat.

(** An [httpx] response: its status and its body, which [response.json()]
    parses. *)
Record http_response : Type := {
  status_code : Z;
  body : string
}.

(** A call of [say]: its text or its blocks, and the thread it goes to. *)
Record message : Type := {
  text : option string;
  blocks : option (list json);
  thread_ts : option string
}.

(** What a handler does, in order.  [say], [ack] and [chat_postMessage] are
    taken to deliver; a request is recorded as it is made, whether or not it
    then fails. *)
Inductive effect : Type :=
| Ack
| Say (m : message)
| Request (method url : string) (payload : pydict)
| PostMessage (channel text : string) (blocks : list json).

Definition say_text (t : string) (thread : option string) : effect :=
  Say {| text := Some t; blocks := None; thread_ts := thread |}.

Definition say_blocks (b : list json) (thread : option string) : effect :=
  Say {| text := None; blocks := Some b; thread_ts := thread |}.

(** String and number formatting of Python that the bot relies on. *)
Class Formatting : Type := {
  (** [s.strip()] *)
  strip : string -> string;
  (** [format(value, spec)], as in [f"{value:.2f}"] *)
  format_spec : string -> json -> result string;
  (** [s[:n]] on a [str] *)
  first_chars : nat -> string -> string;
  (** the exception of [value[:n]] for a value that is neither a string nor a
      list, and of a list or dictionary used as a dictionary key; their
      class and text differ between Python versions *)
  not_sliceable : json -> exn;
  unhashable : json -> exn
}.

(** [s.split(sep)] for a separator of one character. *)
Fixpoint split_char (sep : ascii) (s : string) : list string :=
  match s with
  | EmptyString => [EmptyString]
  | String c rest =>
      let parts := split_char sep rest in
      if Ascii.eqb c sep then EmptyString :: parts
      else match parts with
           | part :: parts => String c part :: parts
           | [] => [String c EmptyString]
           end
  end.

(** Python truthiness of a parsed JSON value. *)
Definition json_truthy (value : json) : bool :=
  match value with
  | JNull => false
  | JBool b => b
  | JInt z => negb (z =? 0)%Z
  | JFloat q => negb (Qeq_bool q 0)
  | JStr s => negb (String.eqb s "")
  | JArr items => match items with [] => false | _ => true end
  | JObj fields => match fields with [] => false | _ => true end
  end.

(** [for item in value]: a list gives its items, a dictionary its keys, a
    string its characters; nothing else can be iterated. *)
Definition iterate (value : json) : result (list json) :=
  match value with
  | JArr items => Ok items
  | JObj fields => Ok (map (fun kv => JStr (fst kv)) fields)
  | JStr s => Ok (map (fun c => JStr (String c EmptyString)) (list_ascii_of_string s))
  | _ => Raise (PyError "TypeError"
                  ("'" +:+ type_name value +:+ "' object is not iterable"))
  end.

(** Slack block builders, as the dictionaries the handlers write out. *)
Definition plain_text (t : string) : json :=
  JObj [ ("type", JStr "plain_text"); ("text", JStr t) ].

Definition header (t : string) : json :=
  JObj [ ("type", JStr "header"); ("text", plain_text t) ].

Definition mrkdwn (t : json) : json :=
  JObj [ ("type", JStr "mrkdwn"); ("text", t) ].

Definition section (t : json) : json :=
  JObj [ ("type", JStr "section"); ("text", mrkdwn t) ].

Definition section_fields (fields : list json) : json :=
  JObj [ ("type", JStr "section"); ("fields", JArr fields) ].

Definition nl : string := RCA.nl.

Section Bot.
Context `{rt : PyRuntime} `{fmt : Formatting}.
(** The environment's [AI_ENGINE_URL]. *)
Variable AI_ENGINE_URL : string.
(** The HTTP client: a request by method, URL and JSON body or query
    parameters; it raises on a timeout or a connection error. *)
Variable http : string -> string -> pydict -> result http_response.

(** *** [handle_mention] *)

(** The fields of an [app_mention] event the handler reads. *)
Record mention_event : Type := {
  ev_user : string;
  ev_text : string;
  ev_channel : string;
  ev_ts : option string
}.

(** [text.split(">")[1].strip() if ">" in text else text] *)
Definition mention_query (text : string) : string :=
  if contains text ">" then strip (nth 1 (split_char ">" text) "")
  else text.

Definition mention_payload (event : mention_event) : pydict :=
  [ ("query", JStr (mention_query (ev_text event)));
    ("context", JStr "production");
    ("user_id", JStr (ev_user event)) ].

(** The [try] block of [handle_mention]: the message it ends with. *)
Definition mention_reply (event : mention_event) : result message :=
  try! response <-
    http "POST" (AI_ENGINE_URL +:+ "/api/v1/chat/query") (mention_payload event);
  if (status_code response =? 200)%Z then
    try! parsed <- json_loads (body response);
    try! answer <- subscript parsed "response";
    try! fields <- RCA.as_dict parsed;
    let blocks := [ header "🤖 AI Analysis Complete"; section answer ] in
    (* Add metrics if available *)
    let blocks :=
      if json_truthy (dict_get fields "data" JNull) then
        blocks ++ [ section (JStr ("```" +:+ fstr (assoc "data" fields) +:+ "```")) ]
      else blocks in
    Ok {| text := None; blocks := Some blocks; thread_ts := ev_ts event |}
  else
    Ok {| text := Some ("❌ Sorry, I encountered an error: "
                        +:+ pretty (status_code response));
          blocks := None; thread_ts := ev_ts event |}.

Definition handle_mention (event : mention_event) : list effect :=
  [ say_text "Analyzing... :mag:" (ev_ts event);
    Request "POST" (AI_ENGINE_URL +:+ "/api/v1/chat/query") (mention_payload event);
    match mention_reply event with
    | Ok m => Say m
    | Raise e =>
        say_text ("❌ Error processing your request: " +:+ exn_str e) (ev_ts event)
    end ].

(** *** [handle_incidents_command] *)

(** The dictionary of severity marks. *)
Definition severity_marks : list (string * string) :=
  [ ("critical", "🔴"); ("high", "🟠"); ("medium", "🟡"); ("low", "🟢") ].

Fixpoint mark_of (severity : string) (marks : list (string * string))
  : option string :=
  match marks with
  | [] => None
  | (name, mark) :: marks =>
      if String.eqb name severity then Some mark else mark_of severity marks
  end.

(** [{...}.get(severity, "⚪")]: a list or a dictionary cannot be a key, and
    only a string is equal to one of the keys. *)
Definition severity_emoji `{Formatting} (severity : json) : result string :=
  match severity with
  | JStr name => Ok (default "⚪" (mark_of name severity_marks))
  | JArr _ | JObj _ => Raise (unhashable severity)
  | _ => Ok "⚪"
  end.

(** [value[:n]] and its text in an f-string: a string gives its first
    characters, a list its first items; nothing else can be sliced. *)
Definition sliced (n : nat) (value : json) : result string :=
  match value with
  | JStr s => Ok (first_chars n s)
  | JArr items => Ok (py_repr (JArr (take n items)))
  | _ => Raise (not_sliceable value)
  end.

(** [incidents[:10]]: only a list or a string can be sliced. *)
Definition first_items (n : nat) (value : json) : result (list json) :=
  match value with
  | JArr items => Ok (take n items)
  | JStr s =>
      Ok (map (fun c => JStr (String c EmptyString))
              (take n (list_ascii_of_string s)))
  | _ => Raise (not_sliceable value)
  end.

Definition incident_block (inc : json) : result json :=
  try! severity <- subscript inc "severity";
  try! emoji <- severity_emoji severity;
  try! incident_id <- subscript inc "incident_id";
  try! service <- subscript inc "service";
  try! status <- subscript inc "status";
  try! root_cause <- subscript inc "root_cause";
  try! cause <- sliced 100 root_cause;
  Ok (JObj
        [ ("type", JStr "section");
          ("text",
           mrkdwn (JStr (emoji +:+ " *" +:+ fstr (Some incident_id) +:+ "*" +:+ nl
                         +:+ "Service: `" +:+ fstr (Some service) +:+ "`" +:+ nl
                         +:+ "Status: " +:+ fstr (Some status) +:+ nl
                         +:+ "Root Cause: " +:+ cause +:+ "...")));
          ("accessory",
           JObj [ ("type", JStr "button");
                  ("text", plain_text "View Details");
                  ("value", incident_id);
                  ("action_id", JStr "view_incident") ]) ]).

Fixpoint each {A B} (f : A -> result B) (items : list A) : result (list B) :=
  match items with
  | [] => Ok []
  | item :: items =>
      try! b <- f item; try! rest <- each f items; Ok (b :: rest)
  end.

(** [command_text] is [command["text"]] when the key is there. *)
Definition incidents_reply (time_window : string) : result (list effect) :=
  try! response <-
    http "GET" (AI_ENGINE_URL +:+ "/api/v1/incidents/recent")
         [ ("window", JStr time_window) ];
  if (status_code response =? 200)%Z then
    try! incidents <- json_loads (body response);
    if negb (json_truthy incidents) then
      Ok [ say_text ("✅ No incidents in the last " +:+ time_window) None ]
    else
      try! shown <- first_items 10 incidents;
      try! sections <- each incident_block shown;
      Ok [ say_blocks (header ("📊 Incidents (" +:+ time_window +:+ ")") :: sections)
                      None ]
  else Ok [].

Definition handle_incidents_command (command_text : option string) : list effect :=
  let time_window := default "24h" command_text in
  [ Ack;
    Request "GET" (AI_ENGINE_URL +:+ "/api/v1/incidents/recent")
            [ ("window", JStr time_window) ] ]
  ++ match incidents_reply time_window with
     | Ok said => said
     | Raise e => [ say_text ("❌ Error fetching incidents: " +:+ exn_str e) None ]
     end.

(** *** [handle_view_incident] *)

Definition view_reply (incident_id : string) : result (list effect) :=
  try! response <-
    http "GET" (AI_ENGINE_URL +:+ "/api/v1/incidents/" +:+ incident_id) [];
  if (status_code response =? 200)%Z then
    try! incident <- json_loads (body response);
    try! service_name <- subscript incident "service_name";
    try! severity <- subscript incident "severity";
    try! status <- subscript incident "status";
    try! confidence <- subscript incident "confidence";
    try! percent <- format_spec ".0%" confidence;
    try! root_cause <- subscript incident "root_cause";
    try! impact <- subscript incident "impact_assessment";
    try! fields <- RCA.as_dict incident;
    let blocks :=
      [ header ("🔍 " +:+ incident_id);
        section_fields
          [ mrkdwn (JStr ("*Service:*" +:+ nl +:+ fstr (Some service_name)));
            mrkdwn (JStr ("*Severity:*" +:+ nl +:+ fstr (Some severity)));
            mrkdwn (JStr ("*Status:*" +:+ nl +:+ fstr (Some status)));
            mrkdwn (JStr ("*Confidence:*" +:+ nl +:+ percent)) ];
        section (JStr ("*Root Cause:*" +:+ nl +:+ fstr (Some root_cause)));
        section (JStr ("*Impact:*" +:+ nl +:+ fstr (Some impact))) ] in
    (* Add fix if available *)
    if json_truthy (dict_get fields "generated_code" JNull) then
      try! code <- sliced 500 (dict_get fields "generated_code" JNull);
      Ok [ say_blocks
             (blocks ++ [ section (JStr ("*Generated Fix:*" +:+ nl +:+ "```"
                                         +:+ code +:+ "```")) ])
             None ]
    else Ok [ say_blocks blocks None ]
  else Ok [].

(** [incident_id] is [body["actions"][0]["value"]], the value of the button
    that was clicked. *)
Definition handle_view_incident (incident_id : string) : list effect :=
  [ Ack;
    Request "GET" (AI_ENGINE_URL +:+ "/api/v1/incidents/" +:+ incident_id) [] ]
  ++ match view_reply incident_id with
     | Ok said => said
     | Raise e =>
         [ say_text ("❌ Error fetching incident details: " +:+ exn_str e) None ]
     end.

(** *** [handle_anomalies_command] *)

(** [[p for p in predictions if p["is_anomaly"]]] *)
Fixpoint flagged (predictions : list json) : result (list json) :=
  match predictions with
  | [] => Ok []
  | p :: predictions =>
      try! flag <- subscript p "is_anomaly";
      try! rest <- flagged predictions;
      Ok (if json_truthy flag then p :: rest else rest)
  end.

(** An item the comprehension keeps. *)
Definition is_flagged (p : json) : bool :=
  match subscript p "is_anomaly" with
  | Ok flag => json_truthy flag
  | Raise _ => false
  end.

Definition anomaly_block (anomaly : json) : result json :=
  try! timestamp <- subscript anomaly "timestamp";
  try! confidence <- subscript anomaly "confidence";
  try! shown <- format_spec ".2f" confidence;
  try! recommendation <- subscript anomaly "recommendation";
  Ok (section (JStr ("*Time:* " +:+ fstr (Some timestamp) +:+ nl
                     +:+ "*Confidence:* " +:+ shown +:+ nl
                     +:+ "*Recommendation:* " +:+ fstr (Some recommendation)))).

Definition anomalies_params (service : string) : pydict :=
  [ ("service", JStr service); ("window", JStr "1h") ].

Definition anomalies_reply (service : string) : result (list effect) :=
  try! response <-
    http "GET" (AI_ENGINE_URL +:+ "/api/v1/predict/anomalies")
         (anomalies_params service);
  if (status_code response =? 200)%Z then
    try! predictions <- json_loads (body response);
    try! items <- iterate predictions;
    try! anomalies <- flagged items;
    match anomalies with
    | [] =>
        Ok [ say_text ("✅ No anomalies detected in `" +:+ service +:+ "` (last 1h)")
                      None ]
    | _ =>
        try! sections <- each anomaly_block (take 5 anomalies);
        Ok [ say_blocks (header ("⚠️ Anomalies Detected in " +:+ service) :: sections)
                        None ]
    end
  else Ok [].

Definition handle_anomalies_command (command_text : option string) : list effect :=
  let service := strip (default "" command_text) in
  if String.eqb service "" then
    [ Ack;
      say_text "Please specify a service name. Example: `/anomalies payment-service`"
               None ]
  else
    [ Ack;
      Request "GET" (AI_ENGINE_URL +:+ "/api/v1/predict/anomalies")
              (anomalies_params service) ]
    ++ match anomalies_reply service with
       | Ok said => said
       | Raise e => [ say_text ("❌ Error checking anomalies: " +:+ exn_str e) None ]
       end.

(** *** [send_proactive_alert] *)

Definition send_proactive_alert (channel : string) (incident : pydict)
  : result effect :=
  try! severity <- getitem incident "severity";
  try! emoji <- severity_emoji severity;
  try! incident_id <- getitem incident "incident_id";
  try! service <- getitem incident "service";
  try! status <- getitem incident "status";
  try! root_cause <- getitem incident "root_cause";
  let blocks :=
    [ header (emoji +:+ " Incident Detected");
      section_fields
        [ mrkdwn (JStr ("*Incident ID:*" +:+ nl +:+ fstr (Some incident_id)));
          mrkdwn (JStr ("*Service:*" +:+ nl +:+ fstr (Some service)));
          mrkdwn (JStr ("*Severity:*" +:+ nl +:+ fstr (Some severity)));
          mrkdwn (JStr ("*Status:*" +:+ nl +:+ fstr (Some status))) ];
      section (JStr ("*Root Cause:*" +:+ nl +:+ fstr (Some root_cause))) ] in
  let blocks :=
    if json_truthy (dict_get incident "auto_fix_applied" JNull) then
      blocks ++ [ section (JStr "✅ *Auto-fix applied successfully*") ]
    else blocks in
  Ok (PostMessage channel ("Incident detected: " +:+ fstr (Some incident_id)) blocks).

End Bot.

(** *** The routes of ai_engine_main.py *)

(** The method and path of each endpoint the API declares. *)
Definition api_routes : list (string * string) :=
  [ ("GET", "/health");
    ("POST", "/api/v1/incidents/analyze");
    ("GET", "/api/v1/predict/anomalies");
    ("POST", "/api/v1/chat/query");
    ("POST", "/api/v1/remediation/execute");
    ("GET", "/metrics") ].

(** The documentation routes FastAPI adds itself, at their default paths,
    since [FastAPI(...)] is called without [docs_url], [redoc_url] or
    [openapi_url]. *)
Definition framework_routes : list (string * string) :=
  [ ("GET", "/openapi.json"); ("HEAD", "/openapi.json");
    ("GET", "/docs"); ("HEAD", "/docs");
    ("GET", "/docs/oauth2-redirect"); ("HEAD", "/docs/oauth2-redirect");
    ("GET", "/redoc"); ("HEAD", "/redoc") ].

Definition all_routes : list (string * string) := api_routes ++ framework_routes.

(** The path the router tries when nothing matches: without its trailing
    slashes, or with one added. *)
Definition slash_twin (path : string) : string :=
  if Storage.ends_with_slash path then Storage.rstrip_slashes path
  else path +:+ "/".

(** The router's test of a path against a route, [re.match] with the
    pattern "^" + route + "$": no route has a path parameter, so the path
    is the route itself, or the route followed by one line break, before
    which "$" matches too. *)
Definition matches (route path : string) : bool :=
  String.eqb path route || String.eqb path (route +:+ nl).

Definition has_path (path : string) (route : string * string) : bool :=
  matches (snd route) path.

(** How the router answers a request before any endpoint runs: [None] when
    a route takes it, 405 when a route has the path but not the method, 307
    when the path matches a route once a trailing slash is added or taken
    away, 404 otherwise.  [path] is the path as the server hands it to the
    router, percent escapes decoded. *)
Definition routed (method path : string) : option Z :=
  if existsb (fun r => String.eqb (fst r) method && has_path path r) all_routes
  then None
  else if existsb (has_path path) all_routes then Some 405%Z
  else if negb (String.eqb path "/") && existsb (has_path (slash_twin path)) all_routes
  then Some 307%Z
  else Some 404%Z.

(** The characters of a path that the HTTP client sends as they are, that
    the server hands to the router as they are, and that form no dot
    segment for the client to remove: letters, digits, "-", "_" and "/". *)
Definition safe_char (c : ascii) : bool :=
  let n := nat_of_ascii c in
  ((48 <=? n)%nat && (n <=? 57)%nat) || ((65 <=? n)%nat && (n <=? 90)%nat)
  || ((97 <=? n)%nat && (n <=? 122)%nat)
  || Ascii.eqb c "-" || Ascii.eqb c "_" || Ascii.eqb c "/".

Fixpoint url_safe (path : string) : bool :=
  match path with
  | EmptyString => true
  | String c rest => safe_char c && url_safe rest
  end.

(** The bot's HTTP client reaches this API: a request for a path of safe
    characters that no route takes comes back with the router's status. *)
Definition connected (AI_ENGINE_URL : string)
    (http : string -> string -> pydict -> result http_response) : Prop :=
  forall method path payload status,
    url_safe path = true ->
    routed method path = Some status ->
    exists body,
      http method (AI_ENGINE_URL +:+ path) payload
      = Ok {| status_code := status; body := body |}.

End Slack.

(** ** The bot in front of [predict_anomalies] *)

Module Served.

Import Prediction Slack.

(** A response model as FastAPI writes it into the body. *)
Definition response_json `{PyRuntime} (r : AnomalyPredictionResponse) : json :=
  JObj [ ("service_name", JStr (service_name r));
         ("timestamp", JStr (isoformat (timestamp_ r)));
         ("is_anomaly", JBool (is_anomaly_ r));
         ("confidence", JFloat (confidence_ r));
         ("anomaly_score", JFloat (anomaly_score r));
         ("predicted_metrics",
          JObj (map (fun kv => (fst kv, JFloat (snd kv))) (predicted_metrics r)));
         ("recommendation", JStr (recommendation_ r)) ].

(** The HTTP response FastAPI sends for what the endpoint returned or
    raised: 200 with the list as JSON, the status of an [HTTPException],
    500 for any other exception. *)
Definition serves `{PyRuntime} (outcome : result (list AnomalyPredictionResponse))
    (response : http_response) : Prop :=
  match outcome with
  | Ok results =>
      status_code response = 200%Z /\
      json_loads (body response) = Ok (JArr (map response_json results))
  | Raise (HTTPException status _) => status_code response = status
  | Raise (PyError _ _) => status_code response = 500%Z
  end.

End Served.

(** ** Further example files *)

Module FileExamples.

Import VectorDB Storage IndexFiles.
Local Open Scope Q_scope.

(** A store holding two vectors and their metadata. *)
Definition filled_store : VectorSearch :=
  {| dimension := 2;
     index_path := "models/faiss.index";
     index := [ [1; 0]; [0; 1] ];
     metadata := [ JStr "INC-2024-001"; JStr "INC-2024-002" ] |}.

(** The same store under a path without a directory. *)
Definition bare_store : VectorSearch :=
  {| dimension := 2;
     index_path := "faiss.index";
     index := [ [1; 0]; [0; 1] ];
     metadata := [ JStr "INC-2024-001"; JStr "INC-2024-002" ] |}.


(** A disk on which every directory can be made and every file that has a
    name can be written. *)
#[local] Instance roomy_disk : Disk.
Proof.
  refine {| mkdir_error := fun _ _ => None;
            write_error := fun _ path =>
              if String.eqb path "" || ends_with_slash path
              then Some (PyError "IsADirectoryError"
                           ("[Errno 21] Is a directory: '" +:+ path +:+ "'"))
              else None |}.
  intros fs path [-> | H]; [discriminate|].
  rewrite H, orb_true_r. discriminate.
Defined.

(** A disk on which [dir] is the one directory that exists or can be
    made: a file is written only directly under it. *)
Definition disk_with (dir : string) : Disk.
Proof.
  refine {| mkdir_error := fun _ name =>
              if String.eqb name dir then None
              else Some (PyError "PermissionError"
                           ("[Errno 13] Permission denied: '" +:+ name +:+ "'"));
            write_error := fun _ path =>
              if negb (String.eqb path "") && negb (ends_with_slash path)
                 && String.eqb (dirname path) dir
              then None
              else Some (file_not_found path) |}.
  intros fs path [-> | H]; [discriminate|].
  rewrite H, andb_false_r. discriminate.
Defined.

(** Stand-ins for scikit-learn's fitting: the scaler and the model of the
    earlier examples, whatever the training matrix. *)
Definition test_fit_scaler (X : list (list Q)) : Anomaly.Scaler :=
  Examples.standard_scaler [50; 60; 250; 1 # 100; 100; 1000; 800]
                           [15; 12; 50; 5 # 1000; 20; 200; 150].

Definition test_fit_forest (params : forest_params) (X : list (list Q))
  : Anomaly.Model :=
  Examples.threshold_model (- (2 # 10)).

(** Two rows of historical data with the seven columns and one more. *)
Definition history : Lifecycle.DataFrame :=
  {| Lifecycle.columns :=
       [ "host"; "cpu_usage"; "memory_usage"; "response_time"; "error_rate";
         "request_rate"; "network_rx"; "network_tx" ];
     Lifecycle.rows :=
       [ [1; 50; 60; 250; 1 # 100; 100; 1000; 800];
         [2; 95; 92; 3500; 12 # 100; 90; 1100; 700] ] |}.

(** The same without the error rate. *)
Definition history_without_error_rate : Lifecycle.DataFrame :=
  {| Lifecycle.columns :=
       [ "cpu_usage"; "memory_usage"; "response_time";
         "request_rate"; "network_rx"; "network_tx" ];
     Lifecycle.rows := [ [50; 60; 250; 100; 1000; 800] ] |}.

(** The training matrix [train] selects from [history]. *)
Definition history_matrix : list (list Q) :=
  [ [50; 60; 250; 1 # 100; 100; 1000; 800];
    [95; 92; 3500; 12 # 100; 90; 1100; 700] ].

(** The seven columns and no row. *)
Definition empty_history : Lifecycle.DataFrame :=
  {| Lifecycle.columns :=
       [ "cpu_usage"; "memory_usage"; "response_time"; "error_rate";
         "request_rate"; "network_rx"; "network_tx" ];
     Lifecycle.rows := [] |}.

(** A predictor as constructed when no file exists. *)
Definition fresh (model_path : string) : Lifecycle.predictor :=
  {| Lifecycle.path := model_path;
     Lifecycle.scaler_object := StandardScaler None;
     Lifecycle.model_object := IsolationForest Lifecycle.default_forest None |}.

End FileExamples.

(** ** Further example inputs *)

Module MoreExamples.

Import Anomaly Examples.
Local Open Scope Q_scope.

(** A sample at the training means, then scenario A's metrics. *)
Definition typical : gmap string Q :=
  <[ "cpu_usage" := 50 ]> (<[ "memory_usage" := 60 ]>
  (<[ "response_time" := 250 ]> (<[ "error_rate" := 1 # 100 ]>
  (<[ "request_rate" := 100 ]> (<[ "network_rx" := 1000 ]>
  (<[ "network_tx" := 800 ]> ∅)))))).

Definition mixed_data : list sample :=
  [ {| timestamp := 0; values := typical |};
    {| timestamp := 60; values := scenario_A |} ].

(** Replies to a chat query: one with an answer and metrics, one without
    an answer. *)
Definition reply_with_answer : json :=
  JObj [ ("answer", JStr "Latency rose after the 14:30 deploy.");
         ("metrics", JObj [ ("p99_ms", JInt 3500) ]) ].

Definition reply_without_answer : json :=
  JObj [ ("summary", JStr "Latency rose after the 14:30 deploy.") ].

#[local] Instance chat_runtime : PyRuntime :=
  {| json_loads := loads_from [ reply_with_answer; reply_without_answer;
                                reply_array; reply_full ];
     json_dumps := render;
     py_repr := render;
     isoformat := fun t => pretty t |}.

Definition mention_request : Chat.ChatQueryRequest :=
  {| Chat.query := "why did prod latency spike?";
     Chat.context := Some "production";
     Chat.user_id := Some "U024BE7LH" |}.

(** A fix generator whose dictionary lacks "fix_details". *)
Definition partial_generate_fix (root_cause : json) (service_name : string)
    (severity : json) : result pydict :=
  Ok [ ("code", JStr "kubectl rollout restart deployment") ].

End MoreExamples.

(** ** Test doubles for the bot *)

Module BotExamples.

Import Text Slack.

Definition is_space (c : ascii) : bool := Ascii.eqb c " ".

Fixpoint lstrip_spaces (s : string) : string :=
  match s with
  | String c rest => if is_space c then lstrip_spaces rest else s
  | EmptyString => EmptyString
  end.

Fixpoint rstrip_spaces (s : string) : string :=
  match s with
  | EmptyString => EmptyString
  | String c rest =>
      let kept := rstrip_spaces rest in
      if is_space c && String.eqb kept "" then EmptyString else String c kept
  end.

(** Formatting for texts of plain letters and blanks; numbers are shown as
    [str] shows them. *)
#[local] Instance test_formatting : Formatting := {|
  strip s := rstrip_spaces (lstrip_spaces s);
  format_spec spec value :=
    match value with
    | JInt _ | JFloat _ => Ok (Examples.render value)
    | _ => Raise (PyError "ValueError" "Unknown format code")
    end;
  first_chars n s := String.substring 0 n s;
  not_sliceable value := PyError "TypeError" "not sliceable";
  unhashable value := PyError "TypeError" "unhashable"
|}.

Definition engine_url : string := "http://localhost:8000".

(** A client whose every request is answered by [response]. *)
Definition answering (response : http_response)
  : string -> string -> pydict -> result http_response :=
  fun _ _ _ => Ok response.

(** A client that cannot connect. *)
Definition unreachable : string -> string -> pydict -> result http_response :=
  fun _ _ _ => Raise (PyError "ConnectError" "All connection attempts failed").

Fixpoint after (n : nat) (s : string) : string :=
  match n, s with
  | S n, String _ s => after n s
  | _, _ => s
  end.

(** A client in front of the router: what no route takes gets the router's
    status; the endpoints themselves are out of service. *)
Definition routed_client : string -> string -> pydict -> result http_response :=
  fun method url _ =>
    match routed method (after (String.length engine_url) url) with
    | Some status => Ok {| status_code := status; body := "{}" |}
    | None => Ok {| status_code := 503; body := "{}" |}
    end.

Definition mention : mention_event :=
  {| ev_user := "U42"; ev_text := "<@U1> is p99 > 200ms?";
     ev_channel := "C7"; ev_ts := Some "1700000000.000100" |}.

Definition alert : pydict :=
  [ ("incident_id", JStr "INC-7"); ("service", JStr "payment-service");
    ("severity", JStr "critical"); ("status", JStr "open");
    ("root_cause", JStr "connection pool exhausted");
    ("auto_fix_applied", JBool true) ].

Definition prediction (flag : bool) : json :=
  JObj [ ("timestamp", JStr "2024-01-01T00:00:00"); ("is_anomaly", JBool flag);
         ("confidence", JInt 1); ("recommendation", JStr "Scale out") ].

Definition predictions_body : json :=
  JArr [ prediction false; prediction true; prediction false; prediction true ].

#[local] Instance bot_runtime : PyRuntime :=
  {| json_loads := Examples.loads_from [ predictions_body ];
     json_dumps := Examples.render;
     py_repr := Examples.render;
     isoformat := fun t => pretty t |}.

End BotExamples.

(** * Properties *)

(** ** Strings *)

Lemma append_assoc (a b c : string) : (a +:+ b) +:+ c = a +:+ (b +:+ c).
Proof.
  induction a as [|x a IH]; [reflexivity|].
  change (String x ((a +:+ b) +:+ c) = String x (a +:+ (b +:+ c))).
  f_equal. exact IH.
Qed.

Lemma append_empty_r (s : string) : s +:+ "" = s.
Proof.
  induction s as [|x s IH]; [reflexivity|].
  change (String x (s +:+ "") = String x s). f_equal. exact IH.
Qed.

Lemma mentions_refl (s : string) : mentions s s.
Proof.
  exists "", "". change (s = s +:+ ""). now rewrite append_empty_r.
Qed.

Lemma mentions_prefixed (pre hay needle : string) :
  mentions hay needle -> mentions (pre +:+ hay) needle.
Proof.
  intros (p & q & ->). exists (pre +:+ p), q. now rewrite append_assoc.
Qed.

Lemma mentions_suffixed (hay post needle : string) :
  mentions hay needle -> mentions (hay +:+ post) needle.
Proof.
  intros (p & q & ->). exists p, (q +:+ post). now rewrite !append_assoc.
Qed.

Lemma join_cons (sep x : string) (l : list string) :
  l <> [] -> join sep (x :: l) = x +:+ sep +:+ join sep l.
Proof. destruct l; [congruence | reflexivity]. Qed.

(** A part of a joined list occurs in the joined string. *)
Lemma mentions_join (sep x : string) (before after : list string) :
  mentions (join sep (before ++ x :: after)) x.
Proof.
  induction before as [|b before IH].
  - simpl app. destruct after as [|a after].
    + apply mentions_refl.
    + rewrite join_cons by discriminate.
      apply mentions_suffixed, mentions_refl.
  - change ((b :: before) ++ x :: after) with (b :: (before ++ x :: after)).
    rewrite join_cons by (destruct before; discriminate).
    apply mentions_prefixed, mentions_prefixed, IH.
Qed.

(** ** anomaly_detection.py *)

Module AnomalyProps.

Import Anomaly Examples.
Local Open Scope Q_scope.

(** *** Feature extraction *)



Lemma Qgtb_spec (x y : Q) : Qgtb x y = true <-> y < x.
Proof.
  unfold Qgtb. rewrite negb_true_iff. split.
  - intros E. apply Qnot_le_lt. intros H. apply Qle_bool_iff in H. congruence.
  - intros H. destruct (Qle_bool x y) eqn:E; [|reflexivity].
    apply Qle_bool_iff in E. exfalso. exact (Qlt_not_le _ _ H E).
Qed.









(** *** Recommendations *)

Lemma Qgtb_true (x y : Q) : y < x -> Qgtb x y = true.
Proof. apply Qgtb_spec. Qed.

Lemma get_recommendation_memory (metrics : gmap string Q) :
  Qgtb (get metrics "memory_usage" 0) 85 = true ->
  mentions (_get_recommendation true metrics)
    "High memory usage - check for memory leaks or increase limits".
Proof.
  intros H. unfold _get_recommendation. cbv zeta. rewrite H. simpl negb. cbv iota.
  destruct (Qgtb (get metrics "cpu_usage" 0) 80),
           (Qgtb (get metrics "response_time" 0) 1000),
           (Qgtb (get metrics "error_rate" 0) error_rate_threshold);
    first [ exact (mentions_join " | " _ [] [])
          | exact (mentions_join " | " _ [] [_])
          | exact (mentions_join " | " _ [] [_; _])
          | exact (mentions_join " | " _ [_] [])
          | exact (mentions_join " | " _ [_] [_])
          | exact (mentions_join " | " _ [_] [_; _]) ].
Qed.

(** C8: when [is_anomaly] is false the recommendation is the fixed message,
    whatever the metrics; when it is true and [memory_usage] is above 85, in
    particular 92 as in scenario A, the recommendation contains the
    memory-usage message.  Scenario A's metrics give the four messages
    joined, scenario B's with [is_anomaly] false the fixed message. *)
Theorem get_recommendation_scenarios :
  (forall metrics : gmap string Q,
     _get_recommendation false metrics
     = "No action required - metrics within normal range") /\
  (forall (metrics : gmap string Q) (v : Q),
     metrics !! "memory_usage" = Some v -> 85 < v ->
     mentions (_get_recommendation true metrics)
       "High memory usage - check for memory leaks or increase limits") /\
  (forall metrics : gmap string Q,
     metrics !! "memory_usage" = Some 92 ->
     mentions (_get_recommendation true metrics)
       "High memory usage - check for memory leaks or increase limits") /\
  _get_recommendation true scenario_A
  = "High CPU detected - consider scaling horizontally | High memory usage - check for memory leaks or increase limits | Elevated response time - investigate database queries or external API calls | High error rate - check application logs for exceptions" /\
  _get_recommendation false scenario_B
  = "No action required - metrics within normal range".
Proof.
  assert (Hmem : forall (metrics : gmap string Q) (v : Q),
             metrics !! "memory_usage" = Some v -> 85 < v ->
             mentions (_get_recommendation true metrics)
               "High memory usage - check for memory leaks or increase limits").
  { intros metrics v Hv Hgt. apply get_recommendation_memory.
    unfold get. rewrite Hv. simpl. apply Qgtb_true, Hgt. }
  split; [reflexivity|]. split; [exact Hmem|]. split; [|split].
  - intros metrics Hv. apply (Hmem metrics 92 Hv). reflexivity.
  - vm_compute. reflexivity.
  - reflexivity.
Qed.

(** *** Scoring *)

Lemma results_loop_confidence (metrics_data : list sample) (zipped : list (Z * Q)) :
  forall (idx : nat) (results : list verdict),
    results_loop metrics_data idx zipped = Ok results ->
    Forall (fun v => confidence v = Qabs (score v)) results.
Proof.
  induction zipped as [|[pred sc] rest IH]; intros idx results H; simpl in H.
  - injection H as <-. constructor.
  - destruct (metrics_data !! idx) as [metric|]; [|discriminate].
    destruct (results_loop metrics_data (S idx) rest) as [tail|e] eqn:E;
      simpl in H; [|discriminate].
    injection H as <-. constructor; [reflexivity | exact (IH _ _ E)].
Qed.

Lemma produced_confidence (v : verdict) :
  produced_by_scoring v -> confidence v = Qabs (score v).
Proof.
  intros (self & metrics_data & results & Hrun & Hin).
  unfold predict_on in Hrun. apply results_loop_confidence in Hrun.
  rewrite Forall_forall in Hrun. apply Hrun, list_elem_of_In, Hin.
Qed.

(** C6: every verdict the scoring stage produces has a non-negative
    confidence, equal to the absolute value of its score; hence for any two
    verdicts, [|score1| <= |score2|] implies [confidence1 <= confidence2]. *)
Theorem confidence_nonneg_monotone (v1 v2 : verdict) :
  produced_by_scoring v1 -> produced_by_scoring v2 ->
  0 <= confidence v1 /\
  confidence v1 = Qabs (score v1) /\
  (Qabs (score v1) <= Qabs (score v2) -> confidence v1 <= confidence v2).
Proof.
  intros H1 H2.
  rewrite (produced_confidence v1 H1), (produced_confidence v2 H2).
  split; [apply Qabs_nonneg|]. split; [reflexivity|]. intros H; exact H.
Qed.

(** The two verdicts of the scoring stage on [demo_data]. *)
Lemma confidence_nonneg_monotone_witness :
  exists v1 v2 : verdict,
    predict_on demo_predictor demo_data = Ok [v1; v2] /\
    0 <= confidence v1 /\
    confidence v1 = Qabs (score v1) /\
    (Qabs (score v1) <= Qabs (score v2) -> confidence v1 <= confidence v2).
Proof.
  destruct (predict_on demo_predictor demo_data)
    as [[|v1 [|v2 [|v3 rest]]]|e] eqn:E; try (vm_compute in E; discriminate).
  exists v1, v2. split; [reflexivity|].
  apply confidence_nonneg_monotone;
    exists demo_predictor, demo_data, [v1; v2];
    (split; [exact E | simpl; auto]).
Defined.

(** *** Determinism *)

Lemma results_loop_outcomes (data1 data2 : list sample) (zipped : list (Z * Q)) :
  length data1 = length data2 ->
  forall idx : nat,
    rmap (map outcome) (results_loop data1 idx zipped)
    = rmap (map outcome) (results_loop data2 idx zipped).
Proof.
  intros Hlen. induction zipped as [|[pred sc] rest IH]; intros idx; simpl.
  - reflexivity.
  - destruct (data1 !! idx) as [m1|] eqn:E1, (data2 !! idx) as [m2|] eqn:E2.
    + specialize (IH (S idx)). unfold rmap in *.
      destruct (results_loop data1 (S idx) rest),
               (results_loop data2 (S idx) rest); simpl in *; try congruence.
      injection IH as IH. rewrite IH. reflexivity.
    + apply lookup_lt_Some in E1. apply lookup_ge_None in E2. lia.
    + apply lookup_ge_None in E1. apply lookup_lt_Some in E2. lia.
    + reflexivity.
Qed.

(** The scoring stage is a function of the feature matrix alone: timestamps
    and metrics outside the seven columns do not reach the outcome. *)
Lemma predict_on_outcomes (self : AnomalyPredictor) (data1 data2 : list sample) :
  _prepare_features data1 = _prepare_features data2 ->
  rmap (map outcome) (predict_on self data1)
  = rmap (map outcome) (predict_on self data2).
Proof.
  intros Hf. unfold predict_on. cbv zeta. rewrite Hf.
  apply results_loop_outcomes.
  apply (f_equal length) in Hf. unfold _prepare_features in Hf.
  now rewrite !length_map in Hf.
Qed.

(** C5, as amended: for every model and scaler, two runs of [predict] whose
    fetched samples have identical feature vectors yield identical
    (score, is_anomaly, confidence) for every output element, whatever the
    service names, time windows, clocks and generator states of the runs. *)
Theorem predict_deterministic_in_features
    (self : AnomalyPredictor)
    (service1 window1 : string) (now1 : Z) (g1 : rng)
    (service2 window2 : string) (now2 : Z) (g2 : rng) :
  _prepare_features (fst (_fetch_metrics service1 window1 now1 g1))
  = _prepare_features (fst (_fetch_metrics service2 window2 now2 g2)) ->
  rmap (map outcome) (fst (predict self service1 window1 now1 g1))
  = rmap (map outcome) (fst (predict self service2 window2 now2 g2)).
Proof.
  intros Hf. unfold predict.
  destruct (_fetch_metrics service1 window1 now1 g1) as [data1 g1'].
  destruct (_fetch_metrics service2 window2 now2 g2) as [data2 g2'].
  simpl in *. apply predict_on_outcomes, Hf.
Qed.

(** Two runs an hour apart, for different services, on the same draws. *)
Lemma predict_deterministic_in_features_witness :
  _prepare_features (fst (_fetch_metrics "payment-service" "1h" 0 draws_zero))
  = _prepare_features (fst (_fetch_metrics "checkout" "6h" 3600 draws_zero)) /\
  rmap (map outcome) (fst (predict demo_predictor "payment-service" "1h" 0 draws_zero))
  = rmap (map outcome) (fst (predict demo_predictor "checkout" "6h" 3600 draws_zero)).
Proof.
  split; [vm_compute; reflexivity|].
  apply (predict_deterministic_in_features demo_predictor).
  vm_compute; reflexivity.
Defined.

(** C5, as stated, fails: two runs of [predict] for the same service, the
    same window and the same clock, one with the generator drawing 0 and one
    with it drawing 1, give their first sample the scores -1/20 and
    -329/1200, and only the second run flags it as an anomaly. *)
Lemma predict_depends_on_generator :
  let run g := fst (predict demo_predictor "payment-service" "1h" 0 g) in
  first_outcome (run draws_zero) = Some (- (1 # 20), false, 1 # 20) /\
  first_outcome (run draws_one) = Some (- (329 # 1200), true, 329 # 1200) /\
  rmap (map outcome) (run draws_zero) <> rmap (map outcome) (run draws_one).
Proof.
  cbv zeta.
  assert (H0 : first_outcome (fst (predict demo_predictor "payment-service" "1h" 0 draws_zero))
               = Some (- (1 # 20), false, 1 # 20)) by (vm_compute; reflexivity).
  assert (H1 : first_outcome (fst (predict demo_predictor "payment-service" "1h" 0 draws_one))
               = Some (- (329 # 1200), true, 329 # 1200)) by (vm_compute; reflexivity).
  split; [exact H0|]. split; [exact H1|]. intros E.
  destruct (fst (predict demo_predictor "payment-service" "1h" 0 draws_zero)) as [[|a l]|];
  destruct (fst (predict demo_predictor "payment-service" "1h" 0 draws_one)) as [[|b l']|];
    unfold rmap, outcome, first_outcome in *; simpl in *; congruence.
Qed.

End AnomalyProps.

(** ** faiss_index.py *)

Module VectorDBProps.

Import VectorDB Examples.

(** C1, as amended: for every state of the index, every service, log
    excerpt and [top_k], [find_similar_incidents] returns the same
    one-element sequence, the fixed match INC-2024-100; the result does not
    depend on the index or on [top_k], it is within [top_k] whenever
    [top_k >= 1], and it is the same for any two calls. *)
Theorem find_similar_incidents_fixed
    (self : VectorSearch) (service : string) (logs : list string) (top_k : Z) :
  find_similar_incidents self service logs top_k = [stub_match] /\
  length (find_similar_incidents self service logs top_k) = 1%nat /\
  ((1 <= top_k)%Z ->
   (Z.of_nat (length (find_similar_incidents self service logs top_k)) <= top_k)%Z) /\
  (forall (self' : VectorSearch) (service' : string) (logs' : list string)
          (top_k' : Z),
     find_similar_incidents self' service' logs' top_k'
     = find_similar_incidents self service logs top_k).
Proof.
  split; [reflexivity|]. split; [reflexivity|]. split; [|reflexivity].
  simpl. lia.
Qed.

(** C1, as stated, fails: on the empty index a query returns one match, not
    the empty sequence, and it does so for [top_k] 3, 0 and -1 alike. *)
Lemma find_similar_incidents_not_empty :
  index test_store = [] /\
  find_similar_incidents test_store "payment-service" [] 3 <> [] /\
  find_similar_incidents test_store "payment-service" [] 0 <> [] /\
  find_similar_incidents test_store "payment-service" [] (-1) <> [].
Proof. repeat split; discriminate. Qed.

End VectorDBProps.

(** ** rca_agent.py *)

Module RCAProps.

Import RCA Examples.

Lemma slice_last_length {A} (n : nat) (l : list A) :
  length (slice_last n l) <= n.
Proof. unfold slice_last. rewrite length_drop. lia. Qed.

Lemma slice_last_idemp {A} (n : nat) (l : list A) :
  slice_last n (slice_last n l) = slice_last n l.
Proof.
  unfold slice_last at 1.
  replace (length (slice_last n l) - n) with 0 by (pose proof (slice_last_length n l); lia).
  reflexivity.
Qed.

Lemma slice_first_length {A} (n : nat) (l : list A) :
  length (slice_first n l) <= n.
Proof. unfold slice_first. rewrite length_take. lia. Qed.

Lemma slice_first_idemp {A} (n : nat) (l : list A) :
  slice_first n (slice_first n l) = slice_first n l.
Proof. unfold slice_first. apply take_idemp. Qed.

Lemma truthy_slice_first {A} (n : nat) (l : option (list A)) :
  truthy (slice_first (S n) <$> l) = truthy l.
Proof. destruct l as [[|x l]|]; reflexivity. Qed.

Lemma some_list_slice_first {A} (n : nat) (l : option (list A)) :
  some_list (slice_first n <$> l) = slice_first n (some_list l).
Proof. destruct l as [l|]; [reflexivity|]. now destruct n. Qed.

Section WithRuntime.
Context `{rt : PyRuntime}.

Lemma context_parts_sliced (metrics : pydict) (logs : list string)
    (traces similar_incidents : option (list pydict)) :
  context_parts metrics logs traces similar_incidents
  = context_parts metrics (slice_last 50 logs)
      (slice_first 10 <$> traces) (slice_first 3 <$> similar_incidents).
Proof.
  unfold context_parts. cbv zeta.
  rewrite slice_last_idemp, !truthy_slice_first, !some_list_slice_first,
    !slice_first_idemp.
  reflexivity.
Qed.

Lemma context_parts_length (metrics : pydict) (logs : list string)
    (traces similar_incidents : option (list pydict)) :
  length (context_parts metrics logs traces similar_incidents) <= 65.
Proof.
  unfold context_parts. cbv zeta.
  pose proof (slice_last_length 50 logs) as Hlogs.
  pose proof (slice_first_length 3 (some_list similar_incidents)) as Hsimilar.
  remember (slice_last 50 logs) as kept_logs eqn:E1. clear E1.
  remember (slice_first 3 (some_list similar_incidents)) as kept eqn:E2. clear E2.
  destruct (truthy traces), (truthy similar_incidents);
    repeat (rewrite ?length_app, ?length_map; simpl length); lia.
Qed.

(** C7: the context document is a function of (metrics, logs, traces,
    similar_incidents) alone, so identical inputs give the identical
    document; it is the document of the last 50 log lines, the first 10
    trace records and the first 3 similar incidents, these slices have at
    most 50, 10 and 3 items, and the document is the join of at most 65
    parts. *)
Theorem prepare_context_bounded (metrics : pydict) (logs : list string)
    (traces similar_incidents : option (list pydict)) :
  (forall (metrics' : pydict) (logs' : list string)
          (traces' similar' : option (list pydict)),
     metrics' = metrics -> logs' = logs -> traces' = traces ->
     similar' = similar_incidents ->
     _prepare_context metrics' logs' traces' similar'
     = _prepare_context metrics logs traces similar_incidents) /\
  _prepare_context metrics logs traces similar_incidents
  = _prepare_context metrics (slice_last 50 logs)
      (slice_first 10 <$> traces) (slice_first 3 <$> similar_incidents) /\
  length (slice_last 50 logs) <= 50 /\
  length (slice_first 10 (some_list traces)) <= 10 /\
  length (slice_first 3 (some_list similar_incidents)) <= 3 /\
  length (context_parts metrics logs traces similar_incidents) <= 65.
Proof.
  split; [intros ? ? ? ? -> -> -> ->; reflexivity|].
  split; [unfold _prepare_context; now rewrite context_parts_sliced|].
  split; [apply slice_last_length|].
  split; [apply slice_first_length|].
  split; [apply slice_first_length|].
  apply context_parts_length.
Qed.

(** *** The reasoning step *)

Lemma analyze_raises (self : RCAAgent) (now : Z) (incident_id : string)
    (metrics : pydict) (logs : list string)
    (traces similar_incidents : option (list pydict)) (e : exn) :
  reasoning_failure self
    (analysis_request self now incident_id metrics logs traces similar_incidents) e ->
  analyze self now incident_id metrics logs traces similar_incidents = Raise e.
Proof.
  intros H. unfold analyze.
  destruct H as [e Hc | content e Hc Hl | content parsed e Hc Hl Hd];
    rewrite Hc; simpl; [reflexivity| |]; rewrite Hl; simpl; [reflexivity|].
  rewrite Hd. reflexivity.
Qed.

(** These are the only ways [analyze] fails. *)
Lemma analyze_raises_only (self : RCAAgent) (now : Z) (incident_id : string)
    (metrics : pydict) (logs : list string)
    (traces similar_incidents : option (list pydict)) (e : exn) :
  analyze self now incident_id metrics logs traces similar_incidents = Raise e ->
  reasoning_failure self
    (analysis_request self now incident_id metrics logs traces similar_incidents) e.
Proof.
  unfold analyze. intros H.
  destruct (create self _) as [content|e1] eqn:Hc; simpl in H;
    [|injection H as <-; now apply call_raises].
  destruct (json_loads content) as [parsed|e2] eqn:Hl; simpl in H;
    [|injection H as <-; now apply (reply_malformed _ _ content)].
  destruct (as_dict parsed) as [fields|e3] eqn:Hd; simpl in H; [discriminate|].
  injection H as <-. now apply (reply_not_object _ _ content parsed).
Qed.

Lemma analyze_object (self : RCAAgent) (now : Z) (incident_id : string)
    (metrics : pydict) (logs : list string)
    (traces similar_incidents : option (list pydict))
    (content : string) (reply : pydict) :
  create self
    (analysis_request self now incident_id metrics logs traces similar_incidents)
  = Ok content ->
  json_loads content = Ok (JObj reply) ->
  analyze self now incident_id metrics logs traces similar_incidents
  = Ok {| root_cause := dict_get reply "root_cause" (JStr "Unknown");
          severity := dict_get reply "severity" (JStr "medium");
          confidence := dict_get reply "confidence" (JFloat 0);
          impact := dict_get reply "impact_assessment" (JStr "Unknown impact");
          contributing_factors := dict_get reply "contributing_factors" (JArr []);
          timeline := dict_get reply "timeline" (JArr []);
          recommendations := dict_get reply "recommendations" (JArr []) |}.
Proof.
  intros Hc Hl. unfold analyze. rewrite Hc. simpl. rewrite Hl. reflexivity.
Qed.

Lemma dict_get_present (d : pydict) (key : string) (dflt v : json) :
  assoc key d = Some v -> dict_get d key dflt = v.
Proof. intros H. unfold dict_get. now rewrite H. Qed.

Lemma dict_get_missing (d : pydict) (key : string) (dflt : json) :
  assoc key d = None -> dict_get d key dflt = dflt.
Proof. intros H. unfold dict_get. now rewrite H. Qed.

End WithRuntime.

(** The context parts of the example request, with the match the vector
    store returns. *)
Example context_parts_of_test_request :
  context_parts (rt := test_runtime) (Api.req_metrics test_request)
    (Api.req_logs test_request) None (Some [VectorDB.stub_match])
  = [ "## METRICS"; "```json";
      render (JObj (Api.req_metrics test_request)); "```";
      nl +:+ "## RECENT LOGS"; "```";
      "2024-01-21 14:30:01 ERROR OutOfMemoryError: Java heap space";
      "2024-01-21 14:30:02 WARN Connection pool exhausted";
      "2024-01-21 14:30:03 ERROR Failed to allocate memory for order processing";
      "2024-01-21 14:30:05 INFO Attempting garbage collection";
      "2024-01-21 14:30:10 ERROR GC overhead limit exceeded";
      "```";
      nl +:+ "## SIMILAR PAST INCIDENTS";
      "- **INC-2024-100**: Memory leak in service" ].
Proof. reflexivity. Qed.

(** Of sixty log lines the context keeps the last fifty. *)
Example context_keeps_last_fifty :
  let logs := map (fun n : nat => pretty n) (seq 0 60) in
  length (context_parts (rt := test_runtime) [] logs None None) = 57 /\
  slice_last 50 logs = map (fun n : nat => pretty n) (seq 10 50).
Proof. vm_compute. split; reflexivity. Qed.

(** The unit test [test_analyze_incident]: the patched reply comes back
    field by field. *)
Example test_analyze_incident :
  match analyze (rt := test_runtime) (agent_replying reply_full) 0 "INC-001"
          [ ("cpu_usage_percent", JFloat (955 # 10)) ]
          [ "ERROR: Out of memory" ] None None with
  | Ok result =>
      root_cause result = JStr "Memory leak" /\
      severity result = JStr "high" /\
      confidence result = JFloat (9 # 10)
  | Raise _ => False
  end.
Proof. vm_compute. repeat split. Qed.

End RCAProps.

(** ** ai_engine_main.py *)

Module ApiProps.

Import Api Examples.

Section WithComponents.
Context `{rt : PyRuntime} `{pyd : Pydantic}.
Variable rca_agent : RCA.RCAAgent.
Variable vector_search : VectorDB.VectorSearch.
Variable generate_fix : json -> string -> json -> result pydict.
Variable utcnow : nat -> Z.

Local Abbreviation endpoint := (analyze_incident rca_agent vector_search generate_fix utcnow).
Local Abbreviation sent request := (reasoning_request rca_agent vector_search utcnow request).

Lemma validate_string (v : json) (s : string) :
  string_value v = Some s -> validate_str v = Ok s.
Proof. destruct v; try discriminate. intros [= <-]. apply validate_str_str. Qed.

Lemma validate_number (v : json) (q : Q) :
  number_value v = Some q -> validate_float v = Ok q.
Proof.
  destruct v as [| |z|q'| | |]; try discriminate; cbn [number_value].
  - destruct (exact_int z) eqn:E; [|discriminate].
    intros [= <-]. now apply validate_float_int.
  - intros [= <-]. apply validate_float_float.
Qed.

(** The queued tasks never change the vector store: [store_incident] is
    [pass]. *)
Lemma run_tasks_noop (tasks : list task) : run_tasks vector_search tasks = vector_search.
Proof.
  unfold run_tasks. generalize vector_search.
  induction tasks as [|[incident data] tasks IH]; intros vs; simpl; auto.
Qed.

Lemma analyze_incident_raises (request : IncidentAnalysisRequest)
    (tasks : list task) (e : exn) :
  RCA.reasoning_failure rca_agent (sent request) e ->
  endpoint request tasks
  = (Raise (HTTPException 500 ("Analysis failed: " +:+ exn_str e)), tasks).
Proof.
  intros H. apply RCAProps.analyze_raises in H.
  unfold analyze_incident, analyze_incident_body. now rewrite H.
Qed.

(** The path on which every step succeeds. *)
Lemma analyze_incident_ok (request : IncidentAnalysisRequest) (tasks : list task)
    (content : string) (reply fix_code fix_details : pydict)
    (code cause level effect : string) (conf : Q) :
  RCA.create rca_agent (sent request) = Ok content ->
  json_loads content = Ok (JObj reply) ->
  generate_fix (dict_get reply "root_cause" (JStr "Unknown"))
    (req_service_name request) (dict_get reply "severity" (JStr "medium"))
  = Ok fix_code ->
  assoc "fix_details" fix_code = Some (JObj fix_details) ->
  assoc "code" fix_code = Some (JStr code) ->
  string_value (dict_get reply "root_cause" (JStr "Unknown")) = Some cause ->
  string_value (dict_get reply "severity" (JStr "medium")) = Some level ->
  number_value (dict_get reply "confidence" (JFloat 0)) = Some conf ->
  string_value (dict_get reply "impact_assessment" (JStr "Unknown impact")) = Some effect ->
  endpoint request tasks
  = (Ok {| incident_id := req_incident_id request;
           root_cause := cause;
           severity := level;
           confidence := conf;
           impact_assessment := effect;
           recommended_fix := fix_details;
           generated_code := code;
           similar_incidents := [VectorDB.stub_match];
           timeline :=
             [ timeline_event (isoformat (req_timestamp request)) "Incident detected";
               timeline_event (isoformat (utcnow 1)) "RCA completed";
               timeline_event (isoformat (utcnow 2)) "Fix generated" ] |},
     tasks ++ [ store_task request (dict_get reply "root_cause" (JStr "Unknown")) ]).
Proof.
  intros Hc Hl Hfix Hfd Hcode Hcause Hlevel Hconf Heffect.
  unfold analyze_incident, analyze_incident_body.
  rewrite (RCAProps.analyze_object _ _ _ _ _ _ _ _ _ Hc Hl). simpl.
  rewrite Hfix. unfold getitem. rewrite Hfd, Hcode. simpl.
  rewrite (validate_string _ _ Hcause). simpl.
  rewrite (validate_string _ _ Hlevel). simpl.
  rewrite (validate_number _ _ Hconf). simpl.
  rewrite (validate_string _ _ Heffect). simpl.
  rewrite validate_dict_obj. simpl. rewrite validate_str_str. reflexivity.
Qed.

(** A field that is there is not defaulted: a severity of [null] reaches
    the response model, which refuses it, after the task storing the
    incident has been queued. *)
Lemma null_severity_refused (request : IncidentAnalysisRequest) (tasks : list task)
    (content : string) (reply fix_code fix_details : pydict) (code cause : string) :
  RCA.create rca_agent (sent request) = Ok content ->
  json_loads content = Ok (JObj reply) ->
  assoc "severity" reply = Some JNull ->
  string_value (dict_get reply "root_cause" (JStr "Unknown")) = Some cause ->
  generate_fix (dict_get reply "root_cause" (JStr "Unknown"))
    (req_service_name request) JNull = Ok fix_code ->
  assoc "fix_details" fix_code = Some (JObj fix_details) ->
  assoc "code" fix_code = Some (JStr code) ->
  exists detail : string,
    endpoint request tasks
    = (Raise (HTTPException 500 ("Analysis failed: " +:+ detail)),
       tasks ++ [ store_task request (dict_get reply "root_cause" (JStr "Unknown")) ]).
Proof.
  intros Hc Hl Hsev Hcause Hfix Hfd Hcode.
  unfold analyze_incident, analyze_incident_body.
  rewrite (RCAProps.analyze_object _ _ _ _ _ _ _ _ _ Hc Hl). simpl.
  rewrite (RCAProps.dict_get_present _ _ _ _ Hsev).
  rewrite Hfix. unfold getitem. rewrite Hfd, Hcode. simpl.
  rewrite (validate_string _ _ Hcause). simpl.
  destruct (validate_str JNull) as [s|e] eqn:E.
  - exfalso. exact (validate_str_none s E).
  - simpl. eexists. reflexivity.
Qed.

(** C2, as amended: when the reasoning step fails (the call raises, as on a
    timeout, or the reply is not JSON, or it is JSON and not an object),
    [analyze_incident] fails with an [HTTPException] of status 500 whose
    detail is "Analysis failed: " followed by the text of the error, no
    root cause is returned, and no task storing the incident is queued:
    the background tasks are left as they were and the vector store is
    unchanged. *)
Theorem reasoning_failure_is_http_500 (request : IncidentAnalysisRequest)
    (tasks : list task) (e : exn) :
  RCA.reasoning_failure rca_agent (sent request) e ->
  endpoint request tasks
  = (Raise (HTTPException 500 ("Analysis failed: " +:+ exn_str e)), tasks) /\
  fails_with_class (fst (endpoint request tasks)) "HTTPException" /\
  snd (endpoint request tasks) = tasks /\
  run_tasks vector_search (snd (endpoint request tasks)) = vector_search.
Proof.
  intros H. rewrite (analyze_incident_raises request tasks e H).
  split; [reflexivity|]. split; [|split].
  - eexists. split; reflexivity.
  - reflexivity.
  - apply run_tasks_noop.
Qed.

(** C4, as amended: for every reply that is a JSON object, [analyze] does
    not fail and a missing [root_cause], [severity] or [confidence] comes
    out as "Unknown", "medium" or 0.0; and when the fields that are present
    have the response model's types (strings, and for the confidence a
    float or an int that a float holds exactly) and the fix generator
    returns a well-formed fix, the endpoint completes with a response
    carrying these defaults and queues the task that stores the incident. *)
Theorem missing_fields_defaulted (request : IncidentAnalysisRequest)
    (tasks : list task) (content : string) (reply : pydict) :
  RCA.create rca_agent (sent request) = Ok content ->
  json_loads content = Ok (JObj reply) ->
  (exists r : RCA.rca_result,
     RCA.analyze rca_agent (utcnow 0) (req_incident_id request)
       (req_metrics request) (req_logs request) (req_traces request)
       (Some (VectorDB.find_similar_incidents vector_search
                (req_service_name request) (slice_first 10 (req_logs request)) 3))
     = Ok r /\
     (assoc "root_cause" reply = None -> RCA.root_cause r = JStr "Unknown") /\
     (assoc "severity" reply = None -> RCA.severity r = JStr "medium") /\
     (assoc "confidence" reply = None -> RCA.confidence r = JFloat 0)) /\
  (forall fix_code : pydict,
     schema_typed reply ->
     generate_fix (dict_get reply "root_cause" (JStr "Unknown"))
       (req_service_name request) (dict_get reply "severity" (JStr "medium"))
     = Ok fix_code ->
     fix_well_formed fix_code ->
     exists response : IncidentAnalysisResponse,
       endpoint request tasks
       = (Ok response,
          tasks ++ [ store_task request (dict_get reply "root_cause" (JStr "Unknown")) ]) /\
       (assoc "root_cause" reply = None -> root_cause response = "Unknown") /\
       (assoc "severity" reply = None -> severity response = "medium") /\
       (assoc "confidence" reply = None -> confidence response = 0%Q)).
Proof.
  intros Hc Hl. split.
  - eexists. split; [exact (RCAProps.analyze_object _ _ _ _ _ _ _ _ _ Hc Hl)|].
    simpl. repeat split; intros H; apply RCAProps.dict_get_missing, H.
  - intros fix_code (Hcause & Hlevel & Hconf & Heffect) Hfix
      ((fix_details & Hfd) & (code & Hcode)).
    assert (Hc' : exists cause,
               string_value (dict_get reply "root_cause" (JStr "Unknown")) = Some cause
               /\ (assoc "root_cause" reply = None -> cause = "Unknown")).
    { unfold dict_get. destruct (assoc "root_cause" reply) as [v|] eqn:E.
      - destruct (Hcause v eq_refl) as [s Hs]. exists s. split; [exact Hs | discriminate].
      - exists "Unknown". split; reflexivity. }
    assert (Hl' : exists level,
               string_value (dict_get reply "severity" (JStr "medium")) = Some level
               /\ (assoc "severity" reply = None -> level = "medium")).
    { unfold dict_get. destruct (assoc "severity" reply) as [v|] eqn:E.
      - destruct (Hlevel v eq_refl) as [s Hs]. exists s. split; [exact Hs | discriminate].
      - exists "medium". split; reflexivity. }
    assert (Hn' : exists conf,
               number_value (dict_get reply "confidence" (JFloat 0)) = Some conf
               /\ (assoc "confidence" reply = None -> conf = 0%Q)).
    { unfold dict_get. destruct (assoc "confidence" reply) as [v|] eqn:E.
      - destruct (Hconf v eq_refl) as [q Hq]. exists q. split; [exact Hq | discriminate].
      - exists 0%Q. split; reflexivity. }
    assert (He' : exists effect,
               string_value (dict_get reply "impact_assessment" (JStr "Unknown impact"))
               = Some effect).
    { unfold dict_get. destruct (assoc "impact_assessment" reply) as [v|] eqn:E.
      - destruct (Heffect v eq_refl) as [s Hs]. exists s. exact Hs.
      - exists "Unknown impact". reflexivity. }
    destruct Hc' as (cause & Hcv & Hcd), Hl' as (level & Hlv & Hld),
             Hn' as (conf & Hnv & Hnd), He' as (effect & Hev).
    eexists. split.
    + exact (analyze_incident_ok request tasks content reply fix_code fix_details
               code cause level effect conf Hc Hl Hfix Hfd Hcode Hcv Hlv Hnv Hev).
    + simpl. auto.
Qed.


End WithComponents.

End ApiProps.

Module ApiExamples.

Import Api Examples.

Local Abbreviation run agent generator :=
  (analyze_incident (rt := test_runtime) (pyd := test_pydantic)
     agent test_store generator test_clock test_request []).

Local Abbreviation sent agent :=
  (reasoning_request (rt := test_runtime) agent test_store test_clock test_request).

(** The call to the reasoning service times out. *)
Lemma reasoning_failure_is_http_500_witness :
  RCA.reasoning_failure (rt := test_runtime) agent_timing_out (sent agent_timing_out)
    (PyError "APITimeoutError" "Request timed out.") /\
  run agent_timing_out test_generate_fix
  = (Raise (HTTPException 500 "Analysis failed: Request timed out."), []) /\
  fails_with_class (fst (run agent_timing_out test_generate_fix)) "HTTPException" /\
  snd (run agent_timing_out test_generate_fix) = [] /\
  Api.run_tasks test_store (snd (run agent_timing_out test_generate_fix)) = test_store.
Proof.
  assert (H : RCA.reasoning_failure (rt := test_runtime) agent_timing_out
                (sent agent_timing_out)
                (PyError "APITimeoutError" "Request timed out."))
    by (apply RCA.call_raises; reflexivity).
  split; [exact H|].
  exact (ApiProps.reasoning_failure_is_http_500 (rt := test_runtime)
           (pyd := test_pydantic) agent_timing_out test_store test_generate_fix
           test_clock test_request [] _ H).
Defined.

(** A reply that is not JSON and a reply that is a JSON array end the same
    way. *)
Example malformed_reply_is_http_500 :
  run (agent_replying_text "I could not determine the root cause.") test_generate_fix
  = (Raise (HTTPException 500
       "Analysis failed: Expecting value: line 1 column 1 (char 0)"), []).
Proof.
  apply (ApiProps.analyze_incident_raises (rt := test_runtime) (pyd := test_pydantic)
           _ _ _ _ _ _
           (PyError "JSONDecodeError" "Expecting value: line 1 column 1 (char 0)")).
  eapply RCA.reply_malformed; [reflexivity | vm_compute; reflexivity].
Qed.

Example array_reply_is_http_500 :
  run (agent_replying reply_array) test_generate_fix
  = (Raise (HTTPException 500
       "Analysis failed: 'list' object has no attribute 'get'"), []).
Proof.
  apply (ApiProps.analyze_incident_raises (rt := test_runtime) (pyd := test_pydantic)
           _ _ _ _ _ _
           (PyError "AttributeError" "'list' object has no attribute 'get'")).
  eapply RCA.reply_not_object;
    [reflexivity | vm_compute; reflexivity | reflexivity].
Qed.

(** C2, as stated, fails: when the call to the reasoning service times out,
    the endpoint raises an [HTTPException] with status 500, not a
    [ReasoningUnavailableError]; a failure of the fix generator raises the
    same class with the same status. *)
Lemma reasoning_timeout_is_untyped :
  fst (run agent_timing_out test_generate_fix)
  = Raise (HTTPException 500 "Analysis failed: Request timed out.") /\
  ~ fails_with_class (fst (run agent_timing_out test_generate_fix))
      "ReasoningUnavailableError" /\
  fst (run (agent_replying reply_full) failing_generate_fix)
  = Raise (HTTPException 500 "Analysis failed: no template for this root cause").
Proof.
  split; [reflexivity|]. split; [|vm_compute; reflexivity].
  intros (e & He & Hcls). vm_compute in He. injection He as <-. discriminate.
Qed.

Lemma schema_typed_reply (fields : pydict) :
  (forall v, assoc "root_cause" fields = Some v -> is_Some (string_value v)) ->
  (forall v, assoc "severity" fields = Some v -> is_Some (string_value v)) ->
  (forall v, assoc "confidence" fields = Some v -> is_Some (number_value v)) ->
  (forall v, assoc "impact_assessment" fields = Some v -> is_Some (string_value v)) ->
  schema_typed fields.
Proof. intros; repeat split; assumption. Qed.

Ltac typed_field :=
  let v := fresh "v" in let H := fresh "H" in
  intros v H; vm_compute in H;
  first [ discriminate H | injection H as <-; eexists; reflexivity ].

Lemma test_fix_well_formed (cause level : json) :
  exists fix_code,
    test_generate_fix cause "payment-service" level = Ok fix_code /\
    fix_well_formed fix_code.
Proof.
  eexists. split; [reflexivity|]. split; eexists; reflexivity.
Qed.

(** C4, as stated, fails: a reply whose severity is [null] and whose
    confidence is missing has its confidence defaulted to 0.0 by [analyze],
    but its severity is passed on as it is, and the endpoint does not
    complete: the response model refuses the severity and the request ends
    with status 500, the task storing the incident already queued. *)
Lemma null_severity_not_defaulted :
  (exists r : RCA.rca_result,
     RCA.analyze (rt := test_runtime) (agent_replying reply_null_severity)
       (test_clock 0) "INC-2024-001" (req_metrics test_request)
       (req_logs test_request) None
       (Some (VectorDB.find_similar_incidents test_store "payment-service"
                (slice_first 10 (req_logs test_request)) 3)) = Ok r /\
     RCA.severity r = JNull /\ RCA.confidence r = JFloat 0) /\
  exists detail : string,
    run (agent_replying reply_null_severity) test_generate_fix
    = (Raise (HTTPException 500 ("Analysis failed: " +:+ detail)),
       [ store_task test_request (JStr "Memory leak") ]).
Proof.
  split.
  - eexists. split.
    + apply (RCAProps.analyze_object (rt := test_runtime) _ _ _ _ _ _ _
               (render reply_null_severity)
               [ ("root_cause", JStr "Memory leak"); ("severity", JNull) ]);
        [reflexivity | vm_compute; reflexivity].
    + split; reflexivity.
  - destruct (test_fix_well_formed (JStr "Memory leak") JNull)
      as (fix_code & Hfix & (fix_details & Hfd) & (code & Hcode)).
    exact (ApiProps.null_severity_refused (rt := test_runtime) (pyd := test_pydantic)
             (agent_replying reply_null_severity) test_store test_generate_fix
             test_clock test_request [] (render reply_null_severity)
             [ ("root_cause", JStr "Memory leak"); ("severity", JNull) ]
             fix_code fix_details code "Memory leak"
             eq_refl ltac:(vm_compute; reflexivity) eq_refl eq_refl Hfix Hfd Hcode).
Qed.

(** Scenario D: the reply omits [confidence]. *)
Lemma missing_fields_defaulted_witness :
  (exists r : RCA.rca_result,
     RCA.analyze (rt := test_runtime) (agent_replying reply_without_confidence)
       (test_clock 0) "INC-2024-001" (req_metrics test_request)
       (req_logs test_request) None
       (Some (VectorDB.find_similar_incidents test_store "payment-service"
                (slice_first 10 (req_logs test_request)) 3)) = Ok r /\
     RCA.confidence r = JFloat 0) /\
  (exists response : IncidentAnalysisResponse,
     run (agent_replying reply_without_confidence) test_generate_fix
     = (Ok response,
        [ store_task test_request (JStr "Connection pool exhausted") ]) /\
     confidence response = 0%Q).
Proof.
  destruct (ApiProps.missing_fields_defaulted (rt := test_runtime)
              (pyd := test_pydantic) (agent_replying reply_without_confidence)
              test_store test_generate_fix test_clock test_request []
              (render reply_without_confidence)
              [ ("root_cause", JStr "Connection pool exhausted");
                ("severity", JStr "high") ])
    as [Hanalyze Hendpoint]; [reflexivity | vm_compute; reflexivity |].
  split.
  - destruct Hanalyze as (r & Hr & _ & _ & Hconf).
    exists r. split; [exact Hr | apply Hconf; reflexivity].
  - destruct (test_fix_well_formed (JStr "Connection pool exhausted") (JStr "high"))
      as (fix_code & Hfix & Hwf).
    destruct (Hendpoint fix_code) as (response & Hrun & _ & _ & Hconf);
      [apply schema_typed_reply; typed_field | exact Hfix | exact Hwf |].
    exists response. split; [exact Hrun | apply Hconf; reflexivity].
Defined.


End ApiExamples.

(** ** The remediation endpoint *)

Module RemediationProps.

Import Api Examples.

Section WithEffects.
Variable execute_fix : string * string -> nat -> json.
Variable open_proposal : string * string -> nat -> string.

Local Abbreviation apply_now incident_id fix_type fix_generator :=
  (execute_remediation execute_fix open_proposal incident_id fix_type true
     fix_generator).

Lemma apply_fix_cached (self : Remediation.FixGenerator)
    (incident_id fix_type : string) :
  let after := snd (Remediation.apply_fix execute_fix self incident_id fix_type) in
  Remediation.applied after !! (incident_id, fix_type)
  = Some (fst (Remediation.apply_fix execute_fix self incident_id fix_type)).
Proof.
  unfold Remediation.apply_fix. cbv zeta.
  destruct (Remediation.applied self !! (incident_id, fix_type)) as [cached|] eqn:E;
    simpl; [exact E | apply lookup_insert_eq].
Qed.

(** C9: two calls of the endpoint with [auto_approve] set and the same
    (incident_id, fix_type) return the same result, the second call leaves
    the generator as the first left it, and of the two only the first can
    execute the side effect: the log of executed effects grows by the key
    when it was not applied before, and not at all otherwise.  From a fresh
    generator the log after both calls holds the key exactly once. *)
Theorem apply_twice_idempotent (fix_generator : Remediation.FixGenerator)
    (incident_id fix_type : string) :
  let first := apply_now incident_id fix_type fix_generator in
  let second := apply_now incident_id fix_type (snd first) in
  let fresh := apply_now incident_id fix_type Remediation.init in
  fst second = fst first /\
  snd second = snd first /\
  Remediation.side_effects (snd second)
  = Remediation.side_effects fix_generator ++
      match Remediation.applied fix_generator !! (incident_id, fix_type) with
      | Some _ => []
      | None => [(incident_id, fix_type)]
      end /\
  Remediation.side_effects (snd (apply_now incident_id fix_type (snd fresh)))
  = [(incident_id, fix_type)].
Proof.
  cbv zeta.
  assert (Hidem : forall g : Remediation.FixGenerator,
             apply_now incident_id fix_type (snd (apply_now incident_id fix_type g))
             = apply_now incident_id fix_type g).
  { intros g. unfold execute_remediation.
    pose proof (apply_fix_cached g incident_id fix_type) as Hc. cbv zeta in Hc.
    destruct (Remediation.apply_fix execute_fix g incident_id fix_type)
      as [artifact g'] eqn:E1.
    simpl in *. unfold Remediation.apply_fix at 1. cbv zeta. rewrite Hc.
    reflexivity. }
  rewrite !Hidem. split; [reflexivity|]. split; [reflexivity|]. split.
  - unfold execute_remediation, Remediation.apply_fix. cbv zeta.
    destruct (Remediation.applied fix_generator !! (incident_id, fix_type));
      simpl; [now rewrite app_nil_r | reflexivity].
  - reflexivity.
Qed.

End WithEffects.

(** On the test generator, whose artifact carries the number of executions
    before it, the second call returns the artifact of the first. *)
Example apply_twice_same_artifact :
  let first :=
    execute_remediation test_execute_fix test_open_proposal
      "INC-2024-001" "restart" true Remediation.init in
  let second :=
    execute_remediation test_execute_fix test_open_proposal
      "INC-2024-001" "restart" true (snd first) in
  fst first = Ok [ ("status", JStr "applied");
                   ("incident_id", JStr "INC-2024-001");
                   ("result", JObj [ ("fix_type", JStr "restart");
                                     ("execution", JInt 0) ]) ] /\
  fst second = fst first /\
  Remediation.side_effects (snd second) = [("INC-2024-001", "restart")].
Proof. vm_compute. repeat split. Qed.

End RemediationProps.

(** * Further properties of the sources *)

(** ** String helpers *)

Module TextProps.

Import Text.

Lemma prefixb_spec (p s : string) :
  prefixb p s = true <-> exists rest, s = p +:+ rest.
Proof.
  revert s. induction p as [|a p IH]; intros s; simpl.
  - split; [intros _; now exists s | reflexivity].
  - destruct s as [|b s].
    + split; [discriminate | intros [rest H]; discriminate H].
    + rewrite andb_true_iff, Ascii.eqb_eq, IH. split.
      * intros [-> [rest ->]]. now exists rest.
      * intros [rest H]. injection H as -> ->. split; [reflexivity | now exists rest].
Qed.

Lemma contains_spec (hay needle : string) :
  contains hay needle = true <-> mentions hay needle.
Proof.
  induction hay as [|c hay IH]; simpl; rewrite orb_true_iff, prefixb_spec.
  - split.
    + intros [[rest H] | H]; [|discriminate]. now exists "", rest.
    + intros (pre & post & H). left. destruct pre as [|x pre]; [|discriminate H].
      now exists post.
  - rewrite IH. split.
    + intros [[rest H] | (pre & post & H)].
      * now exists "", rest.
      * exists (String c pre), post. simpl. now rewrite H.
    + intros (pre & post & H). destruct pre as [|x pre].
      * left. now exists post.
      * right. injection H as -> H. now exists pre, post.
Qed.

Lemma not_mentions (hay needle : string) :
  contains hay needle = false -> ~ mentions hay needle.
Proof. intros H M. apply contains_spec in M. congruence. Qed.

End TextProps.

(** ** anomaly_detection.py, continued *)

Module ScoringProps.

Import Anomaly Scoring Examples MoreExamples.
Local Open Scope Q_scope.

(** *** [_get_recommendation] *)

Lemma Qgtb_false (x y : Q) : Qgtb x y = false <-> x <= y.
Proof.
  unfold Qgtb. rewrite negb_false_iff. apply Qle_bool_iff.
Qed.

Ltac decide_mentions :=
  match goal with
  | |- mentions ?hay ?needle <-> _ =>
      let b := eval vm_compute in (Text.contains hay needle) in
      lazymatch b with
      | true =>
          split; [intros _ | intros _; apply TextProps.contains_spec; vm_compute; reflexivity]
      | false =>
          split; [intros M; exfalso; revert M; apply TextProps.not_mentions;
                  vm_compute; reflexivity
                 | intros H; exfalso ]
      end
  end.

(** The double [0.05] lies above 1/20 and below 1/20 + 10^-17. *)
Example error_rate_threshold_bounds :
  5 # 100 < error_rate_threshold /\
  error_rate_threshold < (5 # 100) + (1 # 100000000000000000).
Proof. split; reflexivity. Qed.

(** For an anomalous sample each of the four messages is in the
    recommendation exactly when its metric is strictly above its threshold:
    CPU above 80, memory above 85, response time above 1000, error rate
    above the double 0.05.  A missing metric counts as 0. *)
Theorem recommendation_names_exceeded_metrics (metrics : gmap string Q) :
  let advice := _get_recommendation true metrics in
  (mentions advice "High CPU detected - consider scaling horizontally"
   <-> 80 < get metrics "cpu_usage" 0) /\
  (mentions advice "High memory usage - check for memory leaks or increase limits"
   <-> 85 < get metrics "memory_usage" 0) /\
  (mentions advice
     "Elevated response time - investigate database queries or external API calls"
   <-> 1000 < get metrics "response_time" 0) /\
  (mentions advice "High error rate - check application logs for exceptions"
   <-> error_rate_threshold < get metrics "error_rate" 0).
Proof.
  cbv zeta. unfold _get_recommendation. cbv zeta. simpl negb. cbv iota.
  rewrite <- !AnomalyProps.Qgtb_spec.
  destruct (Qgtb (get metrics "cpu_usage" 0) 80),
           (Qgtb (get metrics "memory_usage" 0) 85),
           (Qgtb (get metrics "response_time" 0) 1000),
           (Qgtb (get metrics "error_rate" 0) error_rate_threshold);
    (split; [|split; [|split]]); decide_mentions;
    first [reflexivity | discriminate].
Qed.

(** For an anomalous sample the recommendation is the manual-investigation
    message exactly when no metric is above its threshold; values at the
    thresholds and missing metrics do not count. *)
Theorem recommendation_manual_investigation (metrics : gmap string Q) :
  _get_recommendation true metrics
  = "Anomaly detected - manual investigation recommended"
  <-> (get metrics "cpu_usage" 0 <= 80 /\
       get metrics "memory_usage" 0 <= 85 /\
       get metrics "response_time" 0 <= 1000 /\
       get metrics "error_rate" 0 <= error_rate_threshold).
Proof.
  rewrite <- !Qgtb_false.
  unfold _get_recommendation. cbv zeta. simpl negb. cbv iota.
  destruct (Qgtb (get metrics "cpu_usage" 0) 80),
           (Qgtb (get metrics "memory_usage" 0) 85),
           (Qgtb (get metrics "response_time" 0) 1000),
           (Qgtb (get metrics "error_rate" 0) error_rate_threshold);
    (split; [intros H; vm_compute in H; discriminate H
            | intros (H1 & H2 & H3 & H4); discriminate ])
    || (split; [intros _; repeat split | intros _; reflexivity]).
Qed.

(** *** The result loop of [predict] *)

(** What the loop makes of the sample at [idx] and its pair. *)
Lemma results_loop_ok (metrics_data : list sample) (zipped : list (Z * Q)) :
  forall idx : nat,
    (idx + length zipped <= length metrics_data)%nat ->
    exists results : list verdict,
      results_loop metrics_data idx zipped = Ok results /\
      length results = length zipped /\
      forall (i : nat) (v : verdict),
        results !! i = Some v ->
        exists (metric : sample) (pred : Z) (sc : Q),
          metrics_data !! (idx + i)%nat = Some metric /\
          zipped !! i = Some (pred, sc) /\
          v = {| v_timestamp := timestamp metric;
                 is_anomaly := (pred =? -1)%Z;
                 score := sc;
                 confidence := Qabs sc;
                 v_metrics := metric;
                 recommendation :=
                   _get_recommendation (pred =? -1)%Z (values metric) |}.
Proof.
  induction zipped as [|[pred sc] rest IH]; intros idx Hlen; simpl in *.
  - exists []. split; [reflexivity|]. split; [reflexivity|]. intros i v H. discriminate H.
  - destruct (metrics_data !! idx) as [metric|] eqn:E.
    2:{ apply lookup_ge_None in E. lia. }
    destruct (IH (S idx)) as (tail & Htail & Hlength & Hitems); [lia|].
    rewrite Htail. simpl. eexists. split; [reflexivity|].
    split; [simpl; now rewrite Hlength|].
    intros [|i] v Hv; simpl in Hv.
    + injection Hv as <-. exists metric, pred, sc.
      rewrite Nat.add_0_r. repeat split; assumption.
    + destruct (Hitems i v Hv) as (m & p & s & Hm & Hp & ->).
      exists m, p, s. replace (idx + S i)%nat with (S idx + i)%nat by lia.
      repeat split; assumption.
Qed.

Lemma results_loop_index_error (metrics_data : list sample) (zipped : list (Z * Q)) :
  forall idx : nat,
    (idx <= length metrics_data)%nat ->
    (length metrics_data < idx + length zipped)%nat ->
    results_loop metrics_data idx zipped
    = Raise (PyError "IndexError" "list index out of range").
Proof.
  induction zipped as [|[pred sc] rest IH]; intros idx Hidx Hlen; simpl in *.
  - lia.
  - destruct (metrics_data !! idx) as [metric|] eqn:E; [|reflexivity].
    apply lookup_lt_Some in E. rewrite (IH (S idx)) by lia. reflexivity.
Qed.

(** The scoring stage returns one verdict per (prediction, score) pair, the
    [i]-th built from the [i]-th sample (its timestamp and metrics) and the
    [i]-th pair (anomalous exactly when the label is -1), as long as the
    model returns no more pairs than there are samples; when it returns
    more, the stage raises [IndexError]. *)
Theorem predict_on_one_verdict_per_pair (self : AnomalyPredictor)
    (metrics_data : list sample) :
  ((length (scored_pairs self metrics_data) <= length metrics_data)%nat ->
   exists results : list verdict,
     predict_on self metrics_data = Ok results /\
     length results = length (scored_pairs self metrics_data) /\
     forall (i : nat) (v : verdict),
       results !! i = Some v ->
       exists (metric : sample) (pred : Z) (sc : Q),
         metrics_data !! i = Some metric /\
         scored_pairs self metrics_data !! i = Some (pred, sc) /\
         v_metrics v = metric /\ v_timestamp v = timestamp metric /\
         score v = sc /\ is_anomaly v = (pred =? -1)%Z) /\
  ((length metrics_data < length (scored_pairs self metrics_data))%nat ->
   predict_on self metrics_data
   = Raise (PyError "IndexError" "list index out of range")).
Proof.
  split; intros Hlen.
  - destruct (results_loop_ok metrics_data (scored_pairs self metrics_data) 0)
      as (results & Hrun & Hlength & Hitems); [simpl; lia|].
    exists results. split; [exact Hrun|]. split; [exact Hlength|].
    intros i v Hv. destruct (Hitems i v Hv) as (m & p & s & Hm & Hp & ->).
    exists m, p, s. simpl in Hm. repeat split; assumption.
  - apply (results_loop_index_error metrics_data (scored_pairs self metrics_data) 0);
      simpl; lia.
Qed.

(** Every verdict is built by the loop from its own sample. *)
Lemma results_loop_recommendation (metrics_data : list sample) (zipped : list (Z * Q)) :
  forall (idx : nat) (results : list verdict),
    results_loop metrics_data idx zipped = Ok results ->
    Forall (fun v => recommendation v
                     = _get_recommendation (is_anomaly v) (values (v_metrics v)))
           results.
Proof.
  induction zipped as [|[pred sc] rest IH]; intros idx results H; simpl in H.
  - injection H as <-. constructor.
  - destruct (metrics_data !! idx) as [metric|]; [|discriminate].
    destruct (results_loop metrics_data (S idx) rest) as [tail|e] eqn:E;
      simpl in H; [|discriminate].
    injection H as <-. constructor; [reflexivity | exact (IH _ _ E)].
Qed.

Lemma recommendation_of_anomaly_differs (metrics : gmap string Q) :
  _get_recommendation true metrics
  <> "No action required - metrics within normal range".
Proof.
  unfold _get_recommendation. cbv zeta. simpl negb. cbv iota.
  destruct (Qgtb (get metrics "cpu_usage" 0) 80),
           (Qgtb (get metrics "memory_usage" 0) 85),
           (Qgtb (get metrics "response_time" 0) 1000),
           (Qgtb (get metrics "error_rate" 0) error_rate_threshold);
    intros H; vm_compute in H; discriminate H.
Qed.

(** A verdict of the scoring stage says "No action required" exactly when
    it is not flagged as an anomaly, and its recommendation is the one for
    its own metrics. *)
Theorem verdict_recommendation_matches_flag (v : verdict) :
  produced_by_scoring v ->
  (recommendation v = "No action required - metrics within normal range"
   <-> is_anomaly v = false) /\
  recommendation v = _get_recommendation (is_anomaly v) (values (v_metrics v)).
Proof.
  intros (self & metrics_data & results & Hrun & Hin).
  unfold predict_on in Hrun. apply results_loop_recommendation in Hrun.
  rewrite Forall_forall in Hrun. apply list_elem_of_In, Hrun in Hin.
  split; [|exact Hin]. rewrite Hin. destruct (is_anomaly v).
  - split; [intros H; now apply recommendation_of_anomaly_differs in H | discriminate].
  - split; reflexivity.
Qed.

(** The two verdicts of the scoring stage on [mixed_data]: the typical
    sample is not flagged, scenario A's is. *)
Lemma verdict_recommendation_matches_flag_witness :
  exists v1 v2 : verdict,
    predict_on demo_predictor mixed_data = Ok [v1; v2] /\
    is_anomaly v1 = false /\ is_anomaly v2 = true /\
    ((recommendation v1 = "No action required - metrics within normal range"
      <-> is_anomaly v1 = false) /\
     recommendation v1 = _get_recommendation (is_anomaly v1) (values (v_metrics v1))) /\
    ((recommendation v2 = "No action required - metrics within normal range"
      <-> is_anomaly v2 = false) /\
     recommendation v2 = _get_recommendation (is_anomaly v2) (values (v_metrics v2))).
Proof.
  destruct (predict_on demo_predictor mixed_data)
    as [[|v1 [|v2 [|v3 rest]]]|e] eqn:E; try (vm_compute in E; discriminate).
  exists v1, v2. split; [reflexivity|].
  assert (H : is_anomaly v1 = false /\ is_anomaly v2 = true).
  { vm_compute in E. injection E as <- <-. split; reflexivity. }
  destruct H as [H1 H2]. split; [exact H1|]. split; [exact H2|].
  split; apply verdict_recommendation_matches_flag;
    exists demo_predictor, mixed_data, [v1; v2];
    (split; [exact E | simpl; auto]).
Defined.

(** *** [_fetch_metrics] *)

Lemma fetch_point_timestamp (now : Z) (i : nat) (g : rng) :
  timestamp (fst (fetch_point now i g)) = (now - 60 * (60 - Z.of_nat i))%Z.
Proof. unfold fetch_point, normal. destruct (Nat.eqb i 45); reflexivity. Qed.

Lemma fetch_point_rng (now : Z) (i : nat) (g : rng) :
  snd (fetch_point now i g) = advance 7 g.
Proof. unfold fetch_point, normal. destruct (Nat.eqb i 45); reflexivity. Qed.

Lemma fetch_point_keys (now : Z) (i : nat) (g : rng) :
  dom (values (fst (fetch_point now i g))) = list_to_set feature_columns.
Proof.
  unfold fetch_point, normal. destruct (Nat.eqb i 45); cbv beta iota zeta;
    unfold fst, values, feature_columns; rewrite !dom_insert_L, dom_empty_L;
    simpl; set_solver.
Qed.

Lemma fetch_point_incident (now : Z) (g : rng) :
  let metrics := values (fst (fetch_point now 45 g)) in
  metrics !! "cpu_usage" = Some 95 /\
  metrics !! "memory_usage" = Some 92 /\
  metrics !! "response_time" = Some 3500.
Proof.
  unfold fetch_point, normal. cbv beta iota zeta. simpl Nat.eqb. cbv iota beta.
  unfold fst, values. simplify_map_eq. repeat split.
Qed.

Lemma fetch_loop_items (now : Z) (range : list nat) :
  forall g : rng,
    length (fst (fetch_loop now range g)) = length range /\
    (forall (k i : nat),
        range !! k = Some i ->
        exists g' : rng,
          fst (fetch_loop now range g) !! k = Some (fst (fetch_point now i g'))) /\
    (forall n : nat, snd (fetch_loop now range g) n = g (7 * length range + n)%nat).
Proof.
  induction range as [|i range IH]; intros g; simpl.
  - split; [reflexivity|]. split; [intros k i H; discriminate H | reflexivity].
  - pose proof (fetch_point_rng now i g) as Hg.
    destruct (fetch_point now i g) as [point g1] eqn:Ep. simpl in Hg. subst g1.
    destruct (IH (advance 7 g)) as (Hlen & Hitems & Hrng).
    destruct (fetch_loop now range (advance 7 g)) as [metrics g2]. simpl in *.
    split; [now rewrite Hlen|]. split.
    + intros [|k] j Hk; simpl in *.
      * injection Hk as <-. exists g. now rewrite Ep.
      * apply Hitems, Hk.
    + intros n. rewrite Hrng. unfold advance. f_equal. lia.
Qed.

Lemma fetch_metrics_window_length (service_name time_window : string) (now : Z)
    (g : rng) :
  length (fst (_fetch_metrics service_name time_window now g)) = 60%nat.
Proof. unfold _fetch_metrics. apply (fetch_loop_items now (seq 0 60) g). Qed.

(** [_fetch_metrics] returns 60 samples, one per minute from an hour before
    [now] up to a minute before it, each with exactly the seven metrics; the
    sample of minute 45 carries the injected incident (CPU 95, memory 92,
    response time 3500) whatever the generator draws; and the call takes
    420 draws from the generator, seven per sample, minute 45 included. *)
Theorem fetch_metrics_window (service_name time_window : string) (now : Z) (g : rng) :
  let fetched := _fetch_metrics service_name time_window now g in
  length (fst fetched) = 60%nat /\
  (forall (i : nat) (metric : sample),
     fst fetched !! i = Some metric ->
     timestamp metric = (now - 3600 + 60 * Z.of_nat i)%Z /\
     dom (values metric) = list_to_set feature_columns) /\
  (forall metric : sample,
     fst fetched !! 45%nat = Some metric ->
     values metric !! "cpu_usage" = Some 95 /\
     values metric !! "memory_usage" = Some 92 /\
     values metric !! "response_time" = Some 3500) /\
  (forall n : nat, snd fetched n = g (420 + n)%nat).
Proof.
  cbv zeta. unfold _fetch_metrics.
  destruct (fetch_loop_items now (seq 0 60) g) as (Hlen & Hitems & Hrng).
  split; [exact Hlen|]. split; [|split].
  - intros i metric Hi.
    assert (Hlt : (i < 60)%nat).
    { apply lookup_lt_Some in Hi. rewrite Hlen in Hi. exact Hi. }
    destruct (Hitems i i) as (g' & Hg'); [apply lookup_seq; lia|].
    rewrite Hg' in Hi. injection Hi as <-.
    rewrite fetch_point_timestamp, fetch_point_keys. split; [lia | reflexivity].
  - intros metric H45.
    destruct (Hitems 45%nat 45%nat) as (g' & Hg'); [reflexivity|].
    rewrite Hg' in H45. injection H45 as <-. apply fetch_point_incident.
  - intros n. rewrite Hrng. reflexivity.
Qed.

Lemma predict_on_row_wise (self : AnomalyPredictor) (metrics_data : list sample) :
  row_wise self ->
  exists results : list verdict,
    predict_on self metrics_data = Ok results /\
    length results = length metrics_data.
Proof.
  intros Hrows.
  assert (Hpairs : length (scored_pairs self metrics_data) = length metrics_data).
  { unfold scored_pairs. cbv zeta. rewrite length_zip.
    destruct (Hrows (transform (scaler self) (_prepare_features metrics_data)))
      as (_ & -> & ->).
    destruct (Hrows (_prepare_features metrics_data)) as (-> & _).
    unfold _prepare_features. rewrite length_map. lia. }
  destruct (results_loop_ok metrics_data (scored_pairs self metrics_data) 0)
    as (results & Hrun & Hlength & _); [simpl; lia|].
  exists results. split; [exact Hrun | now rewrite Hlength].
Qed.

(** With a scaler and a model that keep the number of rows, [predict] does
    not raise and returns 60 verdicts, one per fetched sample. *)
Theorem predict_returns_sixty_verdicts (self : AnomalyPredictor)
    (service_name time_window : string) (now : Z) (g : rng) :
  row_wise self ->
  exists results : list verdict,
    fst (predict self service_name time_window now g) = Ok results /\
    length results = 60%nat.
Proof.
  intros Hrows. unfold predict.
  pose proof (fetch_metrics_window_length service_name time_window now g) as Hlen.
  destruct (_fetch_metrics service_name time_window now g) as [metrics_data g'].
  simpl in *.
  destruct (predict_on_row_wise self metrics_data Hrows) as (results & Hrun & Hlength).
  exists results. split; [exact Hrun | now rewrite Hlength].
Qed.

Lemma demo_predictor_row_wise : row_wise demo_predictor.
Proof.
  intros X. simpl. rewrite !length_map. repeat split.
Qed.

(** The example predictor on the draws that are all 0. *)
Lemma predict_returns_sixty_verdicts_witness :
  row_wise demo_predictor /\
  exists results : list verdict,
    fst (predict demo_predictor "payment-service" "1h" 0 draws_zero) = Ok results /\
    length results = 60%nat.
Proof.
  split; [exact demo_predictor_row_wise|].
  exact (predict_returns_sixty_verdicts demo_predictor "payment-service" "1h" 0
           draws_zero demo_predictor_row_wise).
Defined.

End ScoringProps.

(** ** ai_engine_main.py: [predict_anomalies] *)

Module PredictionProps.

Import Anomaly Scoring Prediction Examples.

Lemma metric_items_rejected (metric : sample) :
  exists e : exn, validate_float_dict (metric_items metric) = Raise e.
Proof. eexists. reflexivity. Qed.

Lemma responses_rejected (service : string) (predictions : list verdict) :
  predictions <> [] ->
  exists e : exn, responses service predictions = Raise e.
Proof.
  destruct predictions as [|pred predictions]; [congruence|]. intros _.
  eexists. reflexivity.
Qed.

(** [predict_anomalies] never returns a prediction: each prediction's
    metrics dictionary carries its [datetime] under "timestamp", which the
    [Dict[str, float]] field of the response model rejects, so the endpoint
    either returns the empty list (when the predictor returned none) or
    fails with status 500 and a detail starting with "Prediction failed: ".
    With a scaler and model that keep the number of rows it always fails. *)
Theorem predict_anomalies_never_returns_predictions
    (anomaly_predictor : AnomalyPredictor) (service window : string)
    (now : Z) (g : rng) :
  let outcome := fst (predict_anomalies anomaly_predictor service window now g) in
  (outcome = Ok [] \/
   exists detail : string,
     outcome = Raise (HTTPException 500 ("Prediction failed: " +:+ detail))) /\
  (row_wise anomaly_predictor ->
   exists detail : string,
     outcome = Raise (HTTPException 500 ("Prediction failed: " +:+ detail))).
Proof.
  cbv zeta. unfold predict_anomalies, predict.
  pose proof (ScoringProps.fetch_metrics_window_length service window now g) as Hlen.
  destruct (_fetch_metrics service window now g) as [metrics_data g'].
  simpl in *. split.
  - destruct (predict_on anomaly_predictor metrics_data)
      as [[|pred predictions]|e]; simpl.
    + now left.
    + right. eexists. reflexivity.
    + right. eexists. reflexivity.
  - intros Hrows.
    destruct (ScoringProps.predict_on_row_wise anomaly_predictor metrics_data Hrows)
      as (results & -> & Hlength).
    destruct results as [|pred results]; [rewrite Hlen in Hlength; discriminate Hlength|].
    simpl. eexists. reflexivity.
Qed.

(** On the example predictor the endpoint fails on the first sample. *)
Example predict_anomalies_fails_on_timestamp :
  fst (predict_anomalies demo_predictor "payment-service" "1h" 0 draws_zero)
  = Raise (HTTPException 500
      "Prediction failed: 1 validation error for AnomalyPredictionResponse: predicted_metrics.timestamp: Input should be a valid number").
Proof. vm_compute. reflexivity. Qed.

End PredictionProps.

(** ** rca_agent.py, continued *)

Module RequestProps.

Import RCA Examples.

Lemma mentions_trans (a b c : string) :
  mentions a b -> mentions b c -> mentions a c.
Proof.
  intros (p & q & ->) (p' & q' & ->).
  exists (p +:+ p'), (q' +:+ q). now rewrite !append_assoc.
Qed.

Lemma mentions_join_in (sep x : string) (parts : list string) :
  In x parts -> mentions (join sep parts) x.
Proof.
  intros H. apply in_split in H as (before & after & ->). apply mentions_join.
Qed.

Section WithRuntime.
Context `{rt : PyRuntime}.

Lemma prompt_mentions_context (now : Z) (incident_id context : string) :
  mentions (_create_rca_prompt now incident_id context) context.
Proof.
  unfold _create_rca_prompt.
  do 10 apply mentions_prefixed. apply mentions_suffixed, mentions_refl.
Qed.

Lemma prompt_mentions_incident (now : Z) (incident_id context : string) :
  mentions (_create_rca_prompt now incident_id context) incident_id.
Proof.
  unfold _create_rca_prompt.
  do 4 apply mentions_prefixed. apply mentions_suffixed, mentions_refl.
Qed.

Lemma logs_in_context_parts (metrics : pydict) (logs : list string)
    (traces similar_incidents : option (list pydict)) (line : string) :
  In line (slice_last 50 logs) ->
  In line (context_parts metrics logs traces similar_incidents).
Proof.
  intros H. unfold context_parts. cbv zeta.
  destruct (truthy traces), (truthy similar_incidents);
    rewrite ?in_app_iff; tauto.
Qed.

(** What reaches the reasoning service: the user message of the request
    [analyze] sends contains the incident id, the dump of the metrics and
    each of the last 50 log lines; the request is the same as for the last
    50 log lines, the first 10 traces and the first 3 similar incidents
    alone, so earlier log lines and further traces and incidents do not
    reach the service; the system message is the fixed SRE prompt. *)
Theorem analysis_request_carries_recent_logs (self : RCAAgent) (now : Z)
    (incident_id : string) (metrics : pydict) (logs : list string)
    (traces similar_incidents : option (list pydict)) :
  let request :=
    analysis_request self now incident_id metrics logs traces similar_incidents in
  (forall line : string,
     In line (slice_last 50 logs) -> mentions (cr_user request) line) /\
  mentions (cr_user request) incident_id /\
  mentions (cr_user request) (json_dumps (JObj metrics)) /\
  cr_system request = _get_system_prompt /\
  request
  = analysis_request self now incident_id metrics (slice_last 50 logs)
      (slice_first 10 <$> traces) (slice_first 3 <$> similar_incidents).
Proof.
  cbv zeta. unfold analysis_request. cbv zeta. simpl.
  split; [|split; [|split; [|split]]].
  - intros line Hline.
    apply (mentions_trans _ _ _ (prompt_mentions_context _ _ _)).
    apply mentions_join_in, logs_in_context_parts, Hline.
  - apply prompt_mentions_incident.
  - apply (mentions_trans _ _ _ (prompt_mentions_context _ _ _)).
    apply mentions_join_in. unfold context_parts. cbv zeta.
    destruct (truthy traces), (truthy similar_incidents);
      rewrite ?in_app_iff; simpl; tauto.
  - reflexivity.
  - unfold _prepare_context. now rewrite RCAProps.context_parts_sliced.
Qed.

(** The size of the context document: seven fixed parts and the last 50 log
    lines, four more parts when there are traces, and a heading with up to
    three lines when there are similar incidents.  An absent list and an
    empty list of traces or of similar incidents give the same parts. *)
Theorem context_parts_count (metrics : pydict) (logs : list string)
    (traces similar_incidents : option (list pydict)) :
  length (context_parts metrics logs traces similar_incidents)
  = 7 + Nat.min 50 (length logs)
    + (if truthy traces then 4 else 0)
    + (if truthy similar_incidents
       then 1 + Nat.min 3 (length (some_list similar_incidents)) else 0) /\
  context_parts metrics logs None similar_incidents
  = context_parts metrics logs (Some []) similar_incidents /\
  context_parts metrics logs traces None
  = context_parts metrics logs traces (Some []).
Proof.
  split; [|split; reflexivity].
  unfold context_parts. cbv zeta.
  assert (Hlogs : length (slice_last 50 logs) = Nat.min 50 (length logs)).
  { unfold slice_last. rewrite length_drop. lia. }
  assert (Hsim : length (slice_first 3 (some_list similar_incidents))
                 = Nat.min 3 (length (some_list similar_incidents))).
  { unfold slice_first. apply length_take. }
  remember (slice_last 50 logs) as kept_logs eqn:E1. clear E1.
  remember (slice_first 3 (some_list similar_incidents)) as kept eqn:E2. clear E2.
  destruct (truthy traces), (truthy similar_incidents);
    repeat (rewrite ?length_app, ?length_map; simpl length); lia.
Qed.

End WithRuntime.

End RequestProps.

(** ** ai_engine_main.py: [chat_query] *)

Module ChatProps.

Import RCA Chat Examples MoreExamples.

Section WithRuntime.
Context `{rt : PyRuntime}.
Variable rca_agent : RCAAgent.
Variable utcnow : nat -> Z.

(** [chat_query] needs the reply's "answer" and nothing else: for a reply
    that is a JSON object with an "answer", it returns the query, the
    answer, the reply's "metrics" (an empty object when missing) and
    "charts" (an empty list when missing); an object without "answer", and
    any JSON value that is not an object, end in status 500 with a detail
    starting with "Query failed: " (for the missing answer the detail is
    "Query failed: 'answer'"). *)
Theorem chat_query_needs_answer (request : ChatQueryRequest) (content : string)
    (reply : json) :
  create rca_agent (chat_request_of rca_agent (query request) (context request))
  = Ok content ->
  json_loads content = Ok reply ->
  (forall (fields : pydict) (answer : json),
     reply = JObj fields -> assoc "answer" fields = Some answer ->
     chat_query rca_agent utcnow request
     = Ok [ ("query", JStr (query request));
            ("response", answer);
            ("data", dict_get fields "metrics" (JObj []));
            ("visualizations", dict_get fields "charts" (JArr []));
            ("timestamp", JStr (isoformat (utcnow 0))) ]) /\
  (forall fields : pydict,
     reply = JObj fields -> assoc "answer" fields = None ->
     chat_query rca_agent utcnow request
     = Raise (HTTPException 500 "Query failed: 'answer'")) /\
  ((forall fields : pydict, reply <> JObj fields) ->
   exists detail : string,
     chat_query rca_agent utcnow request
     = Raise (HTTPException 500 ("Query failed: " +:+ detail))).
Proof.
  intros Hc Hl.
  unfold chat_query, chat_query_body, process_chat_query.
  rewrite Hc. simpl. rewrite Hl. simpl.
  split; [|split].
  - intros fields answer -> Ha. simpl. unfold getitem. rewrite Ha. reflexivity.
  - intros fields -> Ha. simpl. unfold getitem. rewrite Ha. reflexivity.
  - intros Hno. destruct reply; try (eexists; reflexivity).
    exfalso. now apply (Hno fields).
Qed.

End WithRuntime.

(** The three kinds of reply on the example runtime. *)
Lemma chat_query_needs_answer_witness :
  chat_query (rt := chat_runtime) (agent_replying reply_with_answer) test_clock
    mention_request
  = Ok [ ("query", JStr "why did prod latency spike?");
         ("response", JStr "Latency rose after the 14:30 deploy.");
         ("data", JObj [ ("p99_ms", JInt 3500) ]);
         ("visualizations", JArr []);
         ("timestamp", JStr "1705847400") ] /\
  chat_query (rt := chat_runtime) (agent_replying reply_without_answer) test_clock
    mention_request
  = Raise (HTTPException 500 "Query failed: 'answer'") /\
  exists detail : string,
    chat_query (rt := chat_runtime) (agent_replying reply_array) test_clock
      mention_request
    = Raise (HTTPException 500 ("Query failed: " +:+ detail)).
Proof.
  split; [|split].
  - refine (proj1 (chat_query_needs_answer (rt := chat_runtime)
                     (agent_replying reply_with_answer) test_clock mention_request
                     (render reply_with_answer) reply_with_answer _ _)
              _ (JStr "Latency rose after the 14:30 deploy.") eq_refl _);
      [reflexivity | vm_compute; reflexivity | reflexivity].
  - refine (proj1 (proj2 (chat_query_needs_answer (rt := chat_runtime)
                     (agent_replying reply_without_answer) test_clock mention_request
                     (render reply_without_answer) reply_without_answer _ _))
              _ eq_refl _);
      [reflexivity | vm_compute; reflexivity | reflexivity].
  - refine (proj2 (proj2 (chat_query_needs_answer (rt := chat_runtime)
                     (agent_replying reply_array) test_clock mention_request
                     (render reply_array) reply_array _ _)) _);
      [reflexivity | vm_compute; reflexivity | intros fields H; discriminate H].
Defined.

End ChatProps.

(** ** ai_engine_main.py: [analyze_incident], continued *)

Module OutcomeProps.

Import Api Examples MoreExamples.

Section WithComponents.
Context `{rt : PyRuntime} `{pyd : Pydantic}.
Variable rca_agent : RCA.RCAAgent.
Variable vector_search : VectorDB.VectorSearch.
Variable generate_fix : json -> string -> json -> result pydict.
Variable utcnow : nat -> Z.

Local Abbreviation endpoint := (analyze_incident rca_agent vector_search generate_fix utcnow).
Local Abbreviation sent request := (reasoning_request rca_agent vector_search utcnow request).

(** Every outcome of [analyze_incident] is one of two: a response that
    echoes the request's incident id, lists the one fixed similar incident
    and a timeline of three events starting with the request's timestamp,
    with exactly one store task queued after the tasks already there; or an
    [HTTPException] of status 500 whose detail starts with
    "Analysis failed: ", with the tasks already there kept in order and at
    most one store task queued after them. *)
Theorem analyze_incident_outcomes (request : IncidentAnalysisRequest)
    (tasks : list task) :
  match endpoint request tasks with
  | (Ok response, queued) =>
      incident_id response = req_incident_id request /\
      similar_incidents response = [VectorDB.stub_match] /\
      timeline response
      = [ timeline_event (isoformat (req_timestamp request)) "Incident detected";
          timeline_event (isoformat (utcnow 1)) "RCA completed";
          timeline_event (isoformat (utcnow 2)) "Fix generated" ] /\
      exists cause : json, queued = tasks ++ [ store_task request cause ]
  | (Raise e, queued) =>
      (exists detail : string,
         e = HTTPException 500 ("Analysis failed: " +:+ detail)) /\
      (queued = tasks \/
       exists cause : json, queued = tasks ++ [ store_task request cause ])
  end.
Proof.
  unfold analyze_incident, analyze_incident_body.
  destruct (RCA.analyze _ _ _ _ _ _ _) as [rca|e1].
  2:{ split; [eexists; reflexivity | now left]. }
  destruct (generate_fix _ _ _) as [fix_code|e2].
  2:{ split; [eexists; reflexivity | now left]. }
  cbv zeta.
  repeat match goal with
         | |- context [rbind ?r _] =>
             let E := fresh "E" in
             destruct r eqn:E; simpl;
             [| split; [eexists; reflexivity | right; eexists; reflexivity] ]
         end.
  repeat split. eexists. reflexivity.
Qed.

(** Failures of the fix generator, after a successful analysis: when
    [generate_fix] raises, the endpoint fails with status 500 carrying the
    error's text and queues nothing; when it returns a dictionary without
    "fix_details" (or with it and without "code"), the endpoint fails with
    status 500 and the text of the [KeyError], and the store task for the
    incident has already been queued. *)
Theorem fix_generator_failures (request : IncidentAnalysisRequest)
    (tasks : list task) (content : string) (reply : pydict) :
  RCA.create rca_agent (sent request) = Ok content ->
  json_loads content = Ok (JObj reply) ->
  let cause := dict_get reply "root_cause" (JStr "Unknown") in
  let level := dict_get reply "severity" (JStr "medium") in
  (forall e : exn,
     generate_fix cause (req_service_name request) level = Raise e ->
     endpoint request tasks
     = (Raise (HTTPException 500 ("Analysis failed: " +:+ exn_str e)), tasks)) /\
  (forall fix_code : pydict,
     generate_fix cause (req_service_name request) level = Ok fix_code ->
     assoc "fix_details" fix_code = None ->
     endpoint request tasks
     = (Raise (HTTPException 500 "Analysis failed: 'fix_details'"),
        tasks ++ [ store_task request cause ])) /\
  (forall (fix_code : pydict) (details : json),
     generate_fix cause (req_service_name request) level = Ok fix_code ->
     assoc "fix_details" fix_code = Some details ->
     assoc "code" fix_code = None ->
     endpoint request tasks
     = (Raise (HTTPException 500 "Analysis failed: 'code'"),
        tasks ++ [ store_task request cause ])).
Proof.
  intros Hc Hl. cbv zeta.
  unfold analyze_incident, analyze_incident_body.
  rewrite (RCAProps.analyze_object _ _ _ _ _ _ _ _ _ Hc Hl). simpl.
  split; [|split].
  - intros e ->. reflexivity.
  - intros fix_code -> Hd. unfold getitem. rewrite Hd. reflexivity.
  - intros fix_code details -> Hd Hcode. unfold getitem. rewrite Hd, Hcode.
    reflexivity.
Qed.

End WithComponents.

(** A generator that raises, and one whose dictionary has only "code". *)
Lemma fix_generator_failures_witness :
  analyze_incident (rt := test_runtime) (pyd := test_pydantic)
    (agent_replying reply_full) test_store failing_generate_fix test_clock
    test_request []
  = (Raise (HTTPException 500 "Analysis failed: no template for this root cause"),
     []) /\
  analyze_incident (rt := test_runtime) (pyd := test_pydantic)
    (agent_replying reply_full) test_store partial_generate_fix test_clock
    test_request []
  = (Raise (HTTPException 500 "Analysis failed: 'fix_details'"),
     [ store_task test_request (JStr "Memory leak") ]).
Proof.
  split.
  - refine (proj1 (fix_generator_failures (rt := test_runtime) (pyd := test_pydantic)
                     (agent_replying reply_full) test_store failing_generate_fix
                     test_clock test_request [] (render reply_full)
                     [ ("root_cause", JStr "Memory leak"); ("severity", JStr "high");
                       ("confidence", JFloat (9 # 10)) ] _ _)
              (PyError "RuntimeError" "no template for this root cause") _);
      [reflexivity | vm_compute; reflexivity | reflexivity].
  - refine (proj1 (proj2 (fix_generator_failures (rt := test_runtime)
                     (pyd := test_pydantic)
                     (agent_replying reply_full) test_store partial_generate_fix
                     test_clock test_request [] (render reply_full)
                     [ ("root_cause", JStr "Memory leak"); ("severity", JStr "high");
                       ("confidence", JFloat (9 # 10)) ] _ _))
              [ ("code", JStr "kubectl rollout restart deployment") ] _ _);
      [reflexivity | vm_compute; reflexivity | reflexivity | reflexivity].
Defined.

End OutcomeProps.

(** ** Paths and files *)

Module StorageProps.

Import Text Storage.

Lemma length_append (a b : string) :
  String.length (a +:+ b) = String.length a + String.length b.
Proof.
  induction a as [|c a IH]; [reflexivity|].
  change (S (String.length (a +:+ b)) = S (String.length a + String.length b)).
  now rewrite IH.
Qed.

Lemma append_longer (p suffix : string) :
  suffix <> "" -> p <> p +:+ suffix.
Proof.
  intros Hs H. apply (f_equal String.length) in H. rewrite length_append in H.
  destruct suffix; [congruence | simpl in H; lia].
Qed.

Lemma eqb_empty (s : string) : String.eqb s "" = true <-> s = "".
Proof. apply String.eqb_eq. Qed.

Lemma head_part_empty (p : string) :
  head_part p = "" <-> contains p "/" = false.
Proof.
  induction p as [|c rest IH]; [split; reflexivity|].
  cbn [head_part contains prefixb]. unfold is_slash.
  rewrite (Ascii.eqb_sym c "/").
  destruct (Ascii.eqb "/" c); cbn [orb andb].
  - split; discriminate.
  - destruct (head_part rest) as [|h hs]; cbn [String.eqb negb].
    + rewrite <- IH. split; reflexivity.
    + rewrite <- IH. split; discriminate.
Qed.

Lemma rstrip_slashes_nonempty (s : string) :
  all_slashes s = false -> rstrip_slashes s <> "".
Proof.
  induction s as [|c rest IH]; cbn [all_slashes rstrip_slashes]; [discriminate|].
  destruct (is_slash c); cbn [andb]; [|discriminate].
  intros H. specialize (IH H).
  destruct (rstrip_slashes rest); [congruence | cbn [String.eqb]; discriminate].
Qed.

(** [dirname] is empty exactly for a path without a slash. *)
Lemma dirname_empty (p : string) :
  dirname p = "" <-> contains p "/" = false.
Proof.
  rewrite <- head_part_empty. unfold dirname. cbv zeta.
  destruct (String.eqb_spec (head_part p) "") as [E|E].
  - rewrite E. split; reflexivity.
  - cbn [negb andb]. destruct (all_slashes (head_part p)) eqn:A; cbn [negb].
    + split; [intros H; congruence | intros H; congruence].
    + split; [|congruence]. intros H. now apply rstrip_slashes_nonempty in A.
Qed.

Example dirname_examples :
  dirname "models/faiss.index" = "models" /\
  dirname "models/anomaly_detector.pkl" = "models" /\
  dirname "faiss.index" = "" /\
  dirname "/faiss.index" = "/" /\
  dirname "a//b" = "a" /\
  dirname "a/b/" = "a/b".
Proof. repeat split. Qed.

Example replace_examples :
  replace ".pkl" "_scaler.pkl" "models/anomaly_detector.pkl"
  = "models/anomaly_detector_scaler.pkl" /\
  replace ".pkl" "_scaler.pkl" "a.pkl/b.pkl" = "a_scaler.pkl/b_scaler.pkl" /\
  replace ".pkl" "_scaler.pkl" "models/detector.joblib" = "models/detector.joblib" /\
  replace "aa" "b" "aaa" = "ba".
Proof. repeat split. Qed.

End StorageProps.

(** ** faiss_index.py: persistence *)

Module IndexFilesProps.

Import Text VectorDB Storage IndexFiles FileExamples.

Lemma meta_path_differs (p : string) : p <> meta_path p.
Proof. apply StorageProps.append_longer. discriminate. Qed.

Section OnDisk.
Context `{disk : Disk}.

(** A path that names no file, such as "models/", is never saved to: the
    directory may be made, and the write of the index raises; nothing is
    written. *)
Lemma save_index_needs_name (self : VectorSearch) (fs : gmap string stored) :
  ends_with_slash (index_path self) = true ->
  exists e : exn, save_index self fs = (Raise e, fs).
Proof.
  intros Hslash. unfold save_index.
  destruct (makedirs fs (dirname (index_path self))) as [[]|e];
    [|eexists; reflexivity].
  unfold write.
  destruct (write_error fs (index_path self)) as [e|] eqn:E;
    [eexists; reflexivity|].
  exfalso. apply (write_needs_name fs (index_path self)); [now right | exact E].
Qed.

(** Saving and constructing again is a round trip: when the index path has
    a directory part, the system makes that directory and lets the index
    file and then its ".meta" file be written, [save_index] succeeds, a
    [VectorSearch] constructed on the same path afterwards has the saved
    vectors and metadata (and the dimension it is constructed with,
    whatever the vectors are), and no file other than the index file and its
    ".meta" file is changed. *)
Theorem save_index_then_construct (self : VectorSearch)
    (fs : gmap string stored) (dimension : nat) :
  dirname (index_path self) <> "" ->
  mkdir_error fs (dirname (index_path self)) = None ->
  write_error fs (index_path self) = None ->
  write_error (<[ index_path self := FaissIndex (index self) ]> fs)
    (index_path self +:+ ".meta") = None ->
  exists fs' : gmap string stored,
    save_index self fs = (Ok tt, fs') /\
    __init__ dimension (index_path self) fs'
    = Ok {| VectorDB.dimension := dimension;
            index_path := index_path self;
            index := index self;
            metadata := metadata self |} /\
    (forall p : string,
       p <> index_path self -> p <> index_path self +:+ ".meta" ->
       fs' !! p = fs !! p).
Proof.
  intros Hdir Hmk Hw1 Hw2. unfold save_index, makedirs, write, meta_path.
  destruct (String.eqb (dirname (index_path self)) "") eqn:E.
  { apply String.eqb_eq in E. congruence. }
  rewrite Hmk, Hw1, Hw2. eexists. split; [reflexivity|]. split.
  - unfold __init__, exists_, load_index, read_index, pickle_load, meta_path.
    cbv zeta. simpl.
    rewrite lookup_insert_ne by (intros H; symmetry in H; now apply meta_path_differs in H).
    rewrite lookup_insert_eq. simpl. rewrite lookup_insert_eq. reflexivity.
  - intros p Hp Hmeta.
    rewrite !lookup_insert_ne; [reflexivity | congruence..].
Qed.

(** For an index path without a slash, such as "faiss.index", [save_index]
    raises [FileNotFoundError] (the directory to make has the empty name)
    and writes nothing. *)
Theorem save_index_needs_directory (self : VectorSearch) (fs : gmap string stored) :
  contains (index_path self) "/" = false ->
  save_index self fs = (Raise (file_not_found ""), fs).
Proof.
  intros H. apply StorageProps.dirname_empty in H.
  unfold save_index, makedirs. rewrite H. reflexivity.
Qed.

End OnDisk.

Lemma save_index_then_construct_witness :
  dirname (index_path filled_store) <> "" /\
  exists fs' : gmap string stored,
    save_index (disk := roomy_disk) filled_store ∅ = (Ok tt, fs') /\
    __init__ 768 "models/faiss.index" fs'
    = Ok {| VectorDB.dimension := 768;
            index_path := "models/faiss.index";
            index := index filled_store;
            metadata := metadata filled_store |} /\
    (forall p : string,
       p <> "models/faiss.index" -> p <> "models/faiss.index" +:+ ".meta" ->
       fs' !! p = (∅ : gmap string stored) !! p).
Proof.
  assert (H : dirname (index_path filled_store) <> "") by discriminate.
  split; [exact H|].
  exact (save_index_then_construct (disk := roomy_disk) filled_store ∅ 768 H
           eq_refl eq_refl eq_refl).
Defined.

Lemma save_index_needs_directory_witness :
  contains (index_path bare_store) "/" = false /\
  save_index (disk := roomy_disk) bare_store ∅
  = (Raise (PyError "FileNotFoundError" "[Errno 2] No such file or directory: ''"), ∅).
Proof.
  split; [reflexivity|].
  exact (save_index_needs_directory (disk := roomy_disk) bare_store ∅ eq_refl).
Defined.



End IndexFilesProps.

(** ** anomaly_detection.py: construction, training and saved files *)

Module LifecycleProps.

Import Text Anomaly Storage Lifecycle FileExamples.

(** *** [str.replace] *)

Lemma replace_absent (old new s : string) :
  contains s old = false -> replace old new s = s.
Proof.
  unfold replace. induction s as [|c rest IH]; [reflexivity|].
  cbn [contains replace_from]. intros H. apply orb_false_iff in H as [Hp Hc].
  rewrite Hp, (IH Hc). reflexivity.
Qed.

Lemma replace_from_length (old new : string) :
  1 <= String.length old ->
  String.length old <= String.length new ->
  forall (s : string) (skip : nat),
    String.length s
    <= String.length (replace_from old new skip s) + Nat.min skip (String.length s).
Proof.
  intros Hold Hlen. induction s as [|c rest IH]; intros skip; [simpl; lia|].
  cbn [replace_from]. destruct skip as [|skip].
  - destruct (prefixb old (String c rest)).
    + rewrite StorageProps.length_append.
      specialize (IH (String.length old - 1)). simpl String.length. lia.
    + specialize (IH 0). simpl String.length in *. lia.
  - specialize (IH skip). simpl String.length. lia.
Qed.

Lemma replace_grows (old new s : string) :
  old <> "" ->
  String.length old <= String.length new ->
  contains s old = true ->
  String.length s + (String.length new - String.length old)
  <= String.length (replace old new s).
Proof.
  intros Hold Hlen. unfold replace. induction s as [|c rest IH].
  - destruct old; [congruence | discriminate].
  - cbn [contains replace_from]. destruct (prefixb old (String c rest)) eqn:Hp.
    + intros _. rewrite StorageProps.length_append.
      assert (H1 : 1 <= String.length old) by (destruct old; [congruence | simpl; lia]).
      pose proof (replace_from_length old new H1 Hlen rest (String.length old - 1)).
      simpl String.length. lia.
    + simpl orb. intros Hc. specialize (IH Hc). simpl String.length. lia.
Qed.

Lemma scaler_path_same_helper (model_path : string) :
  scaler_path model_path = model_path <-> contains model_path ".pkl" = false.
Proof.
  unfold scaler_path. split.
  - intros H. destruct (contains model_path ".pkl") eqn:E; [|reflexivity].
    pose proof (replace_grows ".pkl" "_scaler.pkl" model_path) as Hg.
    rewrite H in Hg. simpl String.length in Hg.
    specialize (Hg ltac:(discriminate) ltac:(lia) E). lia.
  - apply replace_absent.
Qed.

(** The scaler's file is the model's file exactly when the model path does
    not contain ".pkl"; for the default path it is
    "models/anomaly_detector_scaler.pkl". *)
Theorem scaler_path_same_iff (model_path : string) :
  (scaler_path model_path = model_path <-> contains model_path ".pkl" = false) /\
  (mentions model_path ".pkl" -> scaler_path model_path <> model_path) /\
  scaler_path "models/anomaly_detector.pkl" = "models/anomaly_detector_scaler.pkl".
Proof.
  split; [apply scaler_path_same_helper|]. split; [|reflexivity].
  intros Hm Hs. apply TextProps.contains_spec in Hm.
  apply scaler_path_same_helper in Hs. congruence.
Qed.

(** *** Construction *)

Lemma fitted_predict_agrees (model_path : string) (fitted_scaler : Scaler)
    (params : forest_params) (fitted_model : Model)
    (service_name time_window : string) (now : Z) (g : rng) :
  Lifecycle.predict
    {| path := model_path;
       scaler_object := StandardScaler (Some fitted_scaler);
       model_object := IsolationForest params (Some fitted_model) |}
    service_name time_window now g
  = Anomaly.predict
      {| Anomaly.model_path := model_path; scaler := fitted_scaler;
         model := fitted_model |}
      service_name time_window now g.
Proof.
  unfold Lifecycle.predict, Anomaly.predict, predict_on.
  destruct (_fetch_metrics service_name time_window now g) as [metrics_data g'].
  reflexivity.
Qed.


(** *** Training *)

Section WithFitting.
Context `{disk : Disk}.
Variable fit_scaler : list (list Q) -> Scaler.
Variable fit_forest : forest_params -> list (list Q) -> Model.

Local Abbreviation train := (Lifecycle.train fit_scaler fit_forest).
Local Abbreviation trained := (Lifecycle.trained fit_scaler fit_forest).

(** The fitting steps of [train], for a matrix with at least one row that
    the fitted scaler keeps the rows of. *)
Lemma train_fits (self : predictor) (historical_data : DataFrame)
    (fs : gmap string stored) (X : list (list Q)) (o : option Scaler) :
  select historical_data feature_columns = Ok X ->
  X <> [] ->
  length (transform (fit_scaler X) X) = length X ->
  scaler_object self = StandardScaler o ->
  train self historical_data fs
  = match makedirs fs (dirname (path self)) with
    | Raise e => (Raise e, trained self X, fs)
    | Ok _ =>
        match write fs (path self) (Joblib (model_object (trained self X))) with
        | Raise e => (Raise e, trained self X, fs)
        | Ok fs1 =>
            match write fs1 (scaler_path (path self))
                    (Joblib (scaler_object (trained self X))) with
            | Raise e => (Raise e, trained self X, fs1)
            | Ok fs2 =>
                (Ok ("Model trained and saved to " +:+ path self), trained self X, fs2)
            end
        end
    end.
Proof.
  intros Hx Hrows Hkeep Hs. unfold Lifecycle.train. rewrite Hx, Hs.
  destruct X as [|row X']; [congruence|]. cbn [call_fit_transform].
  destruct (transform (fit_scaler (row :: X')) (row :: X')) as [|row' scaled] eqn:Et;
    [discriminate Hkeep|].
  cbn [call_fit model_object scaler_object path].
  unfold Lifecycle.trained. rewrite Et. cbn [model_object scaler_object path].
  destruct (model_object self); reflexivity.
Qed.

Lemma train_saves (self : predictor) (historical_data : DataFrame)
    (fs : gmap string stored) (X : list (list Q)) (o : option Scaler) :
  select historical_data feature_columns = Ok X ->
  X <> [] ->
  length (transform (fit_scaler X) X) = length X ->
  scaler_object self = StandardScaler o ->
  dirname (path self) <> "" ->
  mkdir_error fs (dirname (path self)) = None ->
  write_error fs (path self) = None ->
  write_error (<[ path self := Joblib (model_object (trained self X)) ]> fs)
    (scaler_path (path self)) = None ->
  train self historical_data fs
  = (Ok ("Model trained and saved to " +:+ path self),
     trained self X,
     <[ scaler_path (path self) := Joblib (scaler_object (trained self X)) ]>
       (<[ path self := Joblib (model_object (trained self X)) ]> fs)).
Proof.
  intros Hx Hrows Hkeep Hs Hdir Hmk Hw1 Hw2.
  rewrite (train_fits self historical_data fs X o Hx Hrows Hkeep Hs).
  unfold makedirs, write.
  destruct (String.eqb (dirname (path self)) "") eqn:E.
  { apply String.eqb_eq in E. congruence. }
  now rewrite Hmk, Hw1, Hw2.
Qed.

(** Training and constructing again is a round trip.  When the data have
    the seven columns and at least one row (which the fitted scaler keeps),
    the predictor holds a scaler, the model path contains ".pkl" and has a
    directory part, and the system makes that directory and lets the model
    file and then the scaler file be written: [train] fits the scaler and
    the model, saves both and prints its line; a predictor constructed on
    the same path afterwards holds the trained scaler and model; no other
    file is changed; and when the model is an [IsolationForest], [predict]
    on the reconstructed predictor is [predict] with the fitted scaler and
    model. *)
Theorem train_then_construct (self : predictor) (historical_data : DataFrame)
    (fs : gmap string stored) (X : list (list Q)) (o : option Scaler) :
  select historical_data feature_columns = Ok X ->
  X <> [] ->
  length (transform (fit_scaler X) X) = length X ->
  scaler_object self = StandardScaler o ->
  dirname (path self) <> "" ->
  mkdir_error fs (dirname (path self)) = None ->
  contains (path self) ".pkl" = true ->
  write_error fs (path self) = None ->
  write_error (<[ path self := Joblib (model_object (trained self X)) ]> fs)
    (scaler_path (path self)) = None ->
  exists fs' : gmap string stored,
    train self historical_data fs
    = (Ok ("Model trained and saved to " +:+ path self), trained self X, fs') /\
    Lifecycle.__init__ (path self) fs' = Ok (trained self X) /\
    (forall p : string,
       p <> path self -> p <> scaler_path (path self) -> fs' !! p = fs !! p) /\
    (forall (params : forest_params) (f : option Model),
       model_object self = IsolationForest params f ->
       forall (service_name time_window : string) (now : Z) (g : rng),
         Lifecycle.predict (trained self X) service_name time_window now g
         = Anomaly.predict
             {| Anomaly.model_path := path self;
                scaler := fit_scaler X;
                model := fit_forest params (transform (fit_scaler X) X) |}
             service_name time_window now g).
Proof.
  intros Hx Hrows Hkeep Hs Hdir Hmk Hpkl Hw1 Hw2.
  assert (Hne : scaler_path (path self) <> path self).
  { intros H. apply scaler_path_same_helper in H. congruence. }
  eexists. split;
    [exact (train_saves self historical_data fs X o Hx Hrows Hkeep Hs Hdir Hmk Hw1 Hw2)|].
  split; [|split].
  - unfold Lifecycle.__init__, exists_, joblib_load.
    rewrite lookup_insert_ne by exact Hne. rewrite lookup_insert_eq. simpl.
    rewrite lookup_insert_eq. reflexivity.
  - intros p Hp Hsp. rewrite !lookup_insert_ne; [reflexivity | congruence..].
  - intros params f Hm service_name time_window now g.
    unfold Lifecycle.trained. rewrite Hm. apply fitted_predict_agrees.
Qed.

(** When the model path does not contain ".pkl", the scaler is saved over
    the model.  When the data have the seven columns and at least one row
    (which the fitted scaler keeps), the predictor holds a scaler, the
    model path has a directory part and no ".pkl", and the system makes the
    directory and lets the file be written both times: [train] prints its
    line, the model file then holds the fitted scaler, a predictor
    constructed on the path holds that scaler as its model too, and its
    [predict] raises [AttributeError], the scaler having no [predict]. *)
Theorem train_overwrites_model (self : predictor) (historical_data : DataFrame)
    (fs : gmap string stored) (X : list (list Q)) (o : option Scaler) :
  select historical_data feature_columns = Ok X ->
  X <> [] ->
  length (transform (fit_scaler X) X) = length X ->
  scaler_object self = StandardScaler o ->
  dirname (path self) <> "" ->
  mkdir_error fs (dirname (path self)) = None ->
  contains (path self) ".pkl" = false ->
  write_error fs (path self) = None ->
  write_error (<[ path self := Joblib (model_object (trained self X)) ]> fs)
    (path self) = None ->
  let saved := StandardScaler (Some (fit_scaler X)) in
  let reloaded :=
    {| path := path self; scaler_object := saved; model_object := saved |} in
  exists fs' : gmap string stored,
    snd (train self historical_data fs) = fs' /\
    fst (fst (train self historical_data fs))
    = Ok ("Model trained and saved to " +:+ path self) /\
    fs' !! path self = Some (Joblib saved) /\
    Lifecycle.__init__ (path self) fs' = Ok reloaded /\
    forall (service_name time_window : string) (now : Z) (g : rng),
      fst (Lifecycle.predict reloaded service_name time_window now g)
      = Raise (no_attribute saved "predict").
Proof.
  intros Hx Hrows Hkeep Hs Hdir Hmk Hpkl Hw1 Hw2. cbv zeta.
  assert (Hsame : scaler_path (path self) = path self)
    by (apply scaler_path_same_helper; exact Hpkl).
  rewrite <- Hsame in Hw2 at 2.
  rewrite (train_saves self historical_data fs X o Hx Hrows Hkeep Hs Hdir Hmk Hw1 Hw2).
  cbn [fst snd]. eexists. split; [reflexivity|]. split; [reflexivity|].
  rewrite Hsame.
  split; [|split].
  - apply lookup_insert_eq.
  - unfold Lifecycle.__init__, exists_, joblib_load.
    rewrite Hsame, lookup_insert_eq. reflexivity.
  - intros service_name time_window now g. unfold Lifecycle.predict.
    destruct (_fetch_metrics service_name time_window now g). reflexivity.
Qed.

(** The ways in which [train] fails.  When a feature column is missing from
    the data it raises [KeyError] before anything is fitted, and object and
    files are as they were.  When the data have the seven columns and no
    row, the scaler refuses them with [ValueError]: no directory is made,
    no file is written, and the scaler is left unfitted, also when it was
    fitted before.  When the data have at least one row and the model path
    has no slash, it raises [FileNotFoundError] after fitting, so that the
    object holds the fitted scaler and model and nothing is saved.  And when
    the model file is written and the scaler file is refused, as it is when
    ".pkl" in a directory name sends the scaler to a directory that does not
    exist, it raises after fitting with the model file written and the
    scaler file not. *)
Theorem train_failures (self : predictor) (historical_data : DataFrame)
    (fs : gmap string stored) :
  ((exists name : string,
       In name feature_columns /\ position name (columns historical_data) = None) ->
   fails_with_class (fst (fst (train self historical_data fs))) "KeyError" /\
   snd (fst (train self historical_data fs)) = self /\
   snd (train self historical_data fs) = fs) /\
  (forall o : option Scaler,
     select historical_data feature_columns = Ok [] ->
     scaler_object self = StandardScaler o ->
     train self historical_data fs
     = (Raise (no_samples (StandardScaler o)),
        {| path := path self; scaler_object := StandardScaler None;
           model_object := model_object self |},
        fs)) /\
  (forall (X : list (list Q)) (o : option Scaler),
     select historical_data feature_columns = Ok X ->
     X <> [] ->
     length (transform (fit_scaler X) X) = length X ->
     scaler_object self = StandardScaler o ->
     (contains (path self) "/" = false ->
      train self historical_data fs
      = (Raise (file_not_found ""), trained self X, fs)) /\
     (forall e : exn,
        dirname (path self) <> "" ->
        mkdir_error fs (dirname (path self)) = None ->
        write_error fs (path self) = None ->
        write_error (<[ path self := Joblib (model_object (trained self X)) ]> fs)
          (scaler_path (path self)) = Some e ->
        train self historical_data fs
        = (Raise e, trained self X,
           <[ path self := Joblib (model_object (trained self X)) ]> fs))).
Proof.
  split; [|split].
  - intros (name & Hin & Hpos).
    assert (Hsel : positions feature_columns (columns historical_data) = None).
    { revert Hin. generalize feature_columns as wanted.
      induction wanted as [|w wanted IH]; [intros []|].
      intros [-> | Hin]; simpl.
      - now rewrite Hpos.
      - rewrite (IH Hin). now destruct (position w (columns historical_data)). }
    unfold Lifecycle.train, select. rewrite Hsel. simpl.
    split; [eexists; split; reflexivity|]. split; reflexivity.
  - intros o Hx Hs. unfold Lifecycle.train. rewrite Hx, Hs. reflexivity.
  - intros X o Hx Hrows Hkeep Hs.
    rewrite (train_fits self historical_data fs X o Hx Hrows Hkeep Hs). split.
    + intros Hslash. apply StorageProps.dirname_empty in Hslash.
      unfold makedirs. rewrite Hslash. reflexivity.
    + intros e Hdir Hmk Hw1 Hw2. unfold makedirs, write.
      destruct (String.eqb (dirname (path self)) "") eqn:E.
      { apply String.eqb_eq in E. congruence. }
      now rewrite Hmk, Hw1, Hw2.
Qed.

End WithFitting.

(** Training a fresh predictor under the default path. *)
Lemma train_then_construct_witness :
  exists fs' : gmap string stored,
    Lifecycle.train (disk := roomy_disk) test_fit_scaler test_fit_forest
      (fresh "models/anomaly_detector.pkl") history ∅
    = (Ok "Model trained and saved to models/anomaly_detector.pkl",
       Lifecycle.trained test_fit_scaler test_fit_forest
         (fresh "models/anomaly_detector.pkl") history_matrix,
       fs') /\
    Lifecycle.__init__ "models/anomaly_detector.pkl" fs'
    = Ok (Lifecycle.trained test_fit_scaler test_fit_forest
            (fresh "models/anomaly_detector.pkl") history_matrix) /\
    fs' !! "models/anomaly_detector_scaler.pkl"
    = Some (Joblib (StandardScaler (Some (test_fit_scaler history_matrix)))).
Proof.
  destruct (train_then_construct (disk := roomy_disk) test_fit_scaler test_fit_forest
              (fresh "models/anomaly_detector.pkl") history ∅ history_matrix None)
    as (fs' & Htrain & Hinit & _ & _);
    [reflexivity | discriminate | reflexivity | reflexivity | discriminate
    | reflexivity | reflexivity | reflexivity | reflexivity |].
  exists fs'. split; [exact Htrain|]. split; [exact Hinit|].
  apply (f_equal snd) in Htrain. simpl in Htrain. subst fs'.
  vm_compute. reflexivity.
Defined.

(** Training a fresh predictor under a path without ".pkl". *)
Lemma train_overwrites_model_witness :
  let saved := StandardScaler (Some (test_fit_scaler history_matrix)) in
  exists fs' : gmap string stored,
    snd (Lifecycle.train (disk := roomy_disk) test_fit_scaler test_fit_forest
           (fresh "models/detector.joblib") history ∅) = fs' /\
    fs' !! "models/detector.joblib" = Some (Joblib saved) /\
    Lifecycle.__init__ "models/detector.joblib" fs'
    = Ok {| path := "models/detector.joblib";
            scaler_object := saved; model_object := saved |} /\
    fst (Lifecycle.predict
           {| path := "models/detector.joblib";
              scaler_object := saved; model_object := saved |}
           "payment-service" "1h" 0 Examples.draws_zero)
    = Raise (PyError "AttributeError"
               "'StandardScaler' object has no attribute 'predict'").
Proof.
  cbv zeta.
  destruct (train_overwrites_model (disk := roomy_disk) test_fit_scaler test_fit_forest
              (fresh "models/detector.joblib") history ∅ history_matrix None)
    as (fs' & Hfs & _ & Hfile & Hinit & Hpredict);
    [reflexivity | discriminate | reflexivity | reflexivity | discriminate
    | reflexivity | reflexivity | reflexivity | reflexivity |].
  exists fs'. split; [exact Hfs|]. split; [exact Hfile|]. split; [exact Hinit|].
  exact (Hpredict "payment-service" "1h" 0%Z Examples.draws_zero).
Defined.

(** The failures on the example data: a missing column; no row; a path
    without a directory; and the path "a.pkl/b.pkl" on a disk where
    "a.pkl" is the only directory, which sends the scaler to
    "a_scaler.pkl/b_scaler.pkl". *)
Example train_failures_examples :
  fails_with_class
    (fst (fst (Lifecycle.train (disk := roomy_disk) test_fit_scaler test_fit_forest
                 (fresh "models/anomaly_detector.pkl")
                 history_without_error_rate ∅)))
    "KeyError" /\
  Lifecycle.train (disk := roomy_disk) test_fit_scaler test_fit_forest
    (fresh "models/anomaly_detector.pkl") empty_history ∅
  = (Raise (PyError "ValueError"
       "Found array with 0 sample(s) (shape=(0, 7)) while a minimum of 1 is required by StandardScaler."),
     fresh "models/anomaly_detector.pkl", ∅) /\
  Lifecycle.train (disk := roomy_disk) test_fit_scaler test_fit_forest
    (fresh "anomaly_detector.pkl") history ∅
  = (Raise (PyError "FileNotFoundError" "[Errno 2] No such file or directory: ''"),
     Lifecycle.trained test_fit_scaler test_fit_forest (fresh "anomaly_detector.pkl")
       history_matrix,
     ∅) /\
  Lifecycle.train (disk := disk_with "a.pkl") test_fit_scaler test_fit_forest
    (fresh "a.pkl/b.pkl") history ∅
  = (Raise (PyError "FileNotFoundError"
       "[Errno 2] No such file or directory: 'a_scaler.pkl/b_scaler.pkl'"),
     Lifecycle.trained test_fit_scaler test_fit_forest (fresh "a.pkl/b.pkl")
       history_matrix,
     {[ "a.pkl/b.pkl" :=
          Joblib (IsolationForest default_forest
                    (Some (test_fit_forest default_forest
                             (transform (test_fit_scaler history_matrix)
                                        history_matrix)))) ]}).
Proof.
  split; [eexists; split; reflexivity|].
  split; [reflexivity|]. split; [reflexivity|].
  vm_compute. reflexivity.
Qed.

End LifecycleProps.

(** ** The Slack bot *)

Module SlackProps.

Import Text Chat Slack.

Lemma sep_eqb_sym (c : ascii) : Ascii.eqb ">" c = Ascii.eqb c ">".
Proof. apply Ascii.eqb_sym. Qed.

Lemma contains_cons (c : ascii) (s : string) :
  contains (String c s) ">" = Ascii.eqb c ">" || contains s ">".
Proof.
  cbn [contains prefixb]. rewrite sep_eqb_sym.
  destruct s; cbn [prefixb]; now rewrite andb_true_r.
Qed.

Lemma split_char_plain (s : string) :
  contains s ">" = false -> split_char ">" s = [s].
Proof.
  induction s as [|c s IH]; intros Hc; [reflexivity|].
  rewrite contains_cons in Hc. apply orb_false_elim in Hc as [Hc Hs].
  cbn [split_char]. rewrite Hc, (IH Hs). reflexivity.
Qed.

Lemma split_char_cons (a rest : string) :
  contains a ">" = false ->
  split_char ">" (a +:+ String ">" rest) = a :: split_char ">" rest.
Proof.
  induction a as [|c a IH]; intros Hc.
  - reflexivity.
  - rewrite contains_cons in Hc. apply orb_false_elim in Hc as [Hc Ha].
    change (String c a +:+ String ">" rest) with (String c (a +:+ String ">" rest)).
    cbn [split_char]. rewrite Hc, (IH Ha). reflexivity.
Qed.

Lemma contains_sep (a rest : string) :
  contains (a +:+ String ">" rest) ">" = true.
Proof.
  induction a as [|c a IH].
  - change (EmptyString +:+ String ">" rest) with (String ">" rest).
    rewrite contains_cons. reflexivity.
  - change (String c a +:+ String ">" rest) with (String c (a +:+ String ">" rest)).
    rewrite contains_cons, IH. apply orb_true_r.
Qed.

Lemma each_length {A B} (f : A -> result B) (items : list A) (out : list B) :
  each f items = Ok out -> length out = length items.
Proof.
  revert out. induction items as [|item items IH]; intros out E; cbn [each] in E.
  - injection E as <-. reflexivity.
  - destruct (f item) as [b|e]; cbn [rbind] in E; [|discriminate].
    destruct (each f items) as [rest|e]; cbn [rbind] in E; [|discriminate].
    injection E as <-. cbn [length]. f_equal. now apply IH.
Qed.

Section Handlers.
Context `{rt : PyRuntime} `{fmt : Formatting}.
Variable AI_ENGINE_URL : string.
Variable http : string -> string -> pydict -> result http_response.

(** [handle_mention] takes as the question the text as it is when it has
    no ">"; otherwise what stands between the first ">" and the next one (or
    the end), stripped.  Whatever follows a second ">" is dropped. *)
Theorem mention_query_cases :
  (forall text, contains text ">" = false -> mention_query text = text) /\
  (forall a b,
     contains a ">" = false -> contains b ">" = false ->
     mention_query (a +:+ String ">" b) = strip b) /\
  (forall a b c,
     contains a ">" = false -> contains b ">" = false ->
     mention_query (a +:+ String ">" (b +:+ String ">" c)) = strip b).
Proof.
  split; [|split].
  - intros text Hc. unfold mention_query. now rewrite Hc.
  - intros a b Ha Hb. unfold mention_query.
    rewrite contains_sep, (split_char_cons _ _ Ha), (split_char_plain _ Hb).
    reflexivity.
  - intros a b c Ha Hb. unfold mention_query.
    rewrite contains_sep, (split_char_cons _ _ Ha), (split_char_cons _ _ Hb).
    reflexivity.
Qed.

Lemma mention_reply_thread (event : mention_event) (m : message) :
  mention_reply AI_ENGINE_URL http event = Ok m ->
  thread_ts m = ev_ts event /\ (text m = None <-> blocks m <> None).
Proof.
  unfold mention_reply. intros E.
  destruct (http _ _ _) as [response|e]; cbn [rbind] in E; [|discriminate].
  destruct (status_code response =? 200)%Z.
  - destruct (json_loads _) as [parsed|e]; cbn [rbind] in E; [|discriminate].
    destruct (subscript parsed "response") as [answer|e]; cbn [rbind] in E;
      [|discriminate].
    destruct (RCA.as_dict parsed) as [fields|e]; cbn [rbind] in E; [|discriminate].
    injection E as <-. cbn. split; [reflexivity|]. split; [discriminate|reflexivity].
  - injection E as <-. cbn. split; [reflexivity|].
    split; [discriminate|intros Hb; now contradict Hb].
Qed.

Lemma mention_replies (event : mention_event) :
  exists m,
    handle_mention AI_ENGINE_URL http event
    = [ say_text "Analyzing... :mag:" (ev_ts event);
        Request "POST" (AI_ENGINE_URL +:+ "/api/v1/chat/query")
                [ ("query", JStr (mention_query (ev_text event)));
                  ("context", JStr "production");
                  ("user_id", JStr (ev_user event)) ];
        Say m ] /\
    thread_ts m = ev_ts event /\
    (text m = None <-> blocks m <> None).
Proof.
  unfold handle_mention.
  destruct (mention_reply AI_ENGINE_URL http event) as [m|e] eqn:E.
  - exists m. split; [reflexivity|]. now apply mention_reply_thread.
  - eexists. split; [reflexivity|]. cbn. split; [reflexivity|].
    split; [discriminate|intros Hb; now contradict Hb].
Qed.

(** [handle_mention] always answers twice, in the thread of the event:
    "Analyzing... :mag:" before the request and one message after it.  The
    second message is the error text when the request or the parsing raises
    or the reply has no "response", the status code when the status is not
    200, and otherwise two blocks, the answer being passed on whatever JSON
    value it is, with a third block exactly when "data" is there and
    truthy. *)
Theorem handle_mention_replies (event : mention_event) :
  let url := AI_ENGINE_URL +:+ "/api/v1/chat/query" in
  let payload := [ ("query", JStr (mention_query (ev_text event)));
                   ("context", JStr "production");
                   ("user_id", JStr (ev_user event)) ] in
  let error e :=
    say_text ("❌ Error processing your request: " +:+ exn_str e) (ev_ts event) in
  (exists m,
     handle_mention AI_ENGINE_URL http event
     = [ say_text "Analyzing... :mag:" (ev_ts event); Request "POST" url payload;
         Say m ] /\
     thread_ts m = ev_ts event /\
     (text m = None <-> blocks m <> None)) /\
  (forall e, http "POST" url payload = Raise e ->
     last (handle_mention AI_ENGINE_URL http event) = Some (error e)) /\
  (forall response, http "POST" url payload = Ok response ->
     (status_code response <> 200%Z ->
      last (handle_mention AI_ENGINE_URL http event)
      = Some (say_text ("❌ Sorry, I encountered an error: "
                        +:+ pretty (status_code response)) (ev_ts event))) /\
     (status_code response = 200%Z ->
      (forall e, json_loads (body response) = Raise e ->
         last (handle_mention AI_ENGINE_URL http event) = Some (error e)) /\
      (forall fields, json_loads (body response) = Ok (JObj fields) ->
         (assoc "response" fields = None ->
          last (handle_mention AI_ENGINE_URL http event)
          = Some (error (PyError "KeyError" "'response'"))) /\
         (forall answer, assoc "response" fields = Some answer ->
            last (handle_mention AI_ENGINE_URL http event)
            = Some (say_blocks
                      ([ header "🤖 AI Analysis Complete"; section answer ]
                       ++ if json_truthy (dict_get fields "data" JNull)
                          then [ section (JStr ("```" +:+ fstr (assoc "data" fields)
                                                +:+ "```")) ]
                          else [])
                      (ev_ts event)))))).
Proof.
  cbv zeta. split; [apply mention_replies|]. split.
  - intros e E. unfold handle_mention, mention_reply, mention_payload.
    rewrite E. reflexivity.
  - intros response E. split.
    + intros Hs. apply Z.eqb_neq in Hs.
      unfold handle_mention, mention_reply, mention_payload.
      rewrite E. cbn [rbind]. rewrite Hs. reflexivity.
    + intros Hs. apply Z.eqb_eq in Hs. split.
      * intros e El. unfold handle_mention, mention_reply, mention_payload.
        rewrite E. cbn [rbind]. rewrite Hs, El. reflexivity.
      * intros fields El. split.
        -- intros Ha. unfold handle_mention, mention_reply, mention_payload.
           rewrite E. cbn [rbind]. rewrite Hs, El. cbn [rbind subscript].
           unfold getitem. rewrite Ha. reflexivity.
        -- intros answer Ha. unfold handle_mention, mention_reply, mention_payload.
           rewrite E. cbn [rbind]. rewrite Hs, El. cbn [rbind subscript].
           unfold getitem. rewrite Ha. cbn [rbind RCA.as_dict].
           destruct (json_truthy (dict_get fields "data" JNull)); reflexivity.
Qed.

Lemma incidents_reply_error_status (time_window : string) (response : http_response) :
  http "GET" (AI_ENGINE_URL +:+ "/api/v1/incidents/recent")
       [ ("window", JStr time_window) ] = Ok response ->
  status_code response <> 200%Z ->
  incidents_reply AI_ENGINE_URL http time_window = Ok [].
Proof.
  intros E Hs. apply Z.eqb_neq in Hs. unfold incidents_reply.
  rewrite E. cbn [rbind]. now rewrite Hs.
Qed.

Lemma view_reply_error_status (incident_id : string) (response : http_response) :
  http "GET" (AI_ENGINE_URL +:+ "/api/v1/incidents/" +:+ incident_id) [] = Ok response ->
  status_code response <> 200%Z ->
  view_reply AI_ENGINE_URL http incident_id = Ok [].
Proof.
  intros E Hs. apply Z.eqb_neq in Hs. unfold view_reply.
  rewrite E. cbn [rbind]. now rewrite Hs.
Qed.

Lemma anomalies_reply_error_status (service : string) (response : http_response) :
  http "GET" (AI_ENGINE_URL +:+ "/api/v1/predict/anomalies") (anomalies_params service)
  = Ok response ->
  status_code response <> 200%Z ->
  anomalies_reply AI_ENGINE_URL http service = Ok [].
Proof.
  intros E Hs. apply Z.eqb_neq in Hs. unfold anomalies_reply.
  rewrite E. cbn [rbind]. now rewrite Hs.
Qed.

Lemma anomalies_command_requests (command_text : option string) :
  strip (default "" command_text) <> "" ->
  handle_anomalies_command AI_ENGINE_URL http command_text
  = [ Ack;
      Request "GET" (AI_ENGINE_URL +:+ "/api/v1/predict/anomalies")
              (anomalies_params (strip (default "" command_text))) ]
    ++ match anomalies_reply AI_ENGINE_URL http (strip (default "" command_text)) with
       | Ok said => said
       | Raise e => [ say_text ("❌ Error checking anomalies: " +:+ exn_str e) None ]
       end.
Proof.
  intros Hne. unfold handle_anomalies_command. cbv zeta.
  destruct (String.eqb_spec (strip (default "" command_text)) ""); [contradiction|].
  reflexivity.
Qed.

(** When the engine answers with a status other than 200, the two slash
    commands and the button say nothing after the acknowledgement: the user
    gets no message, where a mention gets the status code. *)
Theorem commands_silent_on_error_status (status : Z) (content : string)
    (window : option string) (incident_id : string) (service_text : option string) :
  status <> 200%Z ->
  (forall method url payload,
     http method url payload = Ok {| status_code := status; body := content |}) ->
  handle_incidents_command AI_ENGINE_URL http window
  = [ Ack;
      Request "GET" (AI_ENGINE_URL +:+ "/api/v1/incidents/recent")
              [ ("window", JStr (default "24h" window)) ] ] /\
  handle_view_incident AI_ENGINE_URL http incident_id
  = [ Ack;
      Request "GET" (AI_ENGINE_URL +:+ "/api/v1/incidents/" +:+ incident_id) [] ] /\
  (strip (default "" service_text) <> "" ->
   handle_anomalies_command AI_ENGINE_URL http service_text
   = [ Ack;
       Request "GET" (AI_ENGINE_URL +:+ "/api/v1/predict/anomalies")
               [ ("service", JStr (strip (default "" service_text)));
                 ("window", JStr "1h") ] ]).
Proof.
  intros Hs Hhttp. split; [|split].
  - unfold handle_incidents_command. cbv zeta.
    rewrite (incidents_reply_error_status _ _ (Hhttp _ _ _) Hs). reflexivity.
  - unfold handle_view_incident.
    rewrite (view_reply_error_status _ _ (Hhttp _ _ _) Hs). reflexivity.
  - intros Hne. rewrite (anomalies_command_requests _ Hne).
    rewrite (anomalies_reply_error_status _ _ (Hhttp _ _ _) Hs). reflexivity.
Qed.

Lemma anomalies_reply_shape (service : string) (said : list effect) :
  anomalies_reply AI_ENGINE_URL http service = Ok said ->
  said = [] \/
  said = [ say_text ("✅ No anomalies detected in `" +:+ service +:+ "` (last 1h)")
                    None ] \/
  exists sections,
    said = [ say_blocks (header ("⚠️ Anomalies Detected in " +:+ service) :: sections)
                        None ] /\
    (1 <= length sections <= 5)%nat.
Proof.
  unfold anomalies_reply. intros E.
  destruct (http _ _ _) as [response|e]; cbn [rbind] in E; [|discriminate].
  destruct (status_code response =? 200)%Z; [|injection E as <-; now left].
  destruct (json_loads _) as [predictions|e]; cbn [rbind] in E; [|discriminate].
  destruct (iterate predictions) as [items|e]; cbn [rbind] in E; [|discriminate].
  destruct (flagged items) as [[|anomaly anomalies]|e]; cbn [rbind] in E;
    [injection E as <-; right; now left| |discriminate].
  destruct (each anomaly_block (take 5 (anomaly :: anomalies))) as [sections|e] eqn:Es;
    cbn [rbind] in E; [|discriminate].
  injection E as <-. right. right. exists sections. split; [reflexivity|].
  apply each_length in Es. rewrite Es, length_take. cbn [length]. lia.
Qed.

(** What [handle_anomalies_command] does, for every command and every
    engine: for a text that is blank once stripped (or no text) it asks for
    a service name and makes no request; otherwise it makes one request,
    for the stripped text and the window "1h", and then says nothing, or
    one line, or one message of a header and between one and five
    sections. *)
Theorem anomalies_command_shape (command_text : option string) :
  let service := strip (default "" command_text) in
  (service = "" /\
   handle_anomalies_command AI_ENGINE_URL http command_text
   = [ Ack;
       say_text "Please specify a service name. Example: `/anomalies payment-service`"
                None ]) \/
  (service <> "" /\
   exists said,
     handle_anomalies_command AI_ENGINE_URL http command_text
     = [ Ack;
         Request "GET" (AI_ENGINE_URL +:+ "/api/v1/predict/anomalies")
                 [ ("service", JStr service); ("window", JStr "1h") ] ] ++ said /\
     (said = [] \/
      (exists line, said = [ say_text line None ]) \/
      (exists blocks, said = [ say_blocks blocks None ] /\
                      (2 <= length blocks <= 6)%nat))).
Proof.
  cbv zeta.
  destruct (String.eqb_spec (strip (default "" command_text)) "") as [Hs|Hs].
  - left. split; [exact Hs|]. unfold handle_anomalies_command. cbv zeta.
    now rewrite Hs.
  - right. split; [exact Hs|]. rewrite (anomalies_command_requests _ Hs).
    destruct (anomalies_reply _ _ _) as [said|e] eqn:E.
    + exists said. split; [reflexivity|].
      destruct (anomalies_reply_shape _ _ E) as [->|[->|(sections & -> & Hl)]].
      * now left.
      * right. left. eexists. reflexivity.
      * right. right. eexists. split; [reflexivity|]. cbn [length]. lia.
    + eexists. split; [reflexivity|]. right. left. eexists. reflexivity.
Qed.

Lemma flagged_filter (items : list json) :
  Forall (fun p => exists flag, subscript p "is_anomaly" = Ok flag) items ->
  flagged items = Ok (List.filter is_flagged items).
Proof.
  induction 1 as [|p items [flag Hp] _ IH]; [reflexivity|].
  cbn [flagged List.filter]. unfold is_flagged at 1.
  rewrite Hp, IH. cbn [rbind]. reflexivity.
Qed.

Lemma flagged_raises (items : list json) :
  Exists (fun p => exists e, subscript p "is_anomaly" = Raise e) items ->
  exists e, flagged items = Raise e.
Proof.
  induction 1 as [p items [e Hp]|p items _ [e IH]].
  - exists e. cbn [flagged]. now rewrite Hp.
  - cbn [flagged]. destruct (subscript p "is_anomaly") as [flag|e']; cbn [rbind].
    + rewrite IH. now exists e.
    + now exists e'.
Qed.

(** On a 200 answer [handle_anomalies_command] shows only the predictions
    whose "is_anomaly" is truthy, the first five of them in their order:
    when every item has the key and none is truthy it says that no
    anomalies were detected; when some are, it posts a header and
    min(5, number of them) sections; and one item without the key makes
    the whole command end in the error message, whatever the other items
    are. *)
Theorem anomalies_command_filters (command_text : option string)
    (response : http_response) (predictions : json) (items : list json) :
  let service := strip (default "" command_text) in
  let request :=
    Request "GET" (AI_ENGINE_URL +:+ "/api/v1/predict/anomalies")
            [ ("service", JStr service); ("window", JStr "1h") ] in
  service <> "" ->
  http "GET" (AI_ENGINE_URL +:+ "/api/v1/predict/anomalies")
       [ ("service", JStr service); ("window", JStr "1h") ] = Ok response ->
  status_code response = 200%Z ->
  json_loads (body response) = Ok predictions ->
  iterate predictions = Ok items ->
  (Forall (fun p => exists flag, subscript p "is_anomaly" = Ok flag) items ->
   (List.filter is_flagged items = [] ->
    handle_anomalies_command AI_ENGINE_URL http command_text
    = [ Ack; request;
        say_text ("✅ No anomalies detected in `" +:+ service +:+ "` (last 1h)") None ]) /\
   (forall sections,
      List.filter is_flagged items <> [] ->
      each anomaly_block (take 5 (List.filter is_flagged items)) = Ok sections ->
      handle_anomalies_command AI_ENGINE_URL http command_text
      = [ Ack; request;
          say_blocks (header ("⚠️ Anomalies Detected in " +:+ service) :: sections)
                     None ] /\
      length sections = (5 `min` length (List.filter is_flagged items))%nat)) /\
  (Exists (fun p => exists e, subscript p "is_anomaly" = Raise e) items ->
   exists e,
     handle_anomalies_command AI_ENGINE_URL http command_text
     = [ Ack; request;
         say_text ("❌ Error checking anomalies: " +:+ exn_str e) None ]).
Proof.
  cbv zeta. intros Hne E Hs El Ei. apply Z.eqb_eq in Hs.
  rewrite (anomalies_command_requests _ Hne). unfold anomalies_reply, anomalies_params.
  rewrite E. cbn [rbind]. rewrite Hs, El. cbn [rbind]. rewrite Ei. cbn [rbind].
  split.
  - intros Hall. rewrite (flagged_filter _ Hall). cbn [rbind]. split.
    + intros ->. reflexivity.
    + intros sections Hsome Es.
      destruct (List.filter is_flagged items) as [|a l] eqn:Ef; [congruence|].
      rewrite Es. cbn [rbind]. split; [reflexivity|].
      apply each_length in Es. now rewrite Es, length_take.
  - intros Hex. destruct (flagged_raises _ Hex) as [e ->]. now exists e.
Qed.

Lemma first_items_nonempty (value : json) (shown : list json) :
  json_truthy value = true -> first_items 10 value = Ok shown ->
  (1 <= length shown <= 10)%nat.
Proof.
  destruct value as [| | | |s|items|]; cbn [first_items]; try discriminate.
  - intros Ht [= <-]. rewrite length_map, length_take.
    destruct s; [discriminate|]. cbn [list_ascii_of_string length]. lia.
  - intros Ht [= <-]. rewrite length_take.
    destruct items; [discriminate|]. cbn [length]. lia.
Qed.

Lemma incidents_reply_shape (time_window : string) (said : list effect) :
  incidents_reply AI_ENGINE_URL http time_window = Ok said ->
  said = [] \/
  said = [ say_text ("✅ No incidents in the last " +:+ time_window) None ] \/
  exists sections,
    said = [ say_blocks (header ("📊 Incidents (" +:+ time_window +:+ ")") :: sections)
                        None ] /\
    (1 <= length sections <= 10)%nat.
Proof.
  unfold incidents_reply. intros E.
  destruct (http _ _ _) as [response|e]; cbn [rbind] in E; [|discriminate].
  destruct (status_code response =? 200)%Z; [|injection E as <-; now left].
  destruct (json_loads _) as [incidents|e]; cbn [rbind] in E; [|discriminate].
  destruct (json_truthy incidents) eqn:Ht; cbn [negb] in E;
    [|injection E as <-; right; now left].
  destruct (first_items 10 incidents) as [shown|e] eqn:Ef; cbn [rbind] in E;
    [|discriminate].
  destruct (each incident_block shown) as [sections|e] eqn:Es; cbn [rbind] in E;
    [|discriminate].
  injection E as <-. right. right. exists sections. split; [reflexivity|].
  apply each_length in Es. rewrite Es. exact (first_items_nonempty _ _ Ht Ef).
Qed.

Lemma view_reply_shape (incident_id : string) (said : list effect) :
  view_reply AI_ENGINE_URL http incident_id = Ok said ->
  said = [] \/
  exists blocks,
    said = [ say_blocks blocks None ] /\
    head blocks = Some (header ("🔍 " +:+ incident_id)) /\
    (4 <= length blocks <= 5)%nat.
Proof.
  unfold view_reply. intros E.
  destruct (http _ _ _) as [response|e]; cbn [rbind] in E; [|discriminate].
  destruct (status_code response =? 200)%Z; [|injection E as <-; now left].
  destruct (json_loads _) as [incident|e]; cbn [rbind] in E; [|discriminate].
  repeat match type of E with
         | context [rbind ?r _] =>
             destruct r; cbn [rbind] in E; [|discriminate]
         end.
  right.
  destruct (json_truthy _).
  - destruct (sliced 500 _); cbn [rbind] in E; [|discriminate].
    injection E as <-. eexists. split; [reflexivity|].
    split; [reflexivity|]. cbn [length app]. lia.
  - injection E as <-. eexists. split; [reflexivity|].
    split; [reflexivity|]. cbn [length]. lia.
Qed.

(** What the incident list and the incident view do, for every input and
    every engine.  [handle_incidents_command] asks for the window given, or
    "24h" when the command has no text at all (an empty text is sent as it
    is), and then says nothing, or one line, or one message of a header and
    between one and ten sections.  [handle_view_incident] asks for the
    incident and then says nothing, or one line, or one message of four or
    five blocks headed by the incident id. *)
Theorem incident_messages_shape (command_text : option string) (incident_id : string) :
  (exists said,
     handle_incidents_command AI_ENGINE_URL http command_text
     = [ Ack;
         Request "GET" (AI_ENGINE_URL +:+ "/api/v1/incidents/recent")
                 [ ("window", JStr (default "24h" command_text)) ] ] ++ said /\
     (said = [] \/
      (exists line, said = [ say_text line None ]) \/
      (exists blocks, said = [ say_blocks blocks None ] /\
                      (2 <= length blocks <= 11)%nat))) /\
  (exists said,
     handle_view_incident AI_ENGINE_URL http incident_id
     = [ Ack;
         Request "GET" (AI_ENGINE_URL +:+ "/api/v1/incidents/" +:+ incident_id) [] ]
       ++ said /\
     (said = [] \/
      (exists line, said = [ say_text line None ]) \/
      (exists blocks, said = [ say_blocks blocks None ] /\
                      head blocks = Some (header ("🔍 " +:+ incident_id)) /\
                      (4 <= length blocks <= 5)%nat))).
Proof.
  split.
  - unfold handle_incidents_command. cbv zeta.
    destruct (incidents_reply _ _ _) as [said|e] eqn:E.
    + exists said. split; [reflexivity|].
      destruct (incidents_reply_shape _ _ E) as [->|[->|(sections & -> & Hl)]].
      * now left.
      * right. left. eexists. reflexivity.
      * right. right. eexists. split; [reflexivity|]. cbn [length]. lia.
    + eexists. split; [reflexivity|]. right. left. eexists. reflexivity.
  - unfold handle_view_incident.
    destruct (view_reply _ _ _) as [said|e] eqn:E.
    + exists said. split; [reflexivity|].
      destruct (view_reply_shape _ _ E) as [->|(blocks & -> & Hh & Hl)].
      * now left.
      * right. right. exists blocks. now repeat split.
    + eexists. split; [reflexivity|]. right. left. eexists. reflexivity.
Qed.

Lemma mark_of_default (name : string) :
  mark_of name severity_marks = None <->
  ~ In name [ "critical"; "high"; "medium"; "low" ].
Proof.
  cbn [mark_of severity_marks In].
  destruct (String.eqb_spec "critical" name) as [<-|H1]; [split; [discriminate|tauto]|].
  destruct (String.eqb_spec "high" name) as [<-|H2]; [split; [discriminate|tauto]|].
  destruct (String.eqb_spec "medium" name) as [<-|H3]; [split; [discriminate|tauto]|].
  destruct (String.eqb_spec "low" name) as [<-|H4]; [split; [discriminate|tauto]|].
  split; [tauto|reflexivity].
Qed.

(** [send_proactive_alert] posts one message to the channel, of three
    blocks, or four when "auto_fix_applied" is there and truthy, whose
    header starts with the mark of the severity; it raises, and posts
    nothing, when one of the five fields it reads is missing; and a severity
    that is a string gets the white mark exactly when it is not one of
    "critical", "high", "medium" and "low" in lower case. *)
Theorem send_proactive_alert_blocks (channel : string) (incident : pydict) :
  (forall posted, send_proactive_alert channel incident = Ok posted ->
     exists severity emoji incident_id blocks,
       assoc "severity" incident = Some severity /\
       severity_emoji severity = Ok emoji /\
       assoc "incident_id" incident = Some incident_id /\
       posted = PostMessage channel ("Incident detected: " +:+ fstr (Some incident_id))
                            blocks /\
       head blocks = Some (header (emoji +:+ " Incident Detected")) /\
       length blocks
       = if json_truthy (dict_get incident "auto_fix_applied" JNull) then 4%nat
         else 3%nat) /\
  (forall key,
     In key [ "severity"; "incident_id"; "service"; "status"; "root_cause" ] ->
     assoc key incident = None ->
     exists e, send_proactive_alert channel incident = Raise e) /\
  (forall severity emoji,
     assoc "severity" incident = Some severity ->
     severity_emoji severity = Ok emoji ->
     (forall key, In key [ "incident_id"; "service"; "status"; "root_cause" ] ->
                  assoc key incident <> None) ->
     exists posted, send_proactive_alert channel incident = Ok posted) /\
  (forall name,
     severity_emoji (JStr name) = Ok "⚪" <->
     ~ In name [ "critical"; "high"; "medium"; "low" ]).
Proof.
  split; [|split; [|split]].
  - intros posted E. unfold send_proactive_alert, getitem in E.
    destruct (assoc "severity" incident) as [severity|]; cbn [rbind] in E;
      [|discriminate].
    destruct (severity_emoji severity) as [emoji|e] eqn:Ee; cbn [rbind] in E;
      [|discriminate].
    destruct (assoc "incident_id" incident) as [incident_id|]; cbn [rbind] in E;
      [|discriminate].
    destruct (assoc "service" incident); cbn [rbind] in E; [|discriminate].
    destruct (assoc "status" incident); cbn [rbind] in E; [|discriminate].
    destruct (assoc "root_cause" incident); cbn [rbind] in E; [|discriminate].
    injection E as <-. exists severity, emoji, incident_id. eexists.
    split; [reflexivity|]. split; [exact Ee|]. split; [reflexivity|].
    split; [reflexivity|].
    destruct (json_truthy _); split; reflexivity.
  - intros key Hin Hk. unfold send_proactive_alert, getitem.
    cbn [In] in Hin.
    destruct (assoc "severity" incident) as [severity|] eqn:E1; cbn [rbind];
      [|eexists; reflexivity].
    destruct (severity_emoji severity) as [emoji|e]; cbn [rbind];
      [|eexists; reflexivity].
    destruct (assoc "incident_id" incident) eqn:E2; cbn [rbind];
      [|eexists; reflexivity].
    destruct (assoc "service" incident) eqn:E3; cbn [rbind]; [|eexists; reflexivity].
    destruct (assoc "status" incident) eqn:E4; cbn [rbind]; [|eexists; reflexivity].
    destruct (assoc "root_cause" incident) eqn:E5; cbn [rbind];
      [|eexists; reflexivity].
    exfalso. destruct Hin as [<-|[<-|[<-|[<-|[<-|[]]]]]]; congruence.
  - intros severity emoji Hsev Hemoji Hkeys. unfold send_proactive_alert, getitem.
    rewrite Hsev. cbn [rbind]. rewrite Hemoji. cbn [rbind].
    destruct (assoc "incident_id" incident) eqn:E2;
      [|exfalso; apply (Hkeys "incident_id"); [cbn; tauto|exact E2]].
    destruct (assoc "service" incident) eqn:E3;
      [|exfalso; apply (Hkeys "service"); [cbn; tauto|exact E3]].
    destruct (assoc "status" incident) eqn:E4;
      [|exfalso; apply (Hkeys "status"); [cbn; tauto|exact E4]].
    destruct (assoc "root_cause" incident) eqn:E5;
      [|exfalso; apply (Hkeys "root_cause"); [cbn; tauto|exact E5]].
    cbn [rbind]. eexists. reflexivity.
  - intros name. rewrite <- mark_of_default. cbn [severity_emoji].
    split.
    + intros E. destruct (mark_of name severity_marks) as [mark|] eqn:Em;
        [|reflexivity].
      exfalso. cbn [mark_of severity_marks] in Em.
      repeat match type of Em with
             | context [String.eqb ?a ?b] => destruct (String.eqb a b)
             end; try discriminate Em; injection Em as <-; cbn in E; discriminate E.
    + intros ->. reflexivity.
Qed.

End Handlers.

(** A mention with a comparison in it loses what follows the ">". *)
Example mention_query_cut :
  mention_query (fmt := BotExamples.test_formatting) "<@U1> is p99 > 200ms?"
  = "is p99".
Proof. reflexivity. Qed.

(** An engine that answers 503 to everything. *)
Lemma commands_silent_on_error_status_witness :
  handle_incidents_command (rt := BotExamples.bot_runtime)
    (fmt := BotExamples.test_formatting) BotExamples.engine_url
    (BotExamples.answering {| status_code := 503; body := "" |}) (Some "7d")
  = [ Ack;
      Request "GET" "http://localhost:8000/api/v1/incidents/recent"
              [ ("window", JStr "7d") ] ] /\
  handle_view_incident (rt := BotExamples.bot_runtime)
    (fmt := BotExamples.test_formatting) BotExamples.engine_url
    (BotExamples.answering {| status_code := 503; body := "" |}) "INC-7"
  = [ Ack; Request "GET" "http://localhost:8000/api/v1/incidents/INC-7" [] ] /\
  handle_anomalies_command (rt := BotExamples.bot_runtime)
    (fmt := BotExamples.test_formatting) BotExamples.engine_url
    (BotExamples.answering {| status_code := 503; body := "" |})
    (Some " payment-service ")
  = [ Ack;
      Request "GET" "http://localhost:8000/api/v1/predict/anomalies"
              [ ("service", JStr "payment-service"); ("window", JStr "1h") ] ].
Proof.
  destruct (commands_silent_on_error_status (rt := BotExamples.bot_runtime)
              (fmt := BotExamples.test_formatting) BotExamples.engine_url
              (BotExamples.answering {| status_code := 503; body := "" |})
              503 "" (Some "7d") "INC-7" (Some " payment-service ")
              ltac:(discriminate) ltac:(reflexivity)) as (H1 & H2 & H3).
  split; [exact H1|]. split; [exact H2|]. apply H3. discriminate.
Defined.

(** Four predictions, the second and the fourth flagged. *)
Lemma anomalies_command_filters_witness :
  exists sections,
    handle_anomalies_command (rt := BotExamples.bot_runtime)
      (fmt := BotExamples.test_formatting) BotExamples.engine_url
      (BotExamples.answering
         {| status_code := 200;
            body := Examples.render BotExamples.predictions_body |})
      (Some " payment-service ")
    = [ Ack;
        Request "GET" "http://localhost:8000/api/v1/predict/anomalies"
                [ ("service", JStr "payment-service"); ("window", JStr "1h") ];
        say_blocks (header "⚠️ Anomalies Detected in payment-service" :: sections)
                   None ] /\
    length sections = 2%nat.
Proof.
  eexists.
  refine (proj2 (proj1 (anomalies_command_filters (rt := BotExamples.bot_runtime)
                   (fmt := BotExamples.test_formatting) BotExamples.engine_url
                   (BotExamples.answering
                      {| status_code := 200;
                         body := Examples.render BotExamples.predictions_body |})
                   (Some " payment-service ") _ BotExamples.predictions_body
                   _ _ eq_refl eq_refl _ eq_refl) _) _ _ _).
  - discriminate.
  - vm_compute. reflexivity.
  - repeat constructor; eexists; reflexivity.
  - discriminate.
  - vm_compute. reflexivity.
Defined.

(** *** The bot and the engine's routes *)

Lemma routed_not_ok (method path : string) (status : Z) :
  routed method path = Some status -> status <> 200%Z.
Proof.
  unfold routed. intros E.
  repeat match type of E with
         | context [if ?c then _ else _] => destruct c
         end; try discriminate; injection E as <-; discriminate.
Qed.

Lemma no_incident_path (incident_id : string) (route : string * string) :
  In route all_routes ->
  has_path ("/api/v1/incidents/" +:+ incident_id) route = true ->
  route = ("POST", "/api/v1/incidents/analyze") /\
  (incident_id = "analyze" \/ incident_id = "analyze" +:+ nl).
Proof.
  intros Hin Hp. unfold has_path, matches in Hp.
  apply orb_true_iff in Hp as [Hp|Hp]; apply String.eqb_eq in Hp;
    vm_compute in Hin;
    repeat (destruct Hin as [<-|Hin]; [cbn [snd] in Hp; vm_compute in Hp|]);
    try discriminate Hp; try contradiction;
    injection Hp as ->; split; try reflexivity; [now left | now right].
Qed.

Lemma analyze_path_known (incident_id : string) :
  incident_id = "analyze" \/ incident_id = "analyze" +:+ nl ->
  existsb (has_path ("/api/v1/incidents/" +:+ incident_id)) all_routes = true.
Proof. intros [-> | ->]; reflexivity. Qed.

Lemma incident_paths_unrouted (incident_id : string) :
  exists status,
    routed "GET" ("/api/v1/incidents/" +:+ incident_id) = Some status /\
    status <> 200%Z /\
    (status = 405%Z <->
     incident_id = "analyze" \/ incident_id = "analyze" +:+ nl).
Proof.
  unfold routed.
  destruct (existsb (fun r => String.eqb (fst r) "GET" && has_path _ r) all_routes)
    eqn:Efull.
  { exfalso. apply existsb_exists in Efull as (route & Hin & Hr).
    apply andb_prop in Hr as [Hm Hp].
    destruct (no_incident_path _ _ Hin Hp) as [-> _]. discriminate Hm. }
  destruct (existsb (has_path _) all_routes) eqn:Epartial.
  - apply existsb_exists in Epartial as (route & Hin & Hp).
    destruct (no_incident_path _ _ Hin Hp) as [_ Hid].
    exists 405%Z. split; [reflexivity|]. split; [discriminate|]. now split.
  - assert (Hid : ~ (incident_id = "analyze" \/ incident_id = "analyze" +:+ nl)).
    { intros H. apply analyze_path_known in H. congruence. }
    destruct (_ && _); eexists; (split; [reflexivity|]);
      (split; [discriminate|]); split; intros H; try discriminate H; contradiction.
Qed.

(** The engine has no route for the incident list and the incident view the
    bot asks for: a GET of "/api/v1/incidents/recent" gets 404, and a GET
    of any path under "/api/v1/incidents/" is taken by no route; it gets
    405 exactly for "analyze", alone or followed by one line break, which
    is the path of a route that only takes POST.  The two routes the bot
    uses besides, for mentions and for anomalies, exist. *)
Theorem incident_routes_missing :
  routed "GET" "/api/v1/incidents/recent" = Some 404%Z /\
  (forall incident_id,
     exists status,
       routed "GET" ("/api/v1/incidents/" +:+ incident_id) = Some status /\
       status <> 200%Z /\
       (status = 405%Z <->
        incident_id = "analyze" \/ incident_id = "analyze" +:+ nl)) /\
  routed "POST" "/api/v1/chat/query" = None /\
  routed "GET" "/api/v1/predict/anomalies" = None.
Proof.
  split; [reflexivity|]. split; [|split; reflexivity].
  intros incident_id. apply incident_paths_unrouted.
Qed.

(** The line break is seen by the router, and a trailing slash redirects. *)
Example routed_examples :
  routed "GET" ("/api/v1/incidents/analyze" +:+ nl) = Some 405%Z /\
  routed "GET" "/api/v1/incidents/analyze/" = Some 307%Z /\
  routed "GET" ("/health" +:+ nl) = None /\
  routed "GET" "/api/v1/incidents/INC-7" = Some 404%Z /\
  routed "HEAD" "/health" = Some 405%Z.
Proof. repeat split. Qed.

Lemma url_safe_app (p s : string) :
  url_safe p = true -> url_safe s = true -> url_safe (p +:+ s) = true.
Proof.
  induction p as [|c p IH]; intros Hp Hs; [exact Hs|].
  change (String c p +:+ s) with (String c (p +:+ s)).
  cbn [url_safe] in *. apply andb_prop in Hp as [Hc Hp].
  now rewrite Hc, (IH Hp Hs).
Qed.

(** With the bot's client in front of this engine, the incident list and
    the incident view never answer the user: for every window, and for
    every incident id made of letters, digits, "-", "_" and "/" (which the
    client sends as it is), the handlers acknowledge, make their request
    and say nothing, the engine having no such route. *)
Theorem incident_commands_unanswered `{rt : PyRuntime} `{fmt : Formatting}
    (AI_ENGINE_URL : string)
    (http : string -> string -> pydict -> result http_response)
    (command_text : option string) (incident_id : string) :
  connected AI_ENGINE_URL http ->
  url_safe incident_id = true ->
  handle_incidents_command AI_ENGINE_URL http command_text
  = [ Ack;
      Request "GET" (AI_ENGINE_URL +:+ "/api/v1/incidents/recent")
              [ ("window", JStr (default "24h" command_text)) ] ] /\
  handle_view_incident AI_ENGINE_URL http incident_id
  = [ Ack;
      Request "GET" (AI_ENGINE_URL +:+ "/api/v1/incidents/" +:+ incident_id) [] ].
Proof.
  intros Hconn Hsafe. split.
  - destruct (Hconn "GET" "/api/v1/incidents/recent"
                [ ("window", JStr (default "24h" command_text)) ] 404%Z
                eq_refl eq_refl) as [content E].
    unfold handle_incidents_command. cbv zeta.
    rewrite (incidents_reply_error_status _ _ _ _ E); [reflexivity|].
    cbn. discriminate.
  - destruct (incident_paths_unrouted incident_id) as (status & Hr & Hs & _).
    destruct (Hconn "GET" ("/api/v1/incidents/" +:+ incident_id) [] status
                (url_safe_app "/api/v1/incidents/" incident_id eq_refl Hsafe) Hr)
      as [content E].
    unfold handle_view_incident.
    rewrite (view_reply_error_status _ _ _ _ E); [reflexivity|].
    exact Hs.
Qed.

Lemma routed_client_connected :
  connected BotExamples.engine_url BotExamples.routed_client.
Proof.
  intros method path payload status _ E. exists "{}".
  unfold BotExamples.routed_client.
  change (BotExamples.after _ (BotExamples.engine_url +:+ path)) with path.
  now rewrite E.
Qed.

Lemma incident_commands_unanswered_witness :
  handle_incidents_command (rt := BotExamples.bot_runtime)
    (fmt := BotExamples.test_formatting) BotExamples.engine_url
    BotExamples.routed_client None
  = [ Ack;
      Request "GET" "http://localhost:8000/api/v1/incidents/recent"
              [ ("window", JStr "24h") ] ] /\
  handle_view_incident (rt := BotExamples.bot_runtime)
    (fmt := BotExamples.test_formatting) BotExamples.engine_url
    BotExamples.routed_client "INC-7"
  = [ Ack; Request "GET" "http://localhost:8000/api/v1/incidents/INC-7" [] ].
Proof.
  exact (incident_commands_unanswered (rt := BotExamples.bot_runtime)
           (fmt := BotExamples.test_formatting) BotExamples.engine_url
           BotExamples.routed_client None "INC-7" routed_client_connected eq_refl).
Defined.

(** *** The bot in front of [predict_anomalies] *)

Lemma endpoint_outcome (anomaly_predictor : Anomaly.AnomalyPredictor)
    (service window : string) (now : Z) (g : Anomaly.rng) :
  let outcome :=
    fst (Prediction.predict_anomalies anomaly_predictor service window now g) in
  (outcome = Ok [] \/ exists detail, outcome = Raise (HTTPException 500 detail)) /\
  (Scoring.row_wise anomaly_predictor ->
   exists detail, outcome = Raise (HTTPException 500 detail)).
Proof.
  cbv zeta. unfold Prediction.predict_anomalies, Anomaly.predict.
  pose proof (ScoringProps.fetch_metrics_window_length service window now g) as Hlen.
  destruct (Anomaly._fetch_metrics service window now g) as [metrics_data g'].
  simpl in *. split.
  - destruct (Anomaly.predict_on anomaly_predictor metrics_data)
      as [[|pred predictions]|e]; simpl.
    + now left.
    + right. eexists. reflexivity.
    + right. eexists. reflexivity.
  - intros Hrows.
    destruct (ScoringProps.predict_on_row_wise anomaly_predictor metrics_data Hrows)
      as (results & -> & Hlength).
    destruct results as [|pred results]; [rewrite Hlen in Hlength; discriminate Hlength|].
    simpl. eexists. reflexivity.
Qed.

(** Served by this engine, the anomalies command never shows an anomaly:
    whatever the predictor, the clock and the random draws, the handler
    says nothing (the endpoint having failed with status 500) or says that
    no anomalies were detected (the predictor having returned no verdict);
    with a scaler and a model that keep the number of rows it always says
    nothing. *)
Theorem anomalies_never_reported `{rt : PyRuntime} `{fmt : Formatting}
    (AI_ENGINE_URL : string)
    (http : string -> string -> pydict -> result http_response)
    (anomaly_predictor : Anomaly.AnomalyPredictor) (now : Z) (g : Anomaly.rng)
    (command_text : option string) (response : http_response) :
  let service := strip (default "" command_text) in
  let request :=
    Request "GET" (AI_ENGINE_URL +:+ "/api/v1/predict/anomalies")
            [ ("service", JStr service); ("window", JStr "1h") ] in
  service <> "" ->
  http "GET" (AI_ENGINE_URL +:+ "/api/v1/predict/anomalies")
       [ ("service", JStr service); ("window", JStr "1h") ] = Ok response ->
  Served.serves
    (fst (Prediction.predict_anomalies anomaly_predictor service "1h" now g))
    response ->
  (handle_anomalies_command AI_ENGINE_URL http command_text = [ Ack; request ] \/
   handle_anomalies_command AI_ENGINE_URL http command_text
   = [ Ack; request;
       say_text ("✅ No anomalies detected in `" +:+ service +:+ "` (last 1h)") None ]) /\
  (Scoring.row_wise anomaly_predictor ->
   handle_anomalies_command AI_ENGINE_URL http command_text = [ Ack; request ]).
Proof.
  cbv zeta. intros Hne E Hserved.
  rewrite (anomalies_command_requests _ _ _ Hne).
  destruct (endpoint_outcome anomaly_predictor
              (strip (default "" command_text)) "1h" now g) as [Hany Hrows].
  cbv zeta in Hany, Hrows.
  assert (Hfailed : forall detail,
             fst (Prediction.predict_anomalies anomaly_predictor
                    (strip (default "" command_text)) "1h" now g)
             = Raise (HTTPException 500 detail) ->
             anomalies_reply AI_ENGINE_URL http (strip (default "" command_text))
             = Ok []).
  { intros detail Ho. rewrite Ho in Hserved. cbn [Served.serves] in Hserved.
    apply (anomalies_reply_error_status _ _ _ _ E). rewrite Hserved. discriminate. }
  split.
  - destruct Hany as [Ho|[detail Ho]].
    + right. rewrite Ho in Hserved. destruct Hserved as [Hs Hl].
      apply Z.eqb_eq in Hs. unfold anomalies_reply, anomalies_params.
      rewrite E. cbn [rbind]. rewrite Hs, Hl. reflexivity.
    + left. now rewrite (Hfailed detail Ho).
  - intros Hr. destruct (Hrows Hr) as [detail Ho]. now rewrite (Hfailed detail Ho).
Qed.

(** The example predictor behind an engine that answers as FastAPI does. *)
Lemma anomalies_never_reported_witness :
  handle_anomalies_command (rt := BotExamples.bot_runtime)
    (fmt := BotExamples.test_formatting) BotExamples.engine_url
    (BotExamples.answering {| status_code := 500; body := "{}" |})
    (Some "payment-service")
  = [ Ack;
      Request "GET" "http://localhost:8000/api/v1/predict/anomalies"
              [ ("service", JStr "payment-service"); ("window", JStr "1h") ] ].
Proof.
  refine (proj2 (anomalies_never_reported (rt := BotExamples.bot_runtime)
                   (fmt := BotExamples.test_formatting) BotExamples.engine_url
                   (BotExamples.answering {| status_code := 500; body := "{}" |})
                   Examples.demo_predictor 0 Examples.draws_zero
                   (Some "payment-service") {| status_code := 500; body := "{}" |}
                   _ eq_refl _)
            ScoringProps.demo_predictor_row_wise).
  - discriminate.
  - vm_compute. reflexivity.
Defined.

End SlackProps.
